(** * The snapshot blob container of [src/snapshot/snapshot.cc]

    A shallow embedding of the blob layout, of [Snapshot::CreateSnapshotBlob]
    and of the extraction and validation functions of [SnapshotImpl],
    followed by the properties of the container format.

    Conventions of the embedding:
    - a [uint32_t] is a [Z] kept in range by [to_uint32]; an [int] by
      [to_int32];
    - memory is a [list byte]; a pointer into the blob is an offset from the
      blob's [data] pointer;
    - a failed [CHECK] or a [FATAL] is the result [Fatal]; an access
      outside the array a pointer points into is the result [Undefined];
    - [PrintF] appends a line to an explicit output log. *)

From Stdlib Require Import String.
From Stdlib Require Import ZArith Lia List Bool Sorted.
From coqutil Require Import Byte Word.LittleEndianList.
Import ListNotations.

Local Open Scope Z_scope.

(* ------------------------------------------------------------------ *)
(** ** Machine integers *)

Definition to_uint32 (z : Z) : Z := z mod 2 ^ 32.

Definition to_int32 (z : Z) : Z :=
  let u := to_uint32 z in if u <? 2 ^ 31 then u else u - 2 ^ 32.

(* ------------------------------------------------------------------ *)
(** ** Outcomes of a call *)

(** What a failed run-time check reports.  [CheckFailed] carries the text of
    the failed condition, [VersionMismatch] the four arguments of the
    [FATAL] format string of [CheckVersion]. *)
Inductive failure : Type :=
| CheckFailed (condition : string)
| VersionMismatch (binary_version snapshot_version : list byte)
                  (raw_size num_contexts : Z).

Inductive outcome (A : Type) : Type :=
| Ret (a : A)
| Fatal (f : failure)
| Undefined.

Arguments Ret {A} a.
Arguments Fatal {A} f.
Arguments Undefined {A}.

Definition bind {A B : Type} (m : outcome A) (k : A -> outcome B) : outcome B :=
  match m with
  | Ret a => k a
  | Fatal f => Fatal f
  | Undefined => Undefined
  end.

Notation "x <- m ;; k" := (bind m (fun x => k))
  (at level 61, m at next level, right associativity).
Notation "' pat <- m ;; k" := (bind m (fun x => match x with pat => k end))
  (at level 61, pat pattern, m at next level, right associativity).
Notation "m ;;; k" := (bind m (fun _ => k))
  (at level 61, right associativity).

(** [CHECK(cond)] and its variants [CHECK_LT], [CHECK_IMPLIES]: the process
    aborts when [cond] is false. *)
Definition CHECK (cond : bool) (text : string) : outcome unit :=
  if cond then Ret tt else Fatal (CheckFailed text).

Definition is_fatal {A : Type} (m : outcome A) : Prop :=
  exists f, m = Fatal f.

(* ------------------------------------------------------------------ *)
(** ** Memory *)

(** Pointers are offsets into the array they point into.  [slice] reads
    and [write_at] stores a run of bytes; both are undefined outside the
    array. *)

(** [slice buf off len]: the [len] bytes of [buf] from index [off]. *)
Definition slice (buf : list byte) (off len : Z) : outcome (list byte) :=
  if (0 <=? off) && (0 <=? len) && (off + len <=? Z.of_nat (length buf))
  then Ret (firstn (Z.to_nat len) (skipn (Z.to_nat off) buf))
  else Undefined.

(** [write_at buf off src]: [buf] with [src] stored from index [off]. *)
Definition write_at (buf : list byte) (off : Z) (src : list byte)
  : outcome (list byte) :=
  if (0 <=? off) && (off + Z.of_nat (length src) <=? Z.of_nat (length buf))
  then Ret (firstn (Z.to_nat off) buf ++ src ++
            skipn (Z.to_nat off + length src) buf)
  else Undefined.

Definition memset (buf : list byte) (off : Z) (c : byte) (n : Z)
  : outcome (list byte) :=
  write_at buf off (repeat c (Z.to_nat n)).

(** Modelled from the spec: [CopyBytes] of src/utils/memcopy.h, which is
    not among the sources, copies [n] bytes of [src] to [dst + off]. *)
Definition CopyBytes (buf : list byte) (off : Z) (src : list byte) (n : Z)
  : outcome (list byte) :=
  if n <=? Z.of_nat (length src)
  then write_at buf off (firstn (Z.to_nat n) src)
  else Undefined.

(** [new char[n]]: the array holds whatever the allocator left there,
    given by [fresh]. *)
Definition new_array (fresh : nat -> byte) (n : Z) : list byte :=
  map fresh (seq 0 (Z.to_nat n)).

(** Modelled from the spec: [base::ReadLittleEndianValue<uint32_t>] and
    [base::WriteLittleEndianValue<uint32_t>] of src/base/memory.h, which is
    not among the sources; header integers are little-endian and four
    bytes wide. *)
Definition ReadLittleEndianValue (buf : list byte) (off : Z) : outcome Z :=
  bs <- slice buf off 4 ;; Ret (le_combine bs).

Definition WriteLittleEndianValue (buf : list byte) (off : Z) (value : Z)
  : outcome (list byte) :=
  write_at buf off (le_split 4 value).

(* ------------------------------------------------------------------ *)
(** ** Data *)

(** [v8::StartupData]: [data = None] is the null pointer, otherwise the
    array [data] points to; [raw_size] is an [int]. *)
Record StartupData : Type := {
  data : option (list byte);
  raw_size : Z
}.

(** [Vector<const byte>(data->data + start, length)]. *)
Record Vector : Type := {
  start : Z;
  length_ : Z
}.

(** The bytes a view denotes inside the blob it was taken from. *)
Definition view_bytes (blob : StartupData) (v : Vector) : outcome (list byte) :=
  match data blob with
  | Some buf => slice buf (start v) (length_ v)
  | None => Undefined
  end.

Record Reservation : Type := { chunk_size : Z }.

(** [SnapshotData]: the raw bytes of a segment and its reservations. *)
Record SnapshotData : Type := {
  RawData : list byte;
  Reservations : list Reservation
}.

Record Isolate : Type := { snapshot_blob : option StartupData }.

(** Lines printed under [FLAG_profile_deserialization]. *)
Inductive line : Type :=
| ReserveHeading
| BytesPerIsolate (total : Z)
| BytesPerContext (total : Z) (index : Z)
| StartupBytes (bytes chunks : Z)
| ReadOnlyBytes (bytes : Z)
| ContextBytes (bytes chunks index : Z).

(* ------------------------------------------------------------------ *)
(** ** What the build fixes *)

(** The pointer width of the target, which [POINTER_SIZE_ALIGN] rounds to. *)
Inductive pointer_width : Type := Bits32 | Bits64.

(** The parts of a build that [snapshot.cc] only refers to: the target, the
    [DEBUG] and [V8_SNAPSHOT_COMPRESSION] macros, and three functions
    defined in other files. *)
Class Build : Type := {
  target : pointer_width;
  DEBUG : bool;
  V8_SNAPSHOT_COMPRESSION : bool;
  (** [SnapshotCompression::Compress]. *)
  Compress : SnapshotData -> SnapshotData;
  (** The function behind [Checksum] of snapshot-utils. *)
  checksum_function : list byte -> Z;
  (** The text [Version::GetString] prints. *)
  version_string : list byte
}.

Section Program.

Context {build : Build}.

Definition kSystemPointerSize : Z :=
  match target with Bits32 => 4 | Bits64 => 8 end.

Definition kPointerAlignment : Z := kSystemPointerSize.
Definition kPointerAlignmentMask : Z := kPointerAlignment - 1.

(** Modelled from the spec: the macro [POINTER_SIZE_ALIGN(value)] of
    src/common/globals.h, which is not among the sources, pads [value] up
    to the pointer alignment:
    [((value) + kPointerAlignmentMask) & ~kPointerAlignmentMask]. *)
Definition POINTER_SIZE_ALIGN (value : Z) : Z :=
  Z.land (value + kPointerAlignmentMask) (Z.lnot kPointerAlignmentMask).

(** Modelled from the spec: the sizes of [uint32_t] and [int32_t], four
    bytes, declared in src/common/globals.h. *)
Definition kUInt32Size : Z := 4.
Definition kInt32Size : Z := 4.

(** [uint32_t Checksum(Vector<const byte> payload)] of snapshot-utils:
    any function of the payload, its result a [uint32_t]. *)
Definition Checksum (payload : list byte) : Z :=
  to_uint32 (checksum_function payload).

(** Modelled from the spec: [Version::GetString(Vector<char> str)] is
    defined in src/utils/version.cc, which is not among the sources.  It
    prints the running build's version into [str] the way [snprintf] does:
    at most [length str - 1] characters, then a terminating NUL, the rest
    of [str] untouched. *)
Definition GetString (str : list byte) : list byte :=
  match str with
  | [] => []
  | _ :: _ =>
      let text := firstn (length str - 1) version_string in
      text ++ [Byte.x00] ++ skipn (length text + 1) str
  end.

(** [strncmp(s1, s2, n)] on the bytes found at two pointers. *)
Fixpoint strncmp (s1 s2 : list byte) (n : nat) {struct n} : outcome Z :=
  match n with
  | O => Ret 0
  | S n' =>
      match s1, s2 with
      | c1 :: t1, c2 :: t2 =>
          if byte.unsigned c1 =? byte.unsigned c2
          then if byte.unsigned c1 =? 0 then Ret 0 else strncmp t1 t2 n'
          else Ret (byte.unsigned c1 - byte.unsigned c2)
      | _, _ => Undefined
      end
  end.

(** What [printf("%.*s", n, s)] prints: the bytes at [s] up to a NUL, at
    most [n] of them. *)
Fixpoint printed_string (n : nat) (s : list byte) : outcome (list byte) :=
  match n with
  | O => Ret []
  | S n' =>
      match s with
      | c :: t =>
          if byte.unsigned c =? 0 then Ret []
          else rest <- printed_string n' t ;; Ret (c :: rest)
      | [] => Undefined
      end
  end.

(** [DCHECK(cond)]: compiled to nothing unless [DEBUG]. *)
Definition DCHECK (cond : outcome bool) (text : string) : outcome unit :=
  if DEBUG then (c <- cond ;; CHECK c text) else Ret tt.

(* ------------------------------------------------------------------ *)
(** ** [class SnapshotImpl] *)

Definition GetHeaderValue (blob : StartupData) (offset : Z) : outcome Z :=
  match data blob with
  | Some buf => ReadLittleEndianValue buf offset
  | None => Undefined
  end.

Definition SetHeaderValue (buf : list byte) (offset value : Z)
  : outcome (list byte) :=
  WriteLittleEndianValue buf offset value.

Definition kNumberOfContextsOffset : Z := 0.
Definition kRehashabilityOffset : Z := kNumberOfContextsOffset + kUInt32Size.
Definition kChecksumOffset : Z := kRehashabilityOffset + kUInt32Size.
Definition kVersionStringOffset : Z := kChecksumOffset + kUInt32Size.
Definition kVersionStringLength : Z := 64.
Definition kReadOnlyOffsetOffset : Z :=
  kVersionStringOffset + kVersionStringLength.
Definition kFirstContextOffsetOffset : Z :=
  kReadOnlyOffsetOffset + kUInt32Size.

Definition ChecksummedContent (blob : StartupData) : Vector :=
  let kChecksumStart := kVersionStringOffset in
  {| start := kChecksumStart;
     length_ := to_uint32 (raw_size blob - kChecksumStart) |}.

(** The parameter is an [int]; the product is an [int], the sum a
    [uint32_t]. *)
Definition StartupSnapshotOffset (num_contexts : Z) : Z :=
  to_uint32 (POINTER_SIZE_ALIGN
               (to_uint32 (kFirstContextOffsetOffset +
                           to_int32 (to_int32 num_contexts * kInt32Size)))).

Definition ContextSnapshotOffsetOffset (index : Z) : Z :=
  to_uint32 (kFirstContextOffsetOffset +
             to_int32 (to_int32 index * kInt32Size)).

(** [CHECK_LT] between a [uint32_t] and an [int] compares the two values
    as numbers (the comparison helpers of base/logging.h treat the mixed
    signedness), so such checks are written on [raw_size] itself; where the
    source casts [raw_size] first, the cast is written out. *)
Definition ExtractNumContexts (blob : StartupData) : outcome Z :=
  CHECK (kNumberOfContextsOffset <? raw_size blob)
        "kNumberOfContextsOffset < data->raw_size" ;;;
  num_contexts <- GetHeaderValue blob kNumberOfContextsOffset ;;
  Ret num_contexts.

(** [Snapshot::SnapshotIsValid], which exists under [DEBUG] only. *)
Definition SnapshotIsValid (blob : StartupData) : outcome bool :=
  n <- ExtractNumContexts blob ;; Ret (0 <? n).

(** [index] is a [size_t]. *)
Definition HasContextSnapshot (isolate : Isolate) (index : Z) : outcome bool :=
  match snapshot_blob isolate with
  | None => Ret false
  | Some blob =>
      match data blob with
      | None => Ret false
      | Some _ =>
          num_contexts <- ExtractNumContexts blob ;;
          Ret (index <? num_contexts)
      end
  end.

(** [Snapshot::VerifyChecksum]; the elapsed time it prints under
    [FLAG_profile_deserialization] is left out. *)
Definition VerifyChecksum (blob : StartupData) : outcome bool :=
  expected <- GetHeaderValue blob kChecksumOffset ;;
  payload <- view_bytes blob (ChecksummedContent blob) ;;
  let result := Checksum payload in
  Ret (result =? expected).

Definition ExtractContextOffset (blob : StartupData) (index : Z) : outcome Z :=
  context_offset <- GetHeaderValue blob (ContextSnapshotOffsetOffset index) ;;
  CHECK (context_offset <? to_uint32 (raw_size blob))
        "context_offset < static_cast<uint32_t>(data->raw_size)" ;;;
  Ret context_offset.

Definition ExtractRehashability (blob : StartupData) : outcome bool :=
  CHECK (kRehashabilityOffset <? to_uint32 (raw_size blob))
        "kRehashabilityOffset < static_cast<uint32_t>(data->raw_size)" ;;;
  rehashability <- GetHeaderValue blob kRehashabilityOffset ;;
  CHECK (implb (negb (rehashability =? 0)) (rehashability =? 1))
        "rehashability != 0 implies rehashability == 1" ;;;
  Ret (negb (rehashability =? 0)).

Definition ExtractData (snapshot : StartupData) (start_offset end_offset : Z)
  : outcome Vector :=
  CHECK (start_offset <? end_offset) "start_offset < end_offset" ;;;
  CHECK (end_offset <? raw_size snapshot) "end_offset < snapshot->raw_size" ;;;
  let length := to_uint32 (end_offset - start_offset) in
  Ret {| start := start_offset; length_ := length |}.

Definition ExtractStartupData (blob : StartupData) : outcome Vector :=
  DCHECK (SnapshotIsValid blob) "Snapshot::SnapshotIsValid(data)" ;;;
  num_contexts <- ExtractNumContexts blob ;;
  end_offset <- GetHeaderValue blob kReadOnlyOffsetOffset ;;
  ExtractData blob (StartupSnapshotOffset num_contexts) end_offset.

Definition ExtractReadOnlyData (blob : StartupData) : outcome Vector :=
  DCHECK (SnapshotIsValid blob) "Snapshot::SnapshotIsValid(data)" ;;;
  start_offset <- GetHeaderValue blob kReadOnlyOffsetOffset ;;
  end_offset <- GetHeaderValue blob (ContextSnapshotOffsetOffset 0) ;;
  ExtractData blob start_offset end_offset.

Definition ExtractContextData (blob : StartupData) (index : Z)
  : outcome Vector :=
  num_contexts <- ExtractNumContexts blob ;;
  CHECK (index <? num_contexts) "index < num_contexts" ;;;
  context_offset <- ExtractContextOffset blob index ;;
  next_context_offset <-
    (if index =? to_uint32 (num_contexts - 1)
     then Ret (to_uint32 (raw_size blob))
     else
       next <- ExtractContextOffset blob (to_uint32 (index + 1)) ;;
       CHECK (next <? raw_size blob)
             "next_context_offset < data->raw_size" ;;;
       Ret next) ;;
  let context_length := to_uint32 (next_context_offset - context_offset) in
  Ret {| start := context_offset; length_ := context_length |}.

Definition CheckVersion (blob : StartupData) : outcome unit :=
  (* char version[kVersionStringLength], then memset over all of it *)
  let version := repeat Byte.x00 (Z.to_nat kVersionStringLength) in
  CHECK (kVersionStringOffset + kVersionStringLength
           <? to_uint32 (raw_size blob))
        "kVersionStringOffset + kVersionStringLength < raw_size" ;;;
  let version := GetString version in
  match data blob with
  | None => Undefined
  | Some buf =>
      let embedded := skipn (Z.to_nat kVersionStringOffset) buf in
      cmp <- strncmp version embedded (Z.to_nat kVersionStringLength) ;;
      if negb (cmp =? 0) then
        binary <- printed_string (Z.to_nat kVersionStringLength) version ;;
        snapshot <- printed_string (Z.to_nat kVersionStringLength) embedded ;;
        num_contexts <- ExtractNumContexts blob ;;
        Fatal (VersionMismatch binary snapshot (raw_size blob) num_contexts)
      else Ret tt
  end.

(* ------------------------------------------------------------------ *)
(** ** Building a blob *)

Definition PrintF (flag : bool) (out : list line) (l : line) : list line :=
  if flag then out ++ [l] else out.

(** [int total = 0; for (r : Reservations()) total += r.chunk_size();] *)
Definition reserved_total (start : Z) (s : SnapshotData) : Z :=
  fold_left (fun total r => to_int32 (total + chunk_size r))
            (Reservations s) start.

Fixpoint profile_contexts (context_snapshots : list SnapshotData) (i : Z)
  : list line :=
  match context_snapshots with
  | [] => []
  | c :: rest =>
      BytesPerContext (reserved_total 0 c) i :: profile_contexts rest (i + 1)
  end.

Definition ProfileDeserialization (FLAG_profile_deserialization : bool)
    (read_only_snapshot startup_snapshot : SnapshotData)
    (context_snapshots : list SnapshotData) : list line :=
  if FLAG_profile_deserialization then
    let startup_total := reserved_total 0 read_only_snapshot in
    let startup_total := reserved_total startup_total startup_snapshot in
    [ReserveHeading; BytesPerIsolate startup_total]
      ++ profile_contexts context_snapshots 0
  else [].

(** The segment the blob stores for an input segment. *)
Definition MaybeCompress (s : SnapshotData) : SnapshotData :=
  if V8_SNAPSHOT_COMPRESSION then Compress s else s.

(** [v[i]] of a [std::vector]. *)
Definition at_index {A : Type} (v : list A) (i : Z) : outcome A :=
  if 0 <=? i then
    match nth_error v (Z.to_nat i) with
    | Some a => Ret a
    | None => Undefined
    end
  else Undefined.

Definition raw_length (s : SnapshotData) : Z :=
  to_uint32 (Z.of_nat (length (RawData s))).

(** The loop [for (uint32_t i = 0; i < num_contexts; i++)] of
    [CreateSnapshotBlob], with [n] the number of rounds still to run. *)
Fixpoint write_contexts (FLAG_profile_deserialization : bool)
    (context_snapshots context_snapshots_in : list SnapshotData)
    (n : nat) (i : Z) (buf : list byte) (payload_offset : Z)
    (out : list line) : outcome (list byte * Z * list line) :=
  match n with
  | O => Ret (buf, payload_offset, out)
  | S n' =>
      buf <- SetHeaderValue buf (ContextSnapshotOffsetOffset i)
                            payload_offset ;;
      context_snapshot <- at_index context_snapshots i ;;
      let payload_length := raw_length context_snapshot in
      buf <- CopyBytes buf payload_offset (RawData context_snapshot)
                       payload_length ;;
      out <- (if FLAG_profile_deserialization then
                original <- at_index context_snapshots_in i ;;
                Ret (out ++ [ContextBytes payload_length
                               (to_uint32 (Z.of_nat
                                  (length (Reservations original)))) i])
              else Ret out) ;;
      let payload_offset := to_uint32 (payload_offset + payload_length) in
      write_contexts FLAG_profile_deserialization context_snapshots
                     context_snapshots_in n' (to_uint32 (i + 1)) buf
                     payload_offset out
  end.

(** The allocation of [CreateSnapshotBlob]:
    [char* data = new char[total_length];
     memset(data, 0, SnapshotImpl::StartupSnapshotOffset(num_contexts));] *)
Definition allocate_data (fresh : nat -> byte) (total_length num_contexts : Z)
  : outcome (list byte) :=
  let buf := new_array fresh total_length in
  (* Zero out pre-payload data. Part of that is only used for padding. *)
  memset buf 0 Byte.x00 (StartupSnapshotOffset num_contexts).

(** [Snapshot::CreateSnapshotBlob].  [fresh] is the content of the array
    [new char[total_length]] returns; the result is the blob and what was
    printed. *)
Definition CreateSnapshotBlob (FLAG_profile_deserialization : bool)
    (fresh : nat -> byte)
    (startup_snapshot_in read_only_snapshot_in : SnapshotData)
    (context_snapshots_in : list SnapshotData) (can_be_rehashed : bool)
  : outcome (StartupData * list line) :=
  let startup_snapshot := MaybeCompress startup_snapshot_in in
  let read_only_snapshot := MaybeCompress read_only_snapshot_in in
  let context_snapshots := map MaybeCompress context_snapshots_in in
  let num_contexts := to_uint32 (Z.of_nat (length context_snapshots)) in
  let startup_snapshot_offset := StartupSnapshotOffset num_contexts in
  let total_length := startup_snapshot_offset in
  let total_length := to_uint32 (total_length + raw_length startup_snapshot) in
  let total_length :=
    to_uint32 (total_length + raw_length read_only_snapshot) in
  let total_length :=
    fold_left (fun total c => to_uint32 (total + raw_length c))
              context_snapshots total_length in
  let out := ProfileDeserialization FLAG_profile_deserialization
               read_only_snapshot_in startup_snapshot_in
               context_snapshots_in in
  buf <- allocate_data fresh total_length num_contexts ;;
  buf <- SetHeaderValue buf kNumberOfContextsOffset num_contexts ;;
  buf <- SetHeaderValue buf kRehashabilityOffset
                        (if can_be_rehashed then 1 else 0) ;;
  (* Write version string into snapshot data. *)
  buf <- memset buf kVersionStringOffset Byte.x00 kVersionStringLength ;;
  field <- slice buf kVersionStringOffset kVersionStringLength ;;
  buf <- write_at buf kVersionStringOffset (GetString field) ;;
  (* Startup snapshot (isolate-specific data). *)
  let payload_offset := startup_snapshot_offset in
  let payload_length := raw_length startup_snapshot in
  buf <- CopyBytes buf payload_offset (RawData startup_snapshot)
                   payload_length ;;
  let out := PrintF FLAG_profile_deserialization out
               (StartupBytes payload_length
                  (to_uint32 (Z.of_nat
                     (length (Reservations startup_snapshot_in))))) in
  let payload_offset := to_uint32 (payload_offset + payload_length) in
  (* Read-only. *)
  buf <- SetHeaderValue buf kReadOnlyOffsetOffset payload_offset ;;
  let payload_length := raw_length read_only_snapshot in
  buf <- CopyBytes buf payload_offset (RawData read_only_snapshot)
                   payload_length ;;
  let out := PrintF FLAG_profile_deserialization out
               (ReadOnlyBytes payload_length) in
  let payload_offset := to_uint32 (payload_offset + payload_length) in
  (* Context snapshots (context-specific data). *)
  '(buf, payload_offset, out) <-
    write_contexts FLAG_profile_deserialization context_snapshots
                   context_snapshots_in (Z.to_nat num_contexts) 0 buf
                   payload_offset out ;;
  DCHECK (Ret (total_length =? payload_offset))
         "total_length == payload_offset" ;;;
  let result := {| data := Some buf; raw_size := to_int32 total_length |} in
  payload <- view_bytes result (ChecksummedContent result) ;;
  buf <- SetHeaderValue buf kChecksumOffset (Checksum payload) ;;
  Ret ({| data := Some buf; raw_size := to_int32 total_length |}, out).

End Program.

(* ------------------------------------------------------------------ *)
(** ** The layout [CreateSnapshotBlob] produces, written as one list *)

Section Layout.

Context {build : Build}.

Definition len {A : Type} (l : list A) : Z := Z.of_nat (length l).

(** The 64 bytes of the version field of the running build. *)
Definition version_field : list byte :=
  GetString (repeat Byte.x00 (Z.to_nat kVersionStringLength)).

Definition payload_size (segments : list SnapshotData) : Z :=
  fold_right (fun c total => len (RawData c) + total) 0 segments.

(** The length of the blob when no addition wraps around. *)
Definition ideal_total_length (startup read_only : SnapshotData)
    (contexts : list SnapshotData) : Z :=
  POINTER_SIZE_ALIGN (kFirstContextOffsetOffset + 4 * len contexts)
  + len (RawData startup) + len (RawData read_only) + payload_size contexts.

(** The offsets of consecutive segments, the first one at [first]. *)
Fixpoint context_offsets (first : Z) (contexts : list SnapshotData) : list Z :=
  match contexts with
  | [] => []
  | c :: rest => first :: context_offsets (first + len (RawData c)) rest
  end.

(** Everything from the version field on, for stored segments
    [startup], [read_only] and [contexts]. *)
Definition blob_body (startup read_only : SnapshotData)
    (contexts : list SnapshotData) : list byte :=
  let n := len contexts in
  let startup_offset := StartupSnapshotOffset n in
  let read_only_offset := startup_offset + len (RawData startup) in
  let first_context := read_only_offset + len (RawData read_only) in
  version_field
    ++ le_split 4 read_only_offset
    ++ flat_map (le_split 4) (context_offsets first_context contexts)
    ++ repeat Byte.x00
         (Z.to_nat (startup_offset - (kFirstContextOffsetOffset + 4 * n)))
    ++ RawData startup ++ RawData read_only ++ flat_map RawData contexts.

Definition blob_image (can_be_rehashed : bool)
    (startup read_only : SnapshotData) (contexts : list SnapshotData)
  : list byte :=
  let body := blob_body startup read_only contexts in
  le_split 4 (len contexts)
    ++ le_split 4 (if can_be_rehashed then 1 else 0)
    ++ le_split 4 (Checksum body)
    ++ body.



(** The C string held in [s]: the bytes before the first NUL. *)
Fixpoint c_str (s : list byte) : list byte :=
  match s with
  | [] => []
  | c :: t => if byte.unsigned c =? 0 then [] else c :: c_str t
  end.

(** The 64-byte version field embedded in [bytes]. *)
Definition embedded_version (bytes : list byte) : list byte :=
  firstn (Z.to_nat kVersionStringLength)
         (skipn (Z.to_nat kVersionStringOffset) bytes).

(** The memory and the offset the context loop leaves, without the log. *)
Definition strip_log (r : outcome (list byte * Z * list line))
  : outcome (list byte * Z) :=
  '(buf, payload_offset, _) <- r ;; Ret (buf, payload_offset).

Definition produced_blob (r : outcome (StartupData * list line))
  : outcome StartupData :=
  '(blob, _) <- r ;; Ret blob.

Definition printed_lines (r : outcome (StartupData * list line))
  : outcome (list line) :=
  '(_, out) <- r ;; Ret out.

End Layout.

(* ------------------------------------------------------------------ *)
(** ** Concrete builds and blobs *)

Module Sample.

Definition ascii_bytes (s : string) : list byte := list_byte_of_string s.

Definition byte_sum (payload : list byte) : Z :=
  fold_left (fun total b => total + byte.unsigned b) payload 0.

Definition reversed (s : SnapshotData) : SnapshotData :=
  {| RawData := rev (RawData s); Reservations := Reservations s |}.

(** A 64-bit debug build without compression. *)
Definition build64 : Build :=
  {| target := Bits64; DEBUG := true; V8_SNAPSHOT_COMPRESSION := false;
     Compress := fun s => s; checksum_function := byte_sum;
     version_string := ascii_bytes "8.1.307" |}.

(** A 32-bit release build with a (toy) compressor. *)
Definition build32 : Build :=
  {| target := Bits32; DEBUG := false; V8_SNAPSHOT_COMPRESSION := true;
     Compress := reversed; checksum_function := byte_sum;
     version_string := ascii_bytes "8.1.307" |}.

Definition segment (s : string) : SnapshotData :=
  {| RawData := ascii_bytes s; Reservations := [ {| chunk_size := 16 |} ] |}.

Definition stale : nat -> byte := fun _ => Byte.xff.

(** The scenario of the specification: startup [S1], read-only [RO1],
    contexts [C0AAA] and [C1B], rehashable. *)
Definition scenario (b : Build) : outcome (StartupData * list line) :=
  CreateSnapshotBlob (build := b) false stale (segment "S1") (segment "RO1")
    [segment "C0AAA"; segment "C1B"] true.

Definition scenario_blob : StartupData :=
  match produced_blob (scenario build64) with
  | Ret blob => blob
  | _ => {| data := None; raw_size := 0 |}
  end.

(** The same with an empty startup segment. *)
Definition empty_startup (b : Build) : outcome (StartupData * list line) :=
  CreateSnapshotBlob (build := b) false stale (segment "") (segment "RO1")
    [segment "C0AAA"; segment "C1B"] true.

Definition empty_startup_blob : StartupData :=
  match produced_blob (empty_startup build64) with
  | Ret blob => blob
  | _ => {| data := None; raw_size := 0 |}
  end.

(** With an empty read-only segment. *)
Definition empty_read_only (b : Build) : outcome (StartupData * list line) :=
  CreateSnapshotBlob (build := b) false stale (segment "S1") (segment "")
    [segment "C0AAA"; segment "C1B"] true.

(** With an empty last context. *)
Definition empty_last_context (b : Build)
  : outcome (StartupData * list line) :=
  CreateSnapshotBlob (build := b) false stale (segment "S1") (segment "RO1")
    [segment "C0AAA"; segment ""] true.

(** Without any context. *)
Definition no_contexts (b : Build) : outcome (StartupData * list line) :=
  CreateSnapshotBlob (build := b) false stale (segment "S1") (segment "RO1")
    [] true.

(** A blob of two contexts whose stored context offsets are out of order:
    context 0 at 100, context 1 at 96, both below the size 120. *)
Definition swapped_offsets_blob : StartupData :=
  {| data := Some (le_split 4 2 ++ le_split 4 0 ++ le_split 4 0
                     ++ repeat Byte.x00 64
                     ++ le_split 4 92 ++ le_split 4 100 ++ le_split 4 96
                     ++ repeat Byte.x00 32);
     raw_size := 120 |}.

(** A blob whose version field holds the text of [build64] followed, after
    the terminating NUL, by bytes that are not zero. *)
Definition dirty_version_blob : StartupData :=
  {| data := Some (le_split 4 1 ++ le_split 4 0 ++ le_split 4 0
                     ++ (ascii_bytes "8.1.307" ++ [Byte.x00]
                           ++ ascii_bytes "-other" ++ repeat Byte.x00 50)
                     ++ repeat Byte.x00 20);
     raw_size := 96 |}.

(** A blob that records another version. *)
Definition other_version_blob : StartupData :=
  {| data := Some (le_split 4 1 ++ le_split 4 0 ++ le_split 4 0
                     ++ (ascii_bytes "8.1.306" ++ repeat Byte.x00 57)
                     ++ repeat Byte.x00 20);
     raw_size := 96 |}.

(** An isolate whose blob has a buffer but a size of zero. *)
Definition zero_size_isolate : Isolate :=
  {| snapshot_blob :=
       Some {| data := Some (repeat Byte.x00 4); raw_size := 0 |} |}.

(** A blob of eight bytes: it ends before the version string would begin. *)
Definition short_blob : StartupData :=
  {| data := Some (repeat Byte.x00 8); raw_size := 8 |}.

(** A buffer with the version of [build64] whose [raw_size] is negative. *)
Definition negative_size_blob : StartupData :=
  {| data := Some (le_split 4 1 ++ le_split 4 0 ++ le_split 4 0
                     ++ (ascii_bytes "8.1.307" ++ repeat Byte.x00 57)
                     ++ repeat Byte.x00 20);
     raw_size := -1 |}.

End Sample.

(* ------------------------------------------------------------------ *)
(** ** Loading a blob *)

(** What [Snapshot::Initialize] and [Snapshot::NewContextFromSnapshot]
    print under [FLAG_profile_deserialization]; the elapsed time of the
    two messages is left out. *)
Inductive timing_line : Type :=
| DeserializingIsolate (bytes : Z)
| DeserializingContext (context_index bytes : Z).

(** The parts of the engine that [Snapshot::Initialize] and
    [Snapshot::NewContextFromSnapshot] call and that are defined in other
    files. *)
Class Engine : Type := {
  (** What a [Handle<Context>], a [Handle<JSGlobalProxy>] and a
      [v8::DeserializeEmbedderFieldsCallback] stand for. *)
  ContextHandle : Type;
  GlobalProxyHandle : Type;
  EmbedderFieldsCallback : Type;
  (** The constructor [SnapshotData(const Vector<const byte>)]. *)
  SnapshotData_of : list byte -> SnapshotData;
  (** [SnapshotCompression::Decompress]. *)
  Decompress : list byte -> SnapshotData;
  (** [Isolate::snapshot_available]. *)
  snapshot_available : Isolate -> bool;
  (** [Isolate::InitWithSnapshot], given the data and the rehashability of
      the read-only deserializer and of the startup deserializer. *)
  InitWithSnapshot :
    Isolate -> SnapshotData * bool -> SnapshotData * bool -> bool;
  (** [ContextDeserializer::DeserializeContext]; [None] is the empty
      [MaybeHandle]. *)
  DeserializeContext :
    Isolate -> SnapshotData -> bool -> GlobalProxyHandle ->
    EmbedderFieldsCallback -> option ContextHandle
}.

Section Loading.

Context {build : Build} {engine : Engine}.

(** [MaybeDecompress(snapshot_data)].  With compression the bytes of the
    view are read at once; without it the view is only wrapped, and its
    bytes are read when the deserializer runs: the inner outcome is that
    pending read. *)
Definition MaybeDecompress (blob : StartupData) (snapshot_data : Vector)
  : outcome (outcome SnapshotData) :=
  if V8_SNAPSHOT_COMPRESSION then
    bytes <- view_bytes blob snapshot_data ;;
    Ret (Ret (Decompress bytes))
  else
    Ret (bytes <- view_bytes blob snapshot_data ;;
         Ret (SnapshotData_of bytes)).

(** The [SnapshotData] a deserializer gets for the stored bytes [bytes]. *)
Definition loaded_segment (bytes : list byte) : SnapshotData :=
  if V8_SNAPSHOT_COMPRESSION then Decompress bytes else SnapshotData_of bytes.

(** [Snapshot::Initialize].  The result is what [InitWithSnapshot] returns
    and what was printed. *)
Definition Initialize (FLAG_profile_deserialization : bool)
    (isolate : Isolate) : outcome (bool * list timing_line) :=
  if negb (snapshot_available isolate) then Ret (false, []) else
  match snapshot_blob isolate with
  | None => Undefined
  | Some blob =>
      CheckVersion blob ;;;
      verified <- VerifyChecksum blob ;;
      CHECK verified "VerifyChecksum(blob)" ;;;
      startup_data <- ExtractStartupData blob ;;
      read_only_data <- ExtractReadOnlyData blob ;;
      startup_snapshot_data <- MaybeDecompress blob startup_data ;;
      read_only_snapshot_data <- MaybeDecompress blob read_only_data ;;
      startup_rehashability <- ExtractRehashability blob ;;
      read_only_rehashability <- ExtractRehashability blob ;;
      (* the two deserializers read their data *)
      read_only <- read_only_snapshot_data ;;
      startup <- startup_snapshot_data ;;
      let success :=
        InitWithSnapshot isolate (read_only, read_only_rehashability)
                         (startup, startup_rehashability) in
      let out :=
        if FLAG_profile_deserialization
        then [DeserializingIsolate (to_int32 (length_ startup_data))]
        else [] in
      Ret (success, out)
  end.

(** [Snapshot::NewContextFromSnapshot]; [context_index] is a [size_t]. *)
Definition NewContextFromSnapshot (FLAG_profile_deserialization : bool)
    (isolate : Isolate) (global_proxy : GlobalProxyHandle)
    (context_index : Z)
    (embedder_fields_deserializer : EmbedderFieldsCallback)
  : outcome (option ContextHandle * list timing_line) :=
  if negb (snapshot_available isolate) then Ret (None, []) else
  match snapshot_blob isolate with
  | None => Undefined
  | Some blob =>
      can_rehash <- ExtractRehashability blob ;;
      context_data <- ExtractContextData blob (to_uint32 context_index) ;;
      pending <- MaybeDecompress blob context_data ;;
      snapshot_data <- pending ;;
      match DeserializeContext isolate snapshot_data can_rehash global_proxy
                               embedder_fields_deserializer with
      | None => Ret (None, [])
      | Some result =>
          let out :=
            if FLAG_profile_deserialization
            then [DeserializingContext context_index
                    (to_int32 (length_ context_data))]
            else [] in
          Ret (Some result, out)
      end
  end.

End Loading.

(** The sum of the chunk sizes of the reservations of a segment. *)
Definition chunk_total (s : SnapshotData) : Z :=
  fold_right (fun r total => chunk_size r + total) 0 (Reservations s).

Module SampleEngine.

(** An engine whose deserializers report what they were given: a context
    is the bytes it was made from, and the isolate initializes exactly when
    both segments are rehashable and the startup data is not empty. *)
Definition echo : Engine :=
  {| ContextHandle := list byte * bool;
     GlobalProxyHandle := unit;
     EmbedderFieldsCallback := unit;
     SnapshotData_of := fun bytes => {| RawData := bytes; Reservations := [] |};
     Decompress :=
       fun bytes => {| RawData := rev bytes; Reservations := [] |};
     snapshot_available :=
       fun isolate =>
         match snapshot_blob isolate with
         | Some blob => negb (raw_size blob =? 0)
         | None => false
         end;
     InitWithSnapshot :=
       fun _ read_only startup =>
         snd read_only && snd startup
         && negb (Nat.eqb (length (RawData (fst startup))) 0);
     DeserializeContext :=
       fun _ snapshot_data can_rehash _ _ =>
         match RawData snapshot_data with
         | [] => None
         | _ :: _ => Some (RawData snapshot_data, can_rehash)
         end |}.

Definition scenario_isolate : Isolate :=
  {| snapshot_blob := Some Sample.scenario_blob |}.

(** The scenario built by the 32-bit build, which compresses. *)
Definition scenario_blob32 : StartupData :=
  match produced_blob (Sample.scenario Sample.build32) with
  | Ret blob => blob
  | _ => {| data := None; raw_size := 0 |}
  end.

Definition scenario_isolate32 : Isolate :=
  {| snapshot_blob := Some scenario_blob32 |}.


End SampleEngine.

(* ------------------------------------------------------------------ *)
(** ** Arithmetic *)

Lemma to_uint32_small (z : Z) : 0 <= z < 2 ^ 32 -> to_uint32 z = z.
Proof. intros H. unfold to_uint32. now apply Z.mod_small. Qed.

Lemma to_int32_small (z : Z) : 0 <= z < 2 ^ 31 -> to_int32 z = z.
Proof.
  intros H. unfold to_int32. rewrite to_uint32_small by lia.
  destruct (Z.ltb_spec z (2 ^ 31)); lia.
Qed.

Lemma to_uint32_range (z : Z) : 0 <= to_uint32 z < 2 ^ 32.
Proof. unfold to_uint32. apply Z.mod_pos_bound. lia. Qed.

Section Alignment.

Context {build : Build}.

Lemma kSystemPointerSize_cases :
  kSystemPointerSize = 4 \/ kSystemPointerSize = 8.
Proof. unfold kSystemPointerSize. destruct target; auto. Qed.

Lemma POINTER_SIZE_ALIGN_div (v : Z) :
  POINTER_SIZE_ALIGN v
  = (v + (kSystemPointerSize - 1)) / kSystemPointerSize * kSystemPointerSize.
Proof.
  unfold POINTER_SIZE_ALIGN, kPointerAlignmentMask, kPointerAlignment.
  rewrite <- Z.ldiff_land.
  destruct kSystemPointerSize_cases as [-> | ->].
  - change (4 - 1) with (Z.ones 2). rewrite Z.ldiff_ones_r by lia.
    rewrite Z.shiftl_mul_pow2, Z.shiftr_div_pow2 by lia. reflexivity.
  - change (8 - 1) with (Z.ones 3). rewrite Z.ldiff_ones_r by lia.
    rewrite Z.shiftl_mul_pow2, Z.shiftr_div_pow2 by lia. reflexivity.
Qed.

Lemma POINTER_SIZE_ALIGN_bounds (v : Z) :
  v <= POINTER_SIZE_ALIGN v < v + 8.
Proof.
  rewrite POINTER_SIZE_ALIGN_div.
  destruct kSystemPointerSize_cases as [-> | ->];
    match goal with
    | |- context [(?a / ?b) * ?b] =>
        pose proof (Z.div_mod a b ltac:(lia));
        pose proof (Z.mod_pos_bound a b ltac:(lia))
    end; lia.
Qed.

Lemma StartupSnapshotOffset_ideal (n : Z) :
  0 <= n -> POINTER_SIZE_ALIGN (kFirstContextOffsetOffset + 4 * n) < 2 ^ 31 ->
  StartupSnapshotOffset n
  = POINTER_SIZE_ALIGN (kFirstContextOffsetOffset + 4 * n).
Proof.
  intros Hn Hb. unfold StartupSnapshotOffset, kInt32Size.
  change kFirstContextOffsetOffset with 80 in *.
  pose proof (POINTER_SIZE_ALIGN_bounds (80 + 4 * n)) as Hal.
  rewrite (to_int32_small n) by lia.
  rewrite (to_int32_small (n * 4)) by lia.
  rewrite (to_uint32_small (80 + n * 4)) by lia.
  replace (80 + n * 4) with (80 + 4 * n) by lia.
  apply to_uint32_small. lia.
Qed.

Lemma ContextSnapshotOffsetOffset_small (i : Z) :
  0 <= i -> kFirstContextOffsetOffset + 4 * i < 2 ^ 31 ->
  ContextSnapshotOffsetOffset i = kFirstContextOffsetOffset + 4 * i.
Proof.
  intros Hi Hb. unfold ContextSnapshotOffsetOffset, kInt32Size.
  change kFirstContextOffsetOffset with 80 in *.
  rewrite (to_int32_small i) by lia.
  rewrite (to_int32_small (i * 4)) by lia.
  rewrite to_uint32_small by lia. lia.
Qed.

End Alignment.

(* ------------------------------------------------------------------ *)
(** ** Reading and writing memory *)

Lemma bind_Ret {A B : Type} (a : A) (k : A -> outcome B) :
  bind (Ret a) k = k a.
Proof. reflexivity. Qed.

Lemma slice_mid (X Y W : list byte) (off n : Z) :
  off = len X -> n = len Y -> slice (X ++ Y ++ W) off n = Ret Y.
Proof.
  unfold len. intros -> ->. unfold slice.
  rewrite !length_app.
  replace ((0 <=? Z.of_nat (length X)) && (0 <=? Z.of_nat (length Y)) &&
           (Z.of_nat (length X) + Z.of_nat (length Y)
              <=? Z.of_nat (length X + (length Y + length W))))
    with true by (symmetry; rewrite !andb_true_iff, !Z.leb_le; lia).
  rewrite !Nat2Z.id.
  rewrite skipn_app, skipn_all, Nat.sub_diag. simpl.
  rewrite firstn_app, firstn_all, Nat.sub_diag. simpl.
  now rewrite app_nil_r.
Qed.

Lemma write_at_mid (X Y W src : list byte) (off : Z) :
  off = len X -> length Y = length src ->
  write_at (X ++ Y ++ W) off src = Ret (X ++ src ++ W).
Proof.
  unfold len. intros -> HY. unfold write_at.
  rewrite !length_app.
  replace ((0 <=? Z.of_nat (length X)) &&
           (Z.of_nat (length X) + Z.of_nat (length src)
              <=? Z.of_nat (length X + (length Y + length W))))
    with true by (symmetry; rewrite !andb_true_iff, !Z.leb_le; lia).
  rewrite Nat2Z.id.
  rewrite firstn_app, firstn_all, Nat.sub_diag. simpl. rewrite app_nil_r.
  rewrite <- HY.
  rewrite skipn_app, skipn_all2 by lia.
  replace (length X + length Y - length X)%nat with (length Y) by lia.
  rewrite skipn_app, skipn_all, Nat.sub_diag. reflexivity.
Qed.

Lemma read_le_mid (X W : list byte) (v off : Z) :
  off = len X -> 0 <= v < 2 ^ 32 ->
  ReadLittleEndianValue (X ++ le_split 4 v ++ W) off = Ret v.
Proof.
  intros Hoff Hv. unfold ReadLittleEndianValue.
  rewrite slice_mid by (auto; now rewrite length_le_split).
  simpl. rewrite le_combine_split. f_equal. apply Z.mod_small.
  change (2 ^ (Z.of_nat 4 * 8)) with (2 ^ 32). lia.
Qed.

Lemma len_app {A : Type} (l1 l2 : list A) : len (l1 ++ l2) = len l1 + len l2.
Proof. unfold len. rewrite length_app. lia. Qed.

Lemma len_repeat {A : Type} (a : A) (n : nat) : len (repeat a n) = Z.of_nat n.
Proof. unfold len. now rewrite repeat_length. Qed.

Lemma len_le_split (n : nat) (v : Z) : len (le_split n v) = Z.of_nat n.
Proof. unfold len. now rewrite length_le_split. Qed.

Lemma len_nonneg {A : Type} (l : list A) : 0 <= len l.
Proof. unfold len. lia. Qed.

Lemma payload_size_nonneg {build : Build} (cs : list SnapshotData) :
  0 <= payload_size cs.
Proof.
  induction cs as [| c cs IH]; simpl; [lia |].
  pose proof (len_nonneg (RawData c)). lia.
Qed.

Lemma payload_size_app {build : Build} (cs1 cs2 : list SnapshotData) :
  payload_size (cs1 ++ cs2) = payload_size cs1 + payload_size cs2.
Proof. induction cs1 as [| c cs1 IH]; simpl; lia. Qed.

Lemma len_flat_map_RawData {build : Build} (cs : list SnapshotData) :
  len (flat_map RawData cs) = payload_size cs.
Proof.
  induction cs as [| c cs IH]; simpl; [reflexivity |].
  rewrite len_app. lia.
Qed.

Lemma at_index_app {A : Type} (l1 l2 : list A) (a : A) :
  at_index (l1 ++ a :: l2) (len l1) = Ret a.
Proof.
  unfold at_index, len.
  destruct (Z.leb_spec 0 (Z.of_nat (length l1))); [| lia].
  rewrite Nat2Z.id, nth_error_app2, Nat.sub_diag by lia. reflexivity.
Qed.

Lemma at_index_defined {A : Type} (l : list A) (i : Z) :
  0 <= i < len l -> exists a, at_index l i = Ret a.
Proof.
  unfold at_index, len. intros H.
  destruct (Z.leb_spec 0 i); [| lia].
  destruct (nth_error l (Z.to_nat i)) eqn:E; [eauto |].
  apply nth_error_None in E. lia.
Qed.

Lemma CopyBytes_mid (X Y W src : list byte) (off n : Z) :
  off = len X -> n = len src -> length Y = length src ->
  CopyBytes (X ++ Y ++ W) off src n = Ret (X ++ src ++ W).
Proof.
  intros Hoff -> HY. unfold CopyBytes, len.
  rewrite Z.leb_refl, Nat2Z.id, firstn_all.
  now apply write_at_mid.
Qed.

(* ------------------------------------------------------------------ *)
(** ** The blob [CreateSnapshotBlob] builds *)

Section Creation.
Context {build : Build}.

Lemma write_contexts_layout (flag : bool) (cs cin : list SnapshotData) :
  length cin = length cs ->
  kFirstContextOffsetOffset + 4 * len cs < 2 ^ 31 ->
  forall (todo done : list SnapshotData) (A P Fc : list byte) (po : Z)
         (out : list line),
    cs = done ++ todo ->
    len A = kFirstContextOffsetOffset + 4 * len done ->
    len Fc = payload_size todo ->
    po = len (A ++ repeat Byte.x00 (4 * length todo) ++ P) ->
    po + payload_size todo < 2 ^ 31 ->
    exists out',
      write_contexts flag cs cin (length todo) (len done)
        (A ++ repeat Byte.x00 (4 * length todo) ++ P ++ Fc) po out
      = Ret (A ++ flat_map (le_split 4) (context_offsets po todo)
               ++ P ++ flat_map RawData todo,
             po + payload_size todo, out').
Proof.
  intros Hlen Hcs. change kFirstContextOffsetOffset with 80 in *.
  induction todo as [| c rest IH]; intros done A P Fc po out Hsplit HA HFc Hpo Hfit.
  - simpl. exists out. simpl in HFc.
    destruct Fc; [| unfold len in HFc; simpl in HFc; lia].
    rewrite !app_nil_r, Z.add_0_r. reflexivity.
  - pose proof (len_nonneg done) as Hd0.
    pose proof (len_nonneg (RawData c)) as Hc0.
    pose proof (payload_size_nonneg rest) as Hr0.
    pose proof (len_nonneg P) as HP0.
    assert (Hdl : len done < len cs).
    { rewrite Hsplit, len_app. unfold len at 3. simpl length. lia. }
    simpl payload_size in *.
    rewrite !len_app, len_repeat in Hpo. cbn [length] in Hpo.
    assert (Hpo0 : 0 <= po) by lia.
    cbn [write_contexts length].
    unfold SetHeaderValue, WriteLittleEndianValue.
    rewrite ContextSnapshotOffsetOffset_small
      by (change kFirstContextOffsetOffset with 80; lia).
    change kFirstContextOffsetOffset with 80.
    replace (4 * S (length rest))%nat with (4 + 4 * length rest)%nat by lia.
    rewrite repeat_app, <- !app_assoc.
    rewrite write_at_mid by (auto; now rewrite length_le_split, repeat_length).
    rewrite bind_Ret, Hsplit, at_index_app, bind_Ret.
    unfold raw_length. fold (len (RawData c)).
    rewrite (to_uint32_small (len (RawData c))) by lia.
    rewrite <- (firstn_skipn (length (RawData c)) Fc).
    assert (HFc0 : length (firstn (length (RawData c)) Fc) = length (RawData c)).
    { rewrite length_firstn. unfold len in HFc, Hc0 |- *.
      unfold len in Hr0. lia. }
    replace (A ++ le_split 4 po ++ repeat Byte.x00 (4 * length rest) ++ P ++
             firstn (length (RawData c)) Fc ++ skipn (length (RawData c)) Fc)
      with ((A ++ le_split 4 po ++ repeat Byte.x00 (4 * length rest) ++ P) ++
            firstn (length (RawData c)) Fc ++ skipn (length (RawData c)) Fc)
      by (rewrite <- !app_assoc; reflexivity).
    rewrite CopyBytes_mid; auto.
    2:{ rewrite !len_app, len_le_split, len_repeat. lia. }
    rewrite bind_Ret.
    assert (Hout : exists o,
      (if flag
       then original <- at_index cin (len done) ;;
            Ret (out ++ [ContextBytes (len (RawData c))
                   (to_uint32 (Z.of_nat (length (Reservations original))))
                   (len done)])
       else Ret out) = Ret o).
    { destruct flag; [| eauto].
      destruct (at_index_defined cin (len done)) as [o Ho].
      { unfold len in *. lia. }
      rewrite Ho. simpl. eauto. }
    rewrite <- Hsplit.
    destruct Hout as [o ->]. rewrite bind_Ret.
    rewrite (to_uint32_small (len done + 1)) by lia.
    rewrite (to_uint32_small (po + len (RawData c))) by lia.
    specialize (IH (done ++ [c]) (A ++ le_split 4 po) (P ++ RawData c)
                   (skipn (length (RawData c)) Fc) (po + len (RawData c)) o).
    destruct IH as [out' IH].
    + rewrite <- app_assoc. exact Hsplit.
    + rewrite !len_app, len_le_split. change (len [c]) with 1. lia.
    + unfold len. rewrite length_skipn. unfold len in HFc, Hc0, Hr0.
      unfold len. lia.
    + repeat rewrite ?len_app, ?len_le_split, ?len_repeat. lia.
    + lia.
    + exists out'.
      replace (len (done ++ [c])) with (len done + 1) in IH
        by (rewrite len_app; reflexivity).
      rewrite <- !app_assoc in IH. rewrite <- !app_assoc.
      rewrite IH. cbn [context_offsets flat_map]. rewrite <- !app_assoc.
      rewrite Z.add_assoc. reflexivity.
Qed.


Lemma GetString_length (str : list byte) :
  length (GetString str) = length str.
Proof.
  unfold GetString. destruct str as [| b str]; [reflexivity |].
  rewrite !length_app, length_skipn, length_firstn. simpl length. lia.
Qed.

Lemma total_length_fold (cs : list SnapshotData) (t : Z) :
  0 <= t -> t + payload_size cs < 2 ^ 32 ->
  fold_left (fun total c => to_uint32 (total + raw_length c)) cs t
  = t + payload_size cs.
Proof.
  revert t. induction cs as [| c cs IH]; intros t Ht Hfit; simpl.
  - lia.
  - pose proof (len_nonneg (RawData c)). pose proof (payload_size_nonneg cs).
    simpl in Hfit. unfold raw_length. fold (len (RawData c)).
    rewrite (to_uint32_small (len (RawData c))) by lia.
    rewrite to_uint32_small by lia. rewrite IH by lia. lia.
Qed.

Lemma length_offset_table (first : Z) (cs : list SnapshotData) :
  length (flat_map (le_split 4) (context_offsets first cs))
  = (4 * length cs)%nat.
Proof.
  revert first. induction cs as [| c cs IH]; intros first;
    cbn [context_offsets flat_map length]; [reflexivity |].
  rewrite length_app, length_le_split, IH. lia.
Qed.

Lemma write_at_eq (buf X Y W src : list byte) (off : Z) :
  buf = X ++ Y ++ W -> off = len X -> length Y = length src ->
  write_at buf off src = Ret (X ++ src ++ W).
Proof. intros ->. apply write_at_mid. Qed.

Lemma CopyBytes_eq (buf X Y W src : list byte) (off n : Z) :
  buf = X ++ Y ++ W -> off = len X -> n = len src -> length Y = length src ->
  CopyBytes buf off src n = Ret (X ++ src ++ W).
Proof. intros ->. apply CopyBytes_mid. Qed.

Lemma slice_eq (buf X Y W : list byte) (off n : Z) :
  buf = X ++ Y ++ W -> off = len X -> n = len Y -> slice buf off n = Ret Y.
Proof. intros ->. apply slice_mid. Qed.

Lemma new_array_length (fresh : nat -> byte) (n : Z) :
  length (new_array fresh n) = Z.to_nat n.
Proof. unfold new_array. now rewrite length_map, length_seq. Qed.

End Creation.

Ltac reassoc := rewrite <- ?app_assoc; reflexivity.
Ltac lens :=
  cbv [kFirstContextOffsetOffset kReadOnlyOffsetOffset kVersionStringOffset kVersionStringLength
       kChecksumOffset kRehashabilityOffset kNumberOfContextsOffset
       kUInt32Size] in *;
  unfold len in *;
  repeat rewrite ?length_app, ?length_le_split, ?repeat_length,
                 ?GetString_length, ?length_firstn, ?length_skipn;
  cbn [length]; lia.
Ltac side :=
  solve [ reflexivity | assumption | reassoc | lens ].

Section Built.

Context {build : Build}.

Lemma CreateSnapshotBlob_layout (flag : bool) (fresh : nat -> byte)
    (startup_in read_only_in : SnapshotData)
    (contexts_in : list SnapshotData) (can_be_rehashed : bool) :
  let startup := MaybeCompress startup_in in
  let read_only := MaybeCompress read_only_in in
  let contexts := map MaybeCompress contexts_in in
  ideal_total_length startup read_only contexts < 2 ^ 31 ->
  exists out,
    CreateSnapshotBlob flag fresh startup_in read_only_in contexts_in
                       can_be_rehashed
    = Ret ({| data := Some (blob_image can_be_rehashed startup read_only
                                       contexts);
              raw_size := ideal_total_length startup read_only contexts |},
           out).
Proof.
  intros s r cs Hfit.
  unfold CreateSnapshotBlob, allocate_data. fold s r cs.
  unfold ideal_total_length in *.
  change kFirstContextOffsetOffset with 80 in *.
  pose proof (len_nonneg cs) as Hn.
  pose proof (len_nonneg (RawData s)) as Hs.
  pose proof (len_nonneg (RawData r)) as Hr.
  pose proof (payload_size_nonneg cs) as Hc.
  pose proof (POINTER_SIZE_ALIGN_bounds (80 + 4 * len cs)) as Hal.
  fold (len cs). rewrite (to_uint32_small (len cs)) by lia.
  rewrite StartupSnapshotOffset_ideal
    by (change kFirstContextOffsetOffset with 80; lia).
  change kFirstContextOffsetOffset with 80.
  set (S0 := POINTER_SIZE_ALIGN (80 + 4 * len cs)) in *.
  unfold raw_length. fold (len (RawData s)) (len (RawData r)).
  rewrite (to_uint32_small (len (RawData s))) by lia.
  rewrite (to_uint32_small (len (RawData r))) by lia.
  rewrite (to_uint32_small (S0 + len (RawData s))) by lia.
  rewrite (to_uint32_small (S0 + len (RawData s) + len (RawData r))) by lia.
  rewrite total_length_fold by lia.
  set (T := S0 + len (RawData s) + len (RawData r) + payload_size cs) in *.
  rewrite (to_int32_small T) by lia.
  assert (HB : length (new_array fresh T) = Z.to_nat T)
    by apply new_array_length.
  set (B := new_array fresh T) in *.
  set (F := skipn (Z.to_nat S0) B).
  set (Fs := firstn (length (RawData s)) F).
  set (Fr := firstn (length (RawData r)) (skipn (length (RawData s)) F)).
  set (Fc := skipn (length (RawData r)) (skipn (length (RawData s)) F)).
  assert (HF : F = Fs ++ Fr ++ Fc).
  { unfold Fs, Fr, Fc. now rewrite !firstn_skipn. }
  assert (HlF : length F = (Z.to_nat T - Z.to_nat S0)%nat).
  { unfold F. rewrite length_skipn. lia. }
  assert (HlFs : length Fs = length (RawData s)).
  { unfold Fs. rewrite length_firstn. unfold len in *. lia. }
  assert (HlFr : length Fr = length (RawData r)).
  { unfold Fr. rewrite length_firstn, length_skipn. unfold len in *. lia. }
  assert (HlFc : len Fc = payload_size cs).
  { unfold Fc, len. rewrite !length_skipn. unfold len in *. lia. }
  clearbody Fs Fr Fc.
  assert (HBF : B = firstn (Z.to_nat S0) B ++ F)
    by (unfold F; now rewrite firstn_skipn).
  clearbody F.
  set (pad := Z.to_nat (S0 - (80 + 4 * len cs))).
  assert (Hpad : Z.of_nat pad = S0 - (80 + 4 * len cs)) by (unfold pad; lia).
  (* memset(data, 0, StartupSnapshotOffset(num_contexts)) *)
  unfold memset.
  rewrite (write_at_eq B [] (firstn (Z.to_nat S0) B) F) by side.
  rewrite bind_Ret, app_nil_l.
  replace (Z.to_nat S0)
    with (4 + (4 + (4 + (64 + (4 + (4 * length cs + pad))))))%nat
    by (unfold len in *; lia).
  rewrite !repeat_app, <- !app_assoc.
  set (z4 := repeat Byte.x00 4). set (z64 := repeat Byte.x00 64).
  set (zc := repeat Byte.x00 (4 * length cs)).
  set (zp := repeat Byte.x00 pad).
  assert (Hz4 : length z4 = 4%nat) by apply repeat_length.
  assert (Hz64 : length z64 = 64%nat) by apply repeat_length.
  (* the two header values *)
  unfold SetHeaderValue, WriteLittleEndianValue.
  rewrite (write_at_eq _ [] z4 (z4 ++ z4 ++ z64 ++ z4 ++ zc ++ zp ++ F)) by side.
  rewrite bind_Ret, app_nil_l.
  rewrite (write_at_eq _ (le_split 4 (len cs)) z4
                       (z4 ++ z64 ++ z4 ++ zc ++ zp ++ F)) by side.
  rewrite bind_Ret.
  set (hn := le_split 4 (len cs)).
  set (hr := le_split 4 (if can_be_rehashed then 1 else 0)).
  assert (Hhn : length hn = 4%nat) by apply length_le_split.
  assert (Hhr : length hr = 4%nat) by apply length_le_split.
  (* the version string *)
  rewrite (write_at_eq _ (hn ++ hr ++ z4) z64 (z4 ++ zc ++ zp ++ F)) by side.
  rewrite bind_Ret.
  change (repeat Byte.x00 (Z.to_nat kVersionStringLength)) with z64.
  rewrite (slice_eq _ (hn ++ hr ++ z4) z64 (z4 ++ zc ++ zp ++ F)) by side.
  rewrite bind_Ret.
  rewrite (write_at_eq _ (hn ++ hr ++ z4) z64 (z4 ++ zc ++ zp ++ F)) by side.
  rewrite bind_Ret.
  set (V := GetString z64).
  assert (HV : length V = 64%nat) by (unfold V; now rewrite GetString_length).
  assert (HVf : V = version_field) by reflexivity.
  assert (Hzc : length zc = (4 * length cs)%nat) by apply repeat_length.
  assert (Hzp : length zp = pad) by apply repeat_length.
  assert (Ehn : hn = le_split 4 (len cs)) by reflexivity.
  assert (Ehr : hr = le_split 4 (if can_be_rehashed then 1 else 0))
    by reflexivity.
  assert (Ezp : zp = repeat Byte.x00 (Z.to_nat (S0 - (80 + 4 * len cs))))
    by reflexivity.
  clearbody V z4 z64 zp hn hr pad.
  (* startup *)
  rewrite HF.
  rewrite (CopyBytes_eq _ (hn ++ hr ++ z4 ++ V ++ z4 ++ zc ++ zp) Fs
                        (Fr ++ Fc)) by side.
  rewrite bind_Ret.
  (* read-only *)
  rewrite (write_at_eq _ (hn ++ hr ++ z4 ++ V) z4
             (zc ++ zp ++ RawData s ++ Fr ++ Fc)) by side.
  rewrite bind_Ret.
  set (ro := le_split 4 (S0 + len (RawData s))).
  assert (Hro : length ro = 4%nat) by apply length_le_split.
  assert (Ero : ro = le_split 4 (S0 + len (RawData s))) by reflexivity.
  clearbody ro.
  rewrite (CopyBytes_eq _ (hn ++ hr ++ z4 ++ V ++ ro ++ zc ++ zp ++ RawData s)
                        Fr Fc) by side.
  rewrite bind_Ret.
  (* contexts *)
  match goal with
  | |- context [write_contexts _ _ _ _ _ _ _ ?o] => set (out0 := o)
  end.
  destruct (write_contexts_layout flag cs contexts_in
              ltac:(unfold cs; now rewrite length_map)
              ltac:(change kFirstContextOffsetOffset with 80; lia)
              cs [] (hn ++ hr ++ z4 ++ V ++ ro)
              (zp ++ RawData s ++ RawData r) Fc
              (S0 + len (RawData s) + len (RawData r)) out0)
    as [out Hloop]; try solve [side].
  replace (Z.to_nat (len cs)) with (length cs) by (unfold len; lia).
  change 0 with (@len SnapshotData []) at 1.
  replace ((hn ++ hr ++ z4 ++ V ++ ro ++ zc ++ zp ++ RawData s) ++
           RawData r ++ Fc)
    with ((hn ++ hr ++ z4 ++ V ++ ro) ++ zc ++
          (zp ++ RawData s ++ RawData r) ++ Fc) by reassoc.
  unfold zc. rewrite Hloop, bind_Ret.
  clear Hloop. exists out.
  fold T. unfold DCHECK. rewrite Z.eqb_refl.
  replace (if DEBUG
           then c <- Ret true ;; CHECK c "total_length == payload_offset"
           else Ret tt) with (Ret tt) by (now destruct DEBUG).
  rewrite bind_Ret.
  (* checksum *)
  set (offs := flat_map (le_split 4)
                 (context_offsets (S0 + len (RawData s) + len (RawData r)) cs)).
  assert (Hoffs : length offs = (4 * length cs)%nat).
  { apply length_offset_table. }
  pose proof (len_flat_map_RawData cs) as Hfm.
  assert (Eoffs : offs = flat_map (le_split 4)
            (context_offsets (S0 + len (RawData s) + len (RawData r)) cs))
    by reflexivity.
  clearbody offs.
  set (body := V ++ ro ++ offs ++ zp ++ RawData s ++ RawData r
                 ++ flat_map RawData cs).
  unfold view_bytes, ChecksummedContent. cbn [data raw_size start length_].
  rewrite (to_uint32_small (T - kVersionStringOffset))
    by (cbv [kVersionStringOffset kChecksumOffset kRehashabilityOffset
             kNumberOfContextsOffset kUInt32Size]; lia).
  rewrite (slice_eq _ (hn ++ hr ++ z4) body []).
  2:{ unfold body. rewrite app_nil_r. reassoc. }
  2:{ side. }
  2:{ unfold body, T. lens. }
  rewrite bind_Ret.
  rewrite (write_at_eq _ (hn ++ hr) z4 body).
  2:{ unfold body. reassoc. }
  2:{ side. }
  2:{ side. }
  rewrite bind_Ret.
  unfold blob_image, blob_body.
  rewrite StartupSnapshotOffset_ideal
    by (change kFirstContextOffsetOffset with 80; lia).
  change kFirstContextOffsetOffset with 80. fold S0.
  rewrite <- Ehn, <- Ehr, <- Ero, <- Eoffs, <- Ezp, <- HVf. fold body.
  rewrite <- app_assoc. reflexivity.
Qed.

End Built.

(* ------------------------------------------------------------------ *)
(** ** Reading a built blob back *)

Lemma read_le_eq (buf X W : list byte) (v off : Z) :
  buf = X ++ le_split 4 v ++ W -> off = len X -> 0 <= v < 2 ^ 32 ->
  ReadLittleEndianValue buf off = Ret v.
Proof. intros ->. apply read_le_mid. Qed.

Lemma nonempty_cons {A : Type} (l : list A) :
  l <> [] -> exists a rest, l = a :: rest.
Proof. destruct l; [congruence | eauto]. Qed.

Section Reading.

Context {build : Build}.
Variable can_be_rehashed : bool.
Variables startup read_only : SnapshotData.
Variable contexts : list SnapshotData.

Let total := ideal_total_length startup read_only contexts.
Let image := blob_image can_be_rehashed startup read_only contexts.
Let blob := {| data := Some image; raw_size := total |}.
Let startup_offset :=
  POINTER_SIZE_ALIGN (kFirstContextOffsetOffset + 4 * len contexts).
Let first_context :=
  startup_offset + len (RawData startup) + len (RawData read_only).

Hypothesis fits : total < 2 ^ 31.

Lemma version_field_length : length version_field = 64%nat.
Proof. unfold version_field. now rewrite GetString_length, repeat_length. Qed.

Lemma layout_facts :
  0 <= len contexts /\ 0 <= len (RawData startup)
  /\ 0 <= len (RawData read_only) /\ 0 <= payload_size contexts
  /\ 80 + 4 * len contexts <= startup_offset < 80 + 4 * len contexts + 8
  /\ total = first_context + payload_size contexts
  /\ StartupSnapshotOffset (len contexts) = startup_offset.
Proof.
  pose proof (len_nonneg contexts). pose proof (len_nonneg (RawData startup)).
  pose proof (len_nonneg (RawData read_only)).
  pose proof (payload_size_nonneg contexts).
  pose proof (POINTER_SIZE_ALIGN_bounds (kFirstContextOffsetOffset + 4 * len contexts)) as Hal.
  pose proof fits as Hfit.
  unfold total, ideal_total_length, first_context, startup_offset in *.
  change kFirstContextOffsetOffset with 80 in *.
  repeat split; try lia.
  rewrite StartupSnapshotOffset_ideal;
    change kFirstContextOffsetOffset with 80; [reflexivity | lia | lia].
Qed.

(** The image, cut into its fields. *)
Lemma image_fields :
  exists hn hr hc V ro offs zp,
    image = hn ++ hr ++ hc ++ V ++ ro ++ offs ++ zp
              ++ RawData startup ++ RawData read_only
              ++ flat_map RawData contexts
    /\ hn = le_split 4 (len contexts)
    /\ hr = le_split 4 (if can_be_rehashed then 1 else 0)
    /\ hc = le_split 4 (Checksum (blob_body startup read_only contexts))
    /\ V = version_field
    /\ ro = le_split 4 (startup_offset + len (RawData startup))
    /\ offs = flat_map (le_split 4) (context_offsets first_context contexts)
    /\ zp = repeat Byte.x00
              (Z.to_nat (startup_offset - (80 + 4 * len contexts)))
    /\ blob_body startup read_only contexts
       = V ++ ro ++ offs ++ zp ++ RawData startup ++ RawData read_only
           ++ flat_map RawData contexts
    /\ length hn = 4%nat /\ length hr = 4%nat /\ length hc = 4%nat
    /\ length V = 64%nat /\ length ro = 4%nat
    /\ length offs = (4 * length contexts)%nat
    /\ Z.of_nat (length zp) = startup_offset - (80 + 4 * len contexts).
Proof.
  destruct layout_facts as (Hn & Hs & Hr & Hc & Hal & Htot & HS0).
  exists (le_split 4 (len contexts)),
         (le_split 4 (if can_be_rehashed then 1 else 0)),
         (le_split 4 (Checksum (blob_body startup read_only contexts))),
         version_field,
         (le_split 4 (startup_offset + len (RawData startup))),
         (flat_map (le_split 4) (context_offsets first_context contexts)),
         (repeat Byte.x00
            (Z.to_nat (startup_offset - (80 + 4 * len contexts)))).
  assert (Hbody : blob_body startup read_only contexts
       = version_field ++ le_split 4 (startup_offset + len (RawData startup))
           ++ flat_map (le_split 4) (context_offsets first_context contexts)
           ++ repeat Byte.x00
                (Z.to_nat (startup_offset - (80 + 4 * len contexts)))
           ++ RawData startup ++ RawData read_only
           ++ flat_map RawData contexts).
  { unfold blob_body. rewrite HS0.
    change kFirstContextOffsetOffset with 80. reflexivity. }
  repeat match goal with |- _ /\ _ => split end;
    try reflexivity; try apply length_le_split.
  - unfold image, blob_image. rewrite Hbody at 2. reflexivity.
  - exact Hbody.
  - apply version_field_length.
  - apply length_offset_table.
  - rewrite repeat_length. lia.
Qed.

Lemma image_length : len image = total.
Proof.
  destruct layout_facts as (Hn & Hs & Hr & Hc & Hal & Htot & HS0).
  destruct image_fields as (hn & hr & hc & V & ro & offs & zp & -> & _ & _ & _
    & _ & _ & _ & _ & _ & Hhn & Hhr & Hhc & HV & Hro & Hoffs & Hzp).
  pose proof (len_flat_map_RawData contexts) as Hfm.
  rewrite Htot. unfold first_context. lens.
Qed.


Lemma context_offsets_app (first : Z) (a b : list SnapshotData) :
  context_offsets first (a ++ b)
  = context_offsets first a ++ context_offsets (first + payload_size a) b.
Proof.
  revert first. induction a as [| c a IH]; intros first; simpl.
  - now rewrite Z.add_0_r.
  - rewrite IH. do 3 f_equal. lia.
Qed.

Ltac open_image :=
  destruct layout_facts as (Hn & Hs & Hr & Hc & Hal & Htot & HS0);
  destruct image_fields as (hn & hr & hc & V & ro & offs & zp & Himg & Ehn
    & Ehr & Ehc & EV & Ero & Eoffs & Ezp & Ebody & Hhn & Hhr & Hhc & HV
    & Hro & Hoffs & Hzp);
  pose proof (len_flat_map_RawData contexts) as Hfm;
  pose proof fits as Hfit.

Lemma read_num_contexts : ExtractNumContexts blob = Ret (len contexts).
Proof.
  open_image. unfold ExtractNumContexts, GetHeaderValue. cbn [raw_size data blob].
  replace (kNumberOfContextsOffset <? total) with true
    by (symmetry; apply Z.ltb_lt;
        unfold first_context, kNumberOfContextsOffset in *; lia).
  cbn [CHECK bind].
  rewrite (read_le_eq _ [] (hr ++ hc ++ V ++ ro ++ offs ++ zp
             ++ RawData startup ++ RawData read_only
             ++ flat_map RawData contexts) (len contexts));
    [reflexivity | rewrite Himg, Ehn; reflexivity | reflexivity | lia].
Qed.

Lemma read_checksum :
  GetHeaderValue blob kChecksumOffset
  = Ret (Checksum (blob_body startup read_only contexts)).
Proof.
  open_image. unfold GetHeaderValue. cbn [data blob].
  apply (read_le_eq _ (hn ++ hr) (V ++ ro ++ offs ++ zp
             ++ RawData startup ++ RawData read_only
             ++ flat_map RawData contexts)).
  - rewrite Himg, Ehc. reassoc.
  - side.
  - apply to_uint32_range.
Qed.

Lemma read_read_only_offset :
  GetHeaderValue blob kReadOnlyOffsetOffset
  = Ret (startup_offset + len (RawData startup)).
Proof.
  open_image. unfold GetHeaderValue. cbn [data blob].
  apply (read_le_eq _ (hn ++ hr ++ hc ++ V) (offs ++ zp
             ++ RawData startup ++ RawData read_only
             ++ flat_map RawData contexts)).
  - rewrite Himg, Ero. reassoc.
  - side.
  - unfold first_context in *. lia.
Qed.

Lemma read_context_offset (done rest : list SnapshotData) (c : SnapshotData) :
  contexts = done ++ c :: rest ->
  GetHeaderValue blob (ContextSnapshotOffsetOffset (len done))
  = Ret (first_context + payload_size done).
Proof.
  intros Hsplit. open_image. unfold GetHeaderValue. cbn [data blob].
  pose proof (len_nonneg done) as Hd.
  pose proof (payload_size_nonneg done) as Hpd.
  pose proof (payload_size_nonneg rest) as Hpr.
  pose proof (len_nonneg (RawData c)) as Hlc.
  assert (Hlen : len contexts = len done + 1 + len rest).
  { rewrite Hsplit, len_app. unfold len. cbn [length]. lia. }
  assert (Hpay : payload_size contexts
                 = payload_size done + len (RawData c) + payload_size rest).
  { rewrite Hsplit, payload_size_app. simpl. lia. }
  pose proof (len_nonneg rest) as Hlr.
  rewrite ContextSnapshotOffsetOffset_small
    by (change kFirstContextOffsetOffset with 80; lia).
  rewrite Hsplit, context_offsets_app in Eoffs.
  cbn [context_offsets] in Eoffs. rewrite flat_map_app in Eoffs.
  cbn [flat_map] in Eoffs.
  pose proof (length_offset_table first_context done) as Hod.
  apply (read_le_eq _
           (hn ++ hr ++ hc ++ V ++ ro
              ++ flat_map (le_split 4) (context_offsets first_context done))
           (flat_map (le_split 4)
              (context_offsets
                 (first_context + payload_size done + len (RawData c)) rest)
              ++ zp ++ RawData startup ++ RawData read_only
              ++ flat_map RawData contexts)).
  - rewrite Himg, Eoffs. reassoc.
  - side.
  - unfold first_context in *. lia.
Qed.

Lemma startup_bytes :
  slice image startup_offset (len (RawData startup)) = Ret (RawData startup).
Proof.
  open_image.
  apply (slice_eq _ (hn ++ hr ++ hc ++ V ++ ro ++ offs ++ zp) _
           (RawData read_only ++ flat_map RawData contexts)).
  - rewrite Himg. reassoc.
  - side.
  - reflexivity.
Qed.

Lemma read_only_bytes :
  slice image (startup_offset + len (RawData startup))
        (len (RawData read_only))
  = Ret (RawData read_only).
Proof.
  open_image.
  apply (slice_eq _ (hn ++ hr ++ hc ++ V ++ ro ++ offs ++ zp
                       ++ RawData startup) _ (flat_map RawData contexts)).
  - rewrite Himg. reassoc.
  - side.
  - reflexivity.
Qed.

Lemma context_bytes (done rest : list SnapshotData) (c : SnapshotData) :
  contexts = done ++ c :: rest ->
  slice image (first_context + payload_size done) (len (RawData c))
  = Ret (RawData c).
Proof.
  intros Hsplit. open_image.
  pose proof (len_flat_map_RawData done) as Hfd.
  apply (slice_eq _ (hn ++ hr ++ hc ++ V ++ ro ++ offs ++ zp
                       ++ RawData startup ++ RawData read_only
                       ++ flat_map RawData done) _ (flat_map RawData rest)).
  - rewrite Himg, Hsplit, flat_map_app. cbn [flat_map]. reassoc.
  - unfold first_context. side.
  - reflexivity.
Qed.

Lemma body_bytes :
  slice image kVersionStringOffset (total - kVersionStringOffset)
  = Ret (blob_body startup read_only contexts).
Proof.
  open_image.
  apply (slice_eq _ (hn ++ hr ++ hc) _ []).
  - rewrite Himg, Ebody, app_nil_r. reassoc.
  - side.
  - rewrite Ebody, Htot. unfold first_context. side.
Qed.

Lemma padding_bytes :
  slice image (kFirstContextOffsetOffset + 4 * len contexts)
        (startup_offset - (kFirstContextOffsetOffset + 4 * len contexts))
  = Ret (repeat Byte.x00
           (Z.to_nat (startup_offset
                      - (kFirstContextOffsetOffset + 4 * len contexts)))).
Proof.
  open_image. change kFirstContextOffsetOffset with 80. rewrite <- Ezp.
  apply (slice_eq _ (hn ++ hr ++ hc ++ V ++ ro ++ offs) _
           (RawData startup ++ RawData read_only
              ++ flat_map RawData contexts)).
  - rewrite Himg. reassoc.
  - side.
  - side.
Qed.


Lemma DCHECK_valid :
  contexts <> [] ->
  DCHECK (SnapshotIsValid blob) "Snapshot::SnapshotIsValid(data)" = Ret tt.
Proof.
  intros Hne. unfold DCHECK, SnapshotIsValid. destruct DEBUG; [| reflexivity].
  rewrite read_num_contexts. cbn [bind].
  replace (0 <? len contexts) with true; [reflexivity |].
  symmetry. apply Z.ltb_lt.
  destruct (nonempty_cons contexts Hne) as (c & rest & ->).
  unfold len. cbn [length]. lia.
Qed.

Lemma CHECK_true (c : bool) (text : string) : c = true -> CHECK c text = Ret tt.
Proof. now intros ->. Qed.

Lemma extract_startup :
  contexts <> [] -> 0 < len (RawData startup) ->
  0 < len (RawData read_only) + payload_size contexts ->
  ExtractStartupData blob
  = Ret {| start := startup_offset; length_ := len (RawData startup) |}.
Proof.
  intros Hne Hs0 Hrest.
  destruct layout_facts as (Hn & Hs & Hr & Hc & Hal & Htot & HS0).
  pose proof fits as Hfit.
  unfold ExtractStartupData.
  rewrite DCHECK_valid, read_num_contexts, read_read_only_offset by assumption.
  cbn [bind]. rewrite HS0. unfold ExtractData. cbn [raw_size blob].
  rewrite !CHECK_true by (apply Z.ltb_lt; unfold first_context in *; lia).
  cbn [bind]. rewrite to_uint32_small by lia.
  do 2 f_equal. lia.
Qed.

Lemma extract_read_only :
  contexts <> [] -> 0 < len (RawData read_only) ->
  0 < payload_size contexts ->
  ExtractReadOnlyData blob
  = Ret {| start := startup_offset + len (RawData startup);
           length_ := len (RawData read_only) |}.
Proof.
  intros Hne Hr0 Hc0.
  destruct layout_facts as (Hn & Hs & Hr & Hc & Hal & Htot & HS0).
  pose proof fits as Hfit.
  unfold ExtractReadOnlyData.
  rewrite DCHECK_valid, read_read_only_offset by assumption.
  destruct (nonempty_cons contexts Hne) as (c & rest & Ec).
  pose proof (read_context_offset [] rest c Ec) as H0.
  change (len []) with 0 in H0. simpl payload_size in H0.
  cbn [bind]. rewrite H0. cbn [bind].
  unfold ExtractData. cbn [raw_size blob].
  rewrite !CHECK_true by (apply Z.ltb_lt; unfold first_context in *; lia).
  cbn [bind]. rewrite to_uint32_small by (unfold first_context in *; lia).
  do 2 f_equal. unfold first_context. lia.
Qed.

Lemma extract_context (done rest : list SnapshotData) (c : SnapshotData) :
  contexts = done ++ c :: rest ->
  0 < len (RawData c) + payload_size rest ->
  (rest <> [] -> 0 < payload_size rest) ->
  ExtractContextData blob (len done)
  = Ret {| start := first_context + payload_size done;
           length_ := len (RawData c) |}.
Proof.
  intros Hsplit Hpos Hnext.
  destruct layout_facts as (Hn & Hs & Hr & Hc & Hal & Htot & HS0).
  pose proof fits as Hfit.
  pose proof (len_nonneg done) as Hd.
  pose proof (len_nonneg rest) as Hlr.
  pose proof (payload_size_nonneg done) as Hpd.
  pose proof (payload_size_nonneg rest) as Hpr.
  pose proof (len_nonneg (RawData c)) as Hlc.
  assert (Hlen : len contexts = len done + 1 + len rest).
  { rewrite Hsplit, len_app. unfold len. cbn [length]. lia. }
  assert (Hpay : payload_size contexts
                 = payload_size done + len (RawData c) + payload_size rest).
  { rewrite Hsplit, payload_size_app. simpl. lia. }
  unfold ExtractContextData. rewrite read_num_contexts. cbn [bind].
  rewrite CHECK_true by (apply Z.ltb_lt; lia). cbn [bind].
  unfold ExtractContextOffset.
  rewrite (read_context_offset done rest c Hsplit). cbn [bind raw_size blob].
  rewrite (to_uint32_small total) by (unfold first_context in *; lia).
  rewrite CHECK_true by (apply Z.ltb_lt; unfold first_context in *; lia).
  cbn [bind].
  rewrite (to_uint32_small (len contexts - 1)) by lia.
  destruct rest as [| c' rest'].
  - replace (len done =? len contexts - 1) with true
      by (symmetry; apply Z.eqb_eq; change (len (@nil SnapshotData)) with 0 in *; lia).
    cbn [bind]. simpl payload_size in *.
    rewrite to_uint32_small by (unfold first_context in *; lia).
    do 2 f_equal. lia.
  - assert (Hrl : 0 < len (c' :: rest'))
      by (unfold len; cbn [length]; lia).
    replace (len done =? len contexts - 1) with false
      by (symmetry; apply Z.eqb_neq; lia).
    rewrite (to_uint32_small (len done + 1)) by lia.
    assert (Hsplit' : contexts = (done ++ [c]) ++ c' :: rest')
      by (rewrite <- app_assoc; exact Hsplit).
    pose proof (read_context_offset (done ++ [c]) rest' c' Hsplit') as Hnx.
    rewrite len_app in Hnx. change (len [c]) with 1 in Hnx.
    rewrite payload_size_app in Hnx. simpl payload_size in Hnx.
    rewrite Hnx. cbn [bind].
    specialize (Hnext ltac:(discriminate)).
    rewrite !CHECK_true by (apply Z.ltb_lt; unfold first_context in *; lia).
    cbn [bind].
    rewrite !CHECK_true by (apply Z.ltb_lt; unfold first_context in *; lia).
    cbn [bind].
    rewrite to_uint32_small by (unfold first_context in *; lia).
    do 2 f_equal. lia.
Qed.

End Reading.

(* ------------------------------------------------------------------ *)
(** ** Round trip *)

Lemma tail_ends_with_last {A : Type} (front l1 l2 : list A) (x : A) :
  front ++ [x] = l1 ++ l2 -> l2 <> [] -> exists l2', l2 = l2' ++ [x].
Proof.
  intros Heq Hne. destruct (exists_last Hne) as (l2' & y & ->).
  rewrite app_assoc in Heq. apply app_inj_tail in Heq as [_ ->]. eauto.
Qed.

Lemma len_pos_of_nonempty {A : Type} (l : list A) : l <> [] -> 0 < len l.
Proof. destruct l; [congruence |]. intros _. unfold len. cbn [length]. lia. Qed.

Lemma view_bytes_built (bytes : list byte) (size off n : Z) (seg : list byte) :
  slice bytes off n = Ret seg ->
  view_bytes {| data := Some bytes; raw_size := size |}
             {| start := off; length_ := n |} = Ret seg.
Proof. intros H. exact H. Qed.

(** C1 (amended).  When the stored (possibly compressed) startup and
    read-only segments are not empty, there is at least one context, the
    last context is not empty and the total length fits in an [int], every
    segment extracted from the blob that [CreateSnapshotBlob] builds is
    byte for byte the stored segment it came from: the startup segment
    through [ExtractStartupData], the read-only segment through
    [ExtractReadOnlyData], and context [i] through [ExtractContextData]
    for every index [i]. *)
Theorem CreateSnapshotBlob_round_trip {build : Build}
    (flag : bool) (fresh : nat -> byte)
    (startup_in read_only_in : SnapshotData)
    (front : list SnapshotData) (last_context : SnapshotData)
    (can_be_rehashed : bool) :
  RawData (MaybeCompress startup_in) <> [] ->
  RawData (MaybeCompress read_only_in) <> [] ->
  RawData (MaybeCompress last_context) <> [] ->
  ideal_total_length (MaybeCompress startup_in) (MaybeCompress read_only_in)
    (map MaybeCompress (front ++ [last_context])) < 2 ^ 31 ->
  exists blob out,
    CreateSnapshotBlob flag fresh startup_in read_only_in
      (front ++ [last_context]) can_be_rehashed = Ret (blob, out)
    /\ (v <- ExtractStartupData blob ;; view_bytes blob v)
       = Ret (RawData (MaybeCompress startup_in))
    /\ (v <- ExtractReadOnlyData blob ;; view_bytes blob v)
       = Ret (RawData (MaybeCompress read_only_in))
    /\ forall (i : nat) (c : SnapshotData),
         nth_error (front ++ [last_context]) i = Some c ->
         (v <- ExtractContextData blob (Z.of_nat i) ;; view_bytes blob v)
         = Ret (RawData (MaybeCompress c)).
Proof.
  intros Hs Hr Hl Hfit.
  destruct (CreateSnapshotBlob_layout flag fresh startup_in read_only_in
              (front ++ [last_context]) can_be_rehashed Hfit) as [out Hmade].
  eexists. exists out. split; [exact Hmade |].
  set (s := MaybeCompress startup_in) in *.
  set (r := MaybeCompress read_only_in) in *.
  set (cs := map MaybeCompress (front ++ [last_context])) in *.
  apply len_pos_of_nonempty in Hs, Hr, Hl.
  assert (Hcs : cs = map MaybeCompress front ++ [MaybeCompress last_context])
    by (unfold cs; now rewrite map_app).
  assert (Hne : cs <> []).
  { rewrite Hcs. intros E. now apply app_eq_nil in E as [_ E]. }
  assert (Hpay : 0 < payload_size cs).
  { rewrite Hcs, payload_size_app. simpl.
    pose proof (payload_size_nonneg (map MaybeCompress front)). lia. }
  split; [| split].
  - rewrite (extract_startup can_be_rehashed s r cs Hfit) by (auto; lia).
    cbn [bind]. apply view_bytes_built.
    apply (startup_bytes can_be_rehashed s r cs Hfit).
  - rewrite (extract_read_only can_be_rehashed s r cs Hfit) by auto.
    cbn [bind]. apply view_bytes_built.
    apply (read_only_bytes can_be_rehashed s r cs Hfit).
  - intros i c Hnth.
    destruct (nth_error_split _ _ Hnth) as (l1 & l2 & Hsplit & Hi).
    assert (Hsplit' : cs = map MaybeCompress l1
                             ++ MaybeCompress c :: map MaybeCompress l2).
    { unfold cs. rewrite Hsplit, map_app. reflexivity. }
    assert (Hidx : Z.of_nat i = len (map MaybeCompress l1)).
    { unfold len. rewrite length_map. lia. }
    pose proof (payload_size_nonneg (map MaybeCompress l2)) as Hp2.
    pose proof (len_nonneg (RawData (MaybeCompress c))) as Hlc.
    assert (Htail : l2 <> [] -> 0 < payload_size (map MaybeCompress l2)).
    { intros Hl2.
      assert (Hx : front ++ [last_context] = (l1 ++ [c]) ++ l2)
        by (rewrite <- app_assoc; exact Hsplit).
      destruct (tail_ends_with_last _ _ _ _ Hx Hl2) as (l2' & ->).
      rewrite map_app, payload_size_app. simpl.
      pose proof (payload_size_nonneg (map MaybeCompress l2')). lia. }
    assert (Hpos : 0 < len (RawData (MaybeCompress c))
                       + payload_size (map MaybeCompress l2)).
    { destruct l2 as [| x l2'].
      - apply app_inj_tail in Hsplit as [_ <-]. simpl. lia.
      - specialize (Htail ltac:(discriminate)). lia. }
    rewrite Hidx.
    rewrite (extract_context can_be_rehashed s r cs Hfit _ _ _ Hsplit' Hpos).
    2:{ intros Hm. apply Htail. intros ->. now apply Hm. }
    cbn [bind]. apply view_bytes_built.
    apply (context_bytes can_be_rehashed s r cs Hfit _ _ _ Hsplit').
Qed.

(* ------------------------------------------------------------------ *)
(** ** Recorded offsets *)




Section Recorded.

Context {build : Build}.
Variable can_be_rehashed : bool.
Variables startup read_only : SnapshotData.
Variable contexts : list SnapshotData.
Hypothesis fits : ideal_total_length startup read_only contexts < 2 ^ 31.

Let blob :=
  {| data := Some (blob_image can_be_rehashed startup read_only contexts);
     raw_size := ideal_total_length startup read_only contexts |}.
Let first_context :=
  POINTER_SIZE_ALIGN (kFirstContextOffsetOffset + 4 * len contexts)
  + len (RawData startup) + len (RawData read_only).



End Recorded.


(* ------------------------------------------------------------------ *)
(** ** The checksummed region *)

Lemma slice_from (buf : list byte) (off : Z) :
  0 <= off <= len buf ->
  slice buf off (len buf - off) = Ret (skipn (Z.to_nat off) buf).
Proof.
  intros H. unfold slice, len in *.
  replace ((0 <=? off) && (0 <=? Z.of_nat (length buf) - off) &&
           (off + (Z.of_nat (length buf) - off) <=? Z.of_nat (length buf)))
    with true by (symmetry; rewrite !andb_true_iff, !Z.leb_le; lia).
  rewrite firstn_all2; [reflexivity |]. rewrite length_skipn. lia.
Qed.

Lemma slice_after (buf buf' : list byte) (k : nat) (off n : Z) :
  length buf' = length buf -> skipn k buf' = skipn k buf ->
  Z.of_nat k <= off ->
  slice buf' off n = slice buf off n.
Proof.
  intros Hlen Hskip Hk. unfold slice. rewrite Hlen.
  destruct ((0 <=? off) && (0 <=? n) && (off + n <=? Z.of_nat (length buf)));
    [| reflexivity].
  replace (Z.to_nat off) with ((Z.to_nat off - k) + k)%nat by lia.
  rewrite <- !skipn_skipn, Hskip. reflexivity.
Qed.

Section Checksummed.

Context {build : Build}.

Lemma checksummed_region (blob : StartupData) (bytes : list byte) :
  data blob = Some bytes -> raw_size blob = len bytes ->
  kVersionStringOffset <= raw_size blob < 2 ^ 31 ->
  view_bytes blob (ChecksummedContent blob)
  = Ret (skipn (Z.to_nat kVersionStringOffset) bytes).
Proof.
  intros Hdata Hsize Hrange. unfold view_bytes, ChecksummedContent.
  rewrite Hdata. cbn [start length_].
  change kVersionStringOffset with 12 in *.
  rewrite to_uint32_small by lia. rewrite Hsize.
  apply slice_from. lia.
Qed.

Lemma VerifyChecksum_ignores_first_fields (blob blob' : StartupData)
    (bytes bytes' : list byte) :
  data blob = Some bytes -> data blob' = Some bytes' ->
  raw_size blob' = raw_size blob -> length bytes' = length bytes ->
  skipn (Z.to_nat kChecksumOffset) bytes'
  = skipn (Z.to_nat kChecksumOffset) bytes ->
  VerifyChecksum blob' = VerifyChecksum blob.
Proof.
  intros Hd Hd' Hsize Hlen Hskip.
  unfold VerifyChecksum, GetHeaderValue, view_bytes, ChecksummedContent,
    ReadLittleEndianValue.
  rewrite Hd, Hd', Hsize. cbn [start length_].
  rewrite (slice_after bytes bytes' (Z.to_nat kChecksumOffset)
             kChecksumOffset 4 Hlen Hskip)
    by (change kChecksumOffset with 8; lia).
  rewrite (slice_after bytes bytes' (Z.to_nat kChecksumOffset)
             kVersionStringOffset _ Hlen Hskip)
    by (change kChecksumOffset with 8; change kVersionStringOffset with 12;
        lia).
  reflexivity.
Qed.

Lemma VerifyChecksum_built (can_be_rehashed : bool)
    (startup read_only : SnapshotData) (contexts : list SnapshotData)
    (blob : StartupData) (bytes : list byte) :
  ideal_total_length startup read_only contexts < 2 ^ 31 ->
  bytes = blob_image can_be_rehashed startup read_only contexts ->
  blob = {| data := Some bytes;
            raw_size := ideal_total_length startup read_only contexts |} ->
  GetHeaderValue blob kChecksumOffset
  = Ret (Checksum (skipn (Z.to_nat kVersionStringOffset) bytes))
  /\ VerifyChecksum blob = Ret true.
Proof.
  intros Hfit Hbytes Hblob.
  pose proof (body_bytes can_be_rehashed startup read_only contexts Hfit)
    as Hbody.
  pose proof (read_checksum can_be_rehashed startup read_only contexts Hfit)
    as Hsum.
  pose proof (image_length can_be_rehashed startup read_only contexts Hfit)
    as Hlen.
  destruct (layout_facts startup read_only contexts Hfit)
    as (Hn & Hs & Hr & Hc & Hal & Htot & _).
  rewrite <- Hbytes in *. rewrite <- Hblob in *.
  assert (Hregion : view_bytes blob (ChecksummedContent blob)
                    = Ret (skipn (Z.to_nat kVersionStringOffset) bytes)).
  { apply checksummed_region; rewrite Hblob; cbn [data raw_size];
      [reflexivity | now rewrite Hlen |].
    change kVersionStringOffset with 12. lia. }
  assert (Hsame : skipn (Z.to_nat kVersionStringOffset) bytes
                  = blob_body startup read_only contexts).
  { rewrite <- Hlen in Hbody.
    rewrite slice_from in Hbody
      by (change kVersionStringOffset with 12; lia).
    now injection Hbody. }
  split.
  - now rewrite Hsame.
  - unfold VerifyChecksum. rewrite Hsum, Hregion. cbn [bind].
    rewrite Hsame, Z.eqb_refl. reflexivity.
Qed.

End Checksummed.

(** C3 (amended).  For a blob that holds [raw_size] bytes, at least the
    twelve of the first three fields, the checksummed region is exactly the
    bytes from offset 12 (the start of the version string) to the end of
    the blob, and [VerifyChecksum] returns whether the checksum of that
    region equals the number stored in the four bytes of the checksum
    field.  [CreateSnapshotBlob] stores the checksum of that region of the
    finished blob, so [VerifyChecksum] accepts what it builds; and
    [VerifyChecksum] gives the same result on two blobs that differ only in
    the bytes before the checksum field, that is in the context count and
    the rehashability flag. *)
Theorem checksum_region_starts_at_version_string {build : Build} :
  (forall (blob : StartupData) (bytes : list byte),
      data blob = Some bytes -> raw_size blob = len bytes ->
      kVersionStringOffset <= raw_size blob < 2 ^ 31 ->
      kVersionStringOffset = 12
      /\ view_bytes blob (ChecksummedContent blob) = Ret (skipn 12 bytes)
      /\ bytes = firstn 12 bytes ++ skipn 12 bytes
      /\ GetHeaderValue blob kChecksumOffset
         = Ret (le_combine (firstn 4 (skipn 8 bytes)))
      /\ VerifyChecksum blob
         = Ret (Checksum (skipn 12 bytes)
                =? le_combine (firstn 4 (skipn 8 bytes))))
  /\ (forall (flag : bool) (fresh : nat -> byte)
             (startup_in read_only_in : SnapshotData)
             (contexts_in : list SnapshotData) (can_be_rehashed : bool),
         ideal_total_length (MaybeCompress startup_in)
           (MaybeCompress read_only_in) (map MaybeCompress contexts_in)
         < 2 ^ 31 ->
         exists blob out bytes,
           CreateSnapshotBlob flag fresh startup_in read_only_in contexts_in
                              can_be_rehashed = Ret (blob, out)
           /\ data blob = Some bytes
           /\ GetHeaderValue blob kChecksumOffset
              = Ret (Checksum (skipn 12 bytes))
           /\ VerifyChecksum blob = Ret true)
  /\ (forall (blob blob' : StartupData) (bytes bytes' : list byte),
         data blob = Some bytes -> data blob' = Some bytes' ->
         raw_size blob' = raw_size blob -> length bytes' = length bytes ->
         skipn 8 bytes' = skipn 8 bytes ->
         VerifyChecksum blob' = VerifyChecksum blob).
Proof.
  split; [| split].
  - intros blob bytes Hd Hs Hr.
    pose proof (checksummed_region blob bytes Hd Hs Hr) as Hregion.
    change kVersionStringOffset with 12 in Hr.
    assert (Hstored : GetHeaderValue blob kChecksumOffset
                      = Ret (le_combine (firstn 4 (skipn 8 bytes)))).
    { unfold GetHeaderValue, ReadLittleEndianValue, slice. rewrite Hd.
      change kChecksumOffset with 8.
      assert (Hin : (8 + 4 <=? Z.of_nat (length bytes)) = true)
        by (apply Z.leb_le; unfold len in *; lia).
      rewrite Hin. reflexivity. }
    split; [reflexivity |]. split; [exact Hregion |].
    split; [now rewrite firstn_skipn |]. split; [exact Hstored |].
    unfold VerifyChecksum. rewrite Hstored. cbn [bind].
    rewrite Hregion. reflexivity.
  - intros flag fresh startup_in read_only_in contexts_in can_be_rehashed Hfit.
    destruct (CreateSnapshotBlob_layout flag fresh startup_in read_only_in
                contexts_in can_be_rehashed Hfit) as [out Hmade].
    destruct (VerifyChecksum_built can_be_rehashed _ _ _ _ _ Hfit eq_refl
                eq_refl) as [Hsum Hok].
    eexists. exists out. eexists.
    split; [exact Hmade |]. split; [reflexivity |]. split; assumption.
  - intros blob blob' bytes bytes' Hd Hd' Hs Hl Hk.
    now apply (VerifyChecksum_ignores_first_fields blob blob' bytes bytes').
Qed.

(* ------------------------------------------------------------------ *)
(** ** Extraction from an arbitrary blob *)

Lemma ExtractData_cases (blob : StartupData) (start_offset end_offset : Z) :
  (start_offset < end_offset < raw_size blob ->
   ExtractData blob start_offset end_offset
   = Ret {| start := start_offset;
            length_ := to_uint32 (end_offset - start_offset) |})
  /\ (~ start_offset < end_offset < raw_size blob ->
      is_fatal (ExtractData blob start_offset end_offset)).
Proof.
  unfold ExtractData, is_fatal.
  destruct (Z.ltb_spec start_offset end_offset);
    destruct (Z.ltb_spec end_offset (raw_size blob)); cbn [CHECK bind];
    split; intros; try lia; eauto.
Qed.

Lemma DCHECK_outcome {build : Build} (blob : StartupData) (n : Z)
    (text : string) :
  ExtractNumContexts blob = Ret n ->
  DCHECK (SnapshotIsValid blob) text = Ret tt
  \/ is_fatal (DCHECK (SnapshotIsValid blob) text).
Proof.
  intros Hn. unfold DCHECK, SnapshotIsValid, is_fatal.
  destruct DEBUG; [| now left]. rewrite Hn. cbn [bind].
  destruct (0 <? n); cbn [CHECK]; eauto.
Qed.

(** C10.  [ExtractData] returns a view only when
    [start_offset < end_offset < raw_size] and is fatal otherwise; so for
    every blob whose count and read-only offset can be read,
    [ExtractStartupData] is fatal when the startup offset equals the stored
    read-only offset, and [ExtractReadOnlyData] is fatal when the stored
    read-only offset equals the stored offset of context 0: an empty
    segment is never returned as an empty view. *)
Theorem empty_segment_is_fatal {build : Build}
    (blob : StartupData) (num_contexts read_only_offset : Z) :
  ExtractNumContexts blob = Ret num_contexts ->
  GetHeaderValue blob kReadOnlyOffsetOffset = Ret read_only_offset ->
  (forall start_offset end_offset : Z,
      (start_offset < end_offset < raw_size blob ->
       ExtractData blob start_offset end_offset
       = Ret {| start := start_offset;
                length_ := to_uint32 (end_offset - start_offset) |})
      /\ (~ start_offset < end_offset < raw_size blob ->
          is_fatal (ExtractData blob start_offset end_offset)))
  /\ (StartupSnapshotOffset num_contexts = read_only_offset ->
      is_fatal (ExtractStartupData blob))
  /\ (GetHeaderValue blob (ContextSnapshotOffsetOffset 0)
      = Ret read_only_offset ->
      is_fatal (ExtractReadOnlyData blob)).
Proof.
  intros Hn Hro. split; [| split].
  - intros a b. apply ExtractData_cases.
  - intros Heq. unfold ExtractStartupData.
    destruct (DCHECK_outcome blob num_contexts
                "Snapshot::SnapshotIsValid(data)" Hn) as [-> | [f ->]];
      [| exists f; reflexivity].
    cbn [bind]. rewrite Hn. cbn [bind]. rewrite Hro. cbn [bind].
    apply ExtractData_cases. lia.
  - intros Hc0. unfold ExtractReadOnlyData.
    destruct (DCHECK_outcome blob num_contexts
                "Snapshot::SnapshotIsValid(data)" Hn) as [-> | [f ->]];
      [| exists f; reflexivity].
    cbn [bind]. rewrite Hro. cbn [bind]. rewrite Hc0. cbn [bind].
    apply ExtractData_cases. lia.
Qed.

Lemma slice_length (buf bs : list byte) (off n : Z) :
  slice buf off n = Ret bs -> len bs = n.
Proof.
  unfold slice, len.
  destruct ((0 <=? off) && (0 <=? n) && (off + n <=? Z.of_nat (length buf)))
    eqn:E; [| discriminate].
  rewrite !andb_true_iff, !Z.leb_le in E.
  intros [= <-]. rewrite length_firstn, length_skipn. lia.
Qed.

Lemma GetHeaderValue_range (blob : StartupData) (offset v : Z) :
  GetHeaderValue blob offset = Ret v -> 0 <= v < 2 ^ 32.
Proof.
  unfold GetHeaderValue, ReadLittleEndianValue.
  destruct (data blob) as [buf |]; [| discriminate].
  destruct (slice buf offset 4) as [bs | |] eqn:E; cbn [bind];
    try discriminate.
  intros [= <-]. apply slice_length in E.
  pose proof (le_combine_bound bs) as Hb. unfold len in E.
  replace (8 * Z.of_nat (length bs)) with 32 in Hb by lia. exact Hb.
Qed.

Lemma ExtractNumContexts_range (blob : StartupData) (n : Z) :
  ExtractNumContexts blob = Ret n -> 0 <= n < 2 ^ 32 /\ 0 < raw_size blob.
Proof.
  unfold ExtractNumContexts.
  destruct (Z.ltb_spec kNumberOfContextsOffset (raw_size blob)) as [Hlt | Hge];
    cbn [CHECK bind]; [| discriminate].
  destruct (GetHeaderValue blob kNumberOfContextsOffset) eqn:E;
    cbn [bind]; try discriminate.
  intros [= <-]. split; [eapply GetHeaderValue_range; eassumption |].
  exact Hlt.
Qed.

(** C6.  [ExtractContextData(i)] is fatal unless [i < num_contexts].  For
    [i < num_contexts] on a valid blob (the stored offset of context [i]
    below [raw_size], and for a context that is not the last the next
    stored offset not smaller and below [raw_size]) it returns the view
    that begins at the stored offset of context [i] and ends at the stored
    offset of context [i + 1], or at [raw_size] for the last context. *)
Theorem ExtractContextData_view (blob : StartupData)
    (num_contexts index : Z) :
  ExtractNumContexts blob = Ret num_contexts ->
  0 <= index < 2 ^ 32 -> raw_size blob < 2 ^ 31 ->
  (num_contexts <= index -> is_fatal (ExtractContextData blob index))
  /\ (forall offset : Z,
         index < num_contexts ->
         GetHeaderValue blob (ContextSnapshotOffsetOffset index)
         = Ret offset ->
         offset < raw_size blob ->
         (index = num_contexts - 1 ->
          ExtractContextData blob index
          = Ret {| start := offset; length_ := raw_size blob - offset |})
         /\ (forall next : Z,
                index < num_contexts - 1 ->
                GetHeaderValue blob (ContextSnapshotOffsetOffset (index + 1))
                = Ret next ->
                offset <= next < raw_size blob ->
                ExtractContextData blob index
                = Ret {| start := offset; length_ := next - offset |})).
Proof.
  intros Hn Hi Hsize.
  destruct (ExtractNumContexts_range blob num_contexts Hn) as [Hnr Hpos].
  unfold ExtractContextData, ExtractContextOffset. rewrite Hn. cbn [bind].
  split.
  - intros Hle. destruct (Z.ltb_spec index num_contexts); [lia |].
    cbn [CHECK bind]. eexists; reflexivity.
  - intros offset Hlt Hoff Hvalid.
    pose proof (GetHeaderValue_range _ _ _ Hoff) as Hor.
    rewrite CHECK_true by (apply Z.ltb_lt; lia). cbn [bind].
    rewrite Hoff. cbn [bind].
    rewrite (to_uint32_small (raw_size blob)) by lia.
    rewrite CHECK_true by (apply Z.ltb_lt; lia). cbn [bind].
    rewrite (to_uint32_small (num_contexts - 1)) by lia.
    split.
    + intros ->. rewrite Z.eqb_refl. cbn [bind].
      rewrite to_uint32_small by lia. reflexivity.
    + intros next Hnl Hnext Hord.
      replace (index =? num_contexts - 1) with false
        by (symmetry; apply Z.eqb_neq; lia).
      rewrite (to_uint32_small (index + 1)) by lia.
      rewrite Hnext. cbn [bind].
      rewrite CHECK_true by (apply Z.ltb_lt; lia). cbn [bind].
      rewrite CHECK_true by (apply Z.ltb_lt; lia). cbn [bind].
      rewrite to_uint32_small by lia. reflexivity.
Qed.

(* ------------------------------------------------------------------ *)
(** ** [HasContextSnapshot] *)

Lemma slice_prefix (buf : list byte) (n : Z) :
  0 <= n <= len buf -> slice buf 0 n = Ret (firstn (Z.to_nat n) buf).
Proof.
  intros H. unfold slice, len in *.
  replace ((0 <=? 0) && (0 <=? n) && (0 + n <=? Z.of_nat (length buf)))
    with true by (symmetry; rewrite !andb_true_iff, !Z.leb_le; lia).
  reflexivity.
Qed.

(** C7 (amended).  [HasContextSnapshot] returns false when no blob is
    attached and when the attached blob's data pointer is null.  For an
    attached blob with a positive [raw_size] that holds the count field it
    returns whether [index] is below the stored context count, hence false
    for an index at or above it, and no attached blob with a positive
    [raw_size] makes it fail a check.  An attached blob with a non-null
    data pointer and a [raw_size] that is not positive fails the check of
    [ExtractNumContexts]. *)
Theorem HasContextSnapshot_cases (isolate : Isolate) (index : Z) :
  (snapshot_blob isolate = None ->
   HasContextSnapshot isolate index = Ret false)
  /\ (forall blob : StartupData,
         snapshot_blob isolate = Some blob -> data blob = None ->
         HasContextSnapshot isolate index = Ret false)
  /\ (forall (blob : StartupData) (bytes : list byte),
         snapshot_blob isolate = Some blob -> data blob = Some bytes ->
         0 < raw_size blob -> 4 <= len bytes ->
         ExtractNumContexts blob = Ret (le_combine (firstn 4 bytes))
         /\ HasContextSnapshot isolate index
            = Ret (index <? le_combine (firstn 4 bytes))
         /\ (le_combine (firstn 4 bytes) <= index ->
             HasContextSnapshot isolate index = Ret false))
  /\ (forall blob : StartupData,
         snapshot_blob isolate = Some blob -> 0 < raw_size blob ->
         ~ is_fatal (HasContextSnapshot isolate index))
  /\ (forall (blob : StartupData) (bytes : list byte),
         snapshot_blob isolate = Some blob -> data blob = Some bytes ->
         raw_size blob <= 0 ->
         is_fatal (HasContextSnapshot isolate index)).
Proof.
  unfold HasContextSnapshot.
  split; [| split; [| split; [| split]]].
  - now intros ->.
  - now intros blob -> ->.
  - intros blob bytes -> Hd Hpos Hlen. rewrite Hd.
    assert (Hn : ExtractNumContexts blob = Ret (le_combine (firstn 4 bytes))).
    { unfold ExtractNumContexts, GetHeaderValue, ReadLittleEndianValue.
      rewrite CHECK_true by (apply Z.ltb_lt; exact Hpos). cbn [bind].
      rewrite Hd. change kNumberOfContextsOffset with 0.
      rewrite slice_prefix by lia. reflexivity. }
    split; [exact Hn |]. rewrite Hn. cbn [bind].
    split; [reflexivity |].
    intros Hle. f_equal. apply Z.ltb_ge. exact Hle.
  - intros blob -> Hpos [f Hf].
    destruct (data blob) as [bytes |]; [| discriminate].
    unfold ExtractNumContexts in Hf.
    rewrite CHECK_true in Hf by (apply Z.ltb_lt; exact Hpos).
    cbn [bind] in Hf.
    destruct (GetHeaderValue blob kNumberOfContextsOffset) as [n | g |] eqn:E;
      cbn [bind] in Hf; try discriminate.
    unfold GetHeaderValue, ReadLittleEndianValue in E.
    destruct (data blob) as [buf |]; [| discriminate].
    destruct (slice buf kNumberOfContextsOffset 4) as [bs | g' |] eqn:E';
      cbn [bind] in E; try discriminate.
    unfold slice in E'.
    destruct ((0 <=? kNumberOfContextsOffset) && (0 <=? 4)
              && (kNumberOfContextsOffset + 4 <=? Z.of_nat (length buf)));
      discriminate.
  - intros blob bytes -> Hd Hle. rewrite Hd.
    unfold ExtractNumContexts.
    destruct (Z.ltb_spec kNumberOfContextsOffset (raw_size blob)) as [Hlt |];
      [change kNumberOfContextsOffset with 0 in Hlt; lia |].
    cbn [CHECK bind]. eexists; reflexivity.
Qed.

(* ------------------------------------------------------------------ *)
(** ** The profiling flag *)

Lemma at_index_same_length {A B : Type} (v : list A) (w : list B) (i : Z)
    (a : A) :
  length w = length v -> at_index v i = Ret a -> exists b, at_index w i = Ret b.
Proof.
  unfold at_index. intros Hlen.
  destruct (0 <=? i); [| discriminate].
  destruct (nth_error v (Z.to_nat i)) eqn:E; [| discriminate].
  intros _. assert (Hlt : (Z.to_nat i < length w)%nat).
  { rewrite Hlen. apply nth_error_Some. congruence. }
  destruct (nth_error w (Z.to_nat i)) eqn:E'; [eauto |].
  apply nth_error_None in E'. lia.
Qed.

Section Profiling.

Context {build : Build}.

Lemma write_contexts_flag (cs cin : list SnapshotData) :
  length cin = length cs ->
  forall (n : nat) (i : Z) (buf : list byte) (po : Z) (out out' : list line),
    strip_log (write_contexts true cs cin n i buf po out)
    = strip_log (write_contexts false cs cin n i buf po out').
Proof.
  intros Hlen. induction n as [| n IH]; intros i buf po out out'.
  - reflexivity.
  - cbn [write_contexts].
    destruct (SetHeaderValue buf (ContextSnapshotOffsetOffset i) po)
      as [buf1 | f |]; cbn [bind]; try reflexivity.
    destruct (at_index cs i) as [c | f |] eqn:Ec; cbn [bind];
      try reflexivity.
    destruct (CopyBytes buf1 po (RawData c) (raw_length c))
      as [buf2 | f |]; cbn [bind]; try reflexivity.
    destruct (at_index_same_length cs cin i c Hlen Ec) as [o ->].
    cbn [bind]. apply IH.
Qed.

Lemma write_contexts_silent (cs cin : list SnapshotData) :
  forall (n : nat) (i : Z) (buf : list byte) (po : Z) (out : list line),
    write_contexts false cs cin n i buf po out
    = ('(buf', po') <- strip_log (write_contexts false cs cin n i buf po out) ;;
       Ret (buf', po', out)).
Proof.
  induction n as [| n IH]; intros i buf po out.
  - reflexivity.
  - cbn [write_contexts].
    destruct (SetHeaderValue buf (ContextSnapshotOffsetOffset i) po)
      as [buf1 | f |]; cbn [bind]; try reflexivity.
    destruct (at_index cs i) as [c | f |] eqn:Ec; cbn [bind];
      try reflexivity.
    destruct (CopyBytes buf1 po (RawData c) (raw_length c))
      as [buf2 | f |]; cbn [bind]; try reflexivity.
    apply IH.
Qed.

End Profiling.

(** C8.  The blob [CreateSnapshotBlob] returns, its bytes and its length,
    is the same with [FLAG_profile_deserialization] on and off, for every
    input and also where the call fails; with the flag off nothing is
    printed. *)
Theorem profiling_flag_does_not_change_blob {build : Build}
    (fresh : nat -> byte) (startup_in read_only_in : SnapshotData)
    (contexts_in : list SnapshotData) (can_be_rehashed : bool) :
  produced_blob (CreateSnapshotBlob true fresh startup_in read_only_in
                   contexts_in can_be_rehashed)
  = produced_blob (CreateSnapshotBlob false fresh startup_in read_only_in
                     contexts_in can_be_rehashed)
  /\ printed_lines (CreateSnapshotBlob false fresh startup_in read_only_in
                      contexts_in can_be_rehashed)
     = (produced_blob (CreateSnapshotBlob false fresh startup_in read_only_in
                         contexts_in can_be_rehashed) ;;; Ret []).
Proof.
  unfold CreateSnapshotBlob, produced_blob, printed_lines.
  set (cs := map MaybeCompress contexts_in).
  assert (Hlen : length contexts_in = length cs)
    by (unfold cs; now rewrite length_map).
  repeat match goal with
  | |- context [bind ?m _] =>
      lazymatch m with
      | write_contexts _ _ _ _ _ _ _ _ => fail
      | bind _ _ => fail
      | _ => destruct m as [? | ? |]; cbn [bind]; try (split; reflexivity)
      end
  end.
  match goal with
  | |- context [write_contexts true cs contexts_in ?n ?i ?b ?po ?o1] =>
      match goal with
      | |- context [write_contexts false cs contexts_in n i b po ?o2] =>
          pose proof (write_contexts_flag cs contexts_in Hlen n i b po o1 o2)
            as Hflag;
          pose proof (write_contexts_silent cs contexts_in n i b po o2)
            as Hsilent;
          destruct (write_contexts true cs contexts_in n i b po o1)
            as [[[b1 p1] o1'] | f1 |];
          destruct (write_contexts false cs contexts_in n i b po o2)
            as [[[b2 p2] o2'] | f2 |];
          cbn [strip_log bind] in Hflag, Hsilent;
          try discriminate Hflag
      end
  end; cbn [bind].
  - injection Hflag as -> ->. injection Hsilent as ->.
    destruct (DCHECK _ _) as [[] | ? |]; cbn [bind];
      try (split; reflexivity).
    destruct (view_bytes _ _) as [payload | ? |]; cbn [bind];
      try (split; reflexivity).
    destruct (SetHeaderValue _ _ _) as [buf | ? |]; cbn [bind];
      split; reflexivity.
  - injection Hflag as ->. split; reflexivity.
  - split; reflexivity.
Qed.

(* ------------------------------------------------------------------ *)
(** ** Bytes that are never written *)

Lemma allocate_data_zeroes_prefix {build : Build} (fresh : nat -> byte)
    (total_length num_contexts : Z) :
  0 <= StartupSnapshotOffset num_contexts <= total_length ->
  allocate_data fresh total_length num_contexts
  = Ret (repeat Byte.x00 (Z.to_nat (StartupSnapshotOffset num_contexts))
           ++ skipn (Z.to_nat (StartupSnapshotOffset num_contexts))
                    (new_array fresh total_length)).
Proof.
  intros H. unfold allocate_data, memset.
  set (S0 := StartupSnapshotOffset num_contexts) in *.
  set (B := new_array fresh total_length).
  assert (HB : length B = Z.to_nat total_length) by apply new_array_length.
  rewrite (write_at_eq B [] (firstn (Z.to_nat S0) B) (skipn (Z.to_nat S0) B)).
  - reflexivity.
  - simpl. now rewrite firstn_skipn.
  - reflexivity.
  - rewrite length_firstn, repeat_length. lia.
Qed.

(** C9 (amended).  [CreateSnapshotBlob] zero-fills the first
    [StartupSnapshotOffset(num_contexts)] bytes of the array it allocates
    and leaves the rest as allocated; every byte from that offset on is
    then overwritten by a segment copy.  So, when the total length fits in
    an [int], the blob consists of the header fields, then zero padding up
    to the startup offset, then the stored segments, and it is the same
    whatever the allocated array held. *)
Theorem unwritten_bytes_are_zero {build : Build}
    (flag : bool) (fresh fresh' : nat -> byte)
    (startup_in read_only_in : SnapshotData)
    (contexts_in : list SnapshotData) (can_be_rehashed : bool) :
  ideal_total_length (MaybeCompress startup_in) (MaybeCompress read_only_in)
    (map MaybeCompress contexts_in) < 2 ^ 31 ->
  allocate_data fresh
    (ideal_total_length (MaybeCompress startup_in)
       (MaybeCompress read_only_in) (map MaybeCompress contexts_in))
    (len contexts_in)
  = Ret (repeat Byte.x00 (Z.to_nat (StartupSnapshotOffset (len contexts_in)))
           ++ skipn (Z.to_nat (StartupSnapshotOffset (len contexts_in)))
                (new_array fresh
                   (ideal_total_length (MaybeCompress startup_in)
                      (MaybeCompress read_only_in)
                      (map MaybeCompress contexts_in))))
  /\ exists blob header,
       produced_blob (CreateSnapshotBlob flag fresh startup_in read_only_in
                        contexts_in can_be_rehashed) = Ret blob
       /\ produced_blob (CreateSnapshotBlob flag fresh' startup_in
                           read_only_in contexts_in can_be_rehashed)
          = Ret blob
       /\ len header = kFirstContextOffsetOffset + 4 * len contexts_in
       /\ data blob
          = Some (header
                    ++ repeat Byte.x00
                         (Z.to_nat (StartupSnapshotOffset (len contexts_in)
                                    - (kFirstContextOffsetOffset
                                       + 4 * len contexts_in)))
                    ++ RawData (MaybeCompress startup_in)
                    ++ RawData (MaybeCompress read_only_in)
                    ++ flat_map RawData (map MaybeCompress contexts_in)).
Proof.
  intros Hfit.
  destruct (CreateSnapshotBlob_layout flag fresh startup_in read_only_in
              contexts_in can_be_rehashed Hfit) as [out Hmade].
  destruct (CreateSnapshotBlob_layout flag fresh' startup_in read_only_in
              contexts_in can_be_rehashed Hfit) as [out' Hmade'].
  set (s := MaybeCompress startup_in) in *.
  set (r := MaybeCompress read_only_in) in *.
  set (cs := map MaybeCompress contexts_in) in *.
  assert (Hn : len contexts_in = len cs)
    by (unfold cs, len; now rewrite length_map).
  destruct (layout_facts s r cs Hfit) as (H0 & Hs & Hr & Hc & Hal & Htot & HS0).
  destruct (image_fields can_be_rehashed s r cs Hfit)
    as (hn & hr & hc & V & ro & offs & zp & Himg & _ & _ & _ & _ & _ & _
        & Ezp & _ & Hhn & Hhr & Hhc & HV & Hro & Hoffs & Hzp).
  rewrite Hn, HS0. split.
  - rewrite <- HS0. apply allocate_data_zeroes_prefix.
    rewrite HS0. unfold ideal_total_length.
    change kFirstContextOffsetOffset with 80 in *.
    pose proof (payload_size_nonneg cs). lia.
  - eexists. exists (hn ++ hr ++ hc ++ V ++ ro ++ offs).
    rewrite Hmade, Hmade'. cbn [produced_blob bind data].
    split; [reflexivity |]. split; [reflexivity |]. split.
    + change kFirstContextOffsetOffset with 80.
      unfold len in *. rewrite !length_app. lia.
    + change kFirstContextOffsetOffset with 80.
      rewrite Himg, Ezp. f_equal. rewrite <- !app_assoc. reflexivity.
Qed.

(* ------------------------------------------------------------------ *)
(** ** The version check *)

Lemma strncmp_c_str (n : nat) :
  forall s1 s2 : list byte,
    (n <= length s1)%nat -> (n <= length s2)%nat ->
    exists z, strncmp s1 s2 n = Ret z
              /\ (z = 0 <-> c_str (firstn n s1) = c_str (firstn n s2)).
Proof.
  induction n as [| n IH]; intros s1 s2 H1 H2.
  - exists 0. simpl. split; [reflexivity | split; reflexivity].
  - destruct s1 as [| c1 t1]; [simpl in H1; lia |].
    destruct s2 as [| c2 t2]; [simpl in H2; lia |].
    simpl in H1, H2. cbn [strncmp firstn c_str].
    destruct (Z.eqb_spec (byte.unsigned c1) (byte.unsigned c2)) as [Heq | Hne].
    + apply byte.unsigned_inj in Heq. subst c2.
      destruct (Z.eqb_spec (byte.unsigned c1) 0) as [Hz | Hnz].
      * exists 0. split; [reflexivity | split; reflexivity].
      * destruct (IH t1 t2 ltac:(lia) ltac:(lia)) as (z & Hz & Hiff).
        exists z. split; [exact Hz |]. rewrite Hiff.
        split; [now intros -> | now intros [= ->]].
    + exists (byte.unsigned c1 - byte.unsigned c2). split; [reflexivity |].
      split; [lia |]. intros Hc. exfalso.
      destruct (Z.eqb_spec (byte.unsigned c1) 0) as [Hz1 | Hz1];
        destruct (Z.eqb_spec (byte.unsigned c2) 0) as [Hz2 | Hz2];
        try discriminate; [lia |].
      injection Hc as -> _. now apply Hne.
Qed.

Lemma printed_string_c_str (n : nat) :
  forall s : list byte,
    (n <= length s)%nat -> printed_string n s = Ret (c_str (firstn n s)).
Proof.
  induction n as [| n IH]; intros s Hs; [reflexivity |].
  destruct s as [| c t]; [simpl in Hs; lia |].
  simpl in Hs. cbn [printed_string firstn c_str].
  destruct (byte.unsigned c =? 0); [reflexivity |].
  rewrite IH by lia. reflexivity.
Qed.

(** C2 (amended).  [CheckVersion] checks the size first: it is fatal
    unless [raw_size], converted to [uint32_t] as the code converts it,
    exceeds 76; for an [int] that is [raw_size > 76] or [raw_size < 0].
    When the size check passes and the buffer holds the 76 bytes up to the
    end of the version field, it compares the embedded version field with
    the version string of the running build as C strings of at most 64
    bytes: only the bytes up to the first NUL are compared.  When these
    differ the call is fatal, and for a positive [raw_size] the diagnostic
    carries both version strings, the blob size and the context count;
    when they agree, in particular when the two 64-byte regions are
    identical, the call returns. *)
Theorem CheckVersion_compares_c_strings {build : Build}
    (blob : StartupData) :
  (to_uint32 (raw_size blob) <= kVersionStringOffset + kVersionStringLength ->
   is_fatal (CheckVersion blob))
  /\ (- 2 ^ 31 <= raw_size blob < 2 ^ 31 ->
      (kVersionStringOffset + kVersionStringLength
       < to_uint32 (raw_size blob)
       <-> kVersionStringOffset + kVersionStringLength < raw_size blob
           \/ raw_size blob < 0))
  /\ forall bytes : list byte,
       data blob = Some bytes ->
       kVersionStringOffset + kVersionStringLength <= len bytes ->
       kVersionStringOffset + kVersionStringLength
       < to_uint32 (raw_size blob) ->
       (c_str (embedded_version bytes) = c_str version_field ->
        CheckVersion blob = Ret tt)
       /\ (embedded_version bytes = version_field ->
           CheckVersion blob = Ret tt)
       /\ (c_str (embedded_version bytes) <> c_str version_field ->
           is_fatal (CheckVersion blob)
           /\ (0 < raw_size blob ->
               exists num_contexts,
                 ExtractNumContexts blob = Ret num_contexts
                 /\ CheckVersion blob
                    = Fatal (VersionMismatch (c_str version_field)
                               (c_str (embedded_version bytes))
                               (raw_size blob) num_contexts))).
Proof.
  split; [| split].
  - intros Hle. unfold CheckVersion.
    destruct (Z.ltb_spec (kVersionStringOffset + kVersionStringLength)
                (to_uint32 (raw_size blob))); [lia |].
    cbn [CHECK bind]. eexists; reflexivity.
  - intros Hint.
    change kVersionStringOffset with 12.
    change kVersionStringLength with 64.
    destruct (Z.lt_ge_cases (raw_size blob) 0) as [Hneg | Hpos].
    + assert (Hwrap : to_uint32 (raw_size blob) = raw_size blob + 2 ^ 32)
        by (unfold to_uint32; symmetry;
            apply Z.mod_unique with (q := -1); lia).
      lia.
    + rewrite to_uint32_small by lia. lia.
  - intros bytes Hd Hlen Hgt.
    pose proof (len_nonneg bytes) as Hb.
    unfold CheckVersion.
    change kVersionStringOffset with 12 in *.
    change kVersionStringLength with 64 in *.
    change (12 + 64) with 76 in *.
    rewrite CHECK_true by (apply Z.ltb_lt; lia). cbn [bind].
    rewrite Hd. fold version_field.
    change (GetString (repeat Byte.x00 (Z.to_nat 64))) with version_field.
    pose proof version_field_length as HV.
    assert (Hemb : (64 <= length (skipn (Z.to_nat 12) bytes))%nat)
      by (rewrite length_skipn; unfold len in *; lia).
    destruct (strncmp_c_str 64 version_field (skipn (Z.to_nat 12) bytes)
                ltac:(lia) Hemb) as (z & Hz & Hiff).
    change (Z.to_nat 64) with 64%nat.
    rewrite Hz. cbn [bind].
    rewrite (firstn_all2 (n := 64) version_field) in Hiff by lia.
    change (firstn 64 (skipn (Z.to_nat 12) bytes))
      with (embedded_version bytes) in Hiff.
    assert (Hpass : c_str (embedded_version bytes) = c_str version_field ->
                    (if negb (z =? 0)
                     then
                       binary <- printed_string 64 version_field ;;
                       snapshot <- printed_string 64
                                     (skipn (Z.to_nat 12) bytes) ;;
                       num_contexts <- ExtractNumContexts blob ;;
                       Fatal (VersionMismatch binary snapshot (raw_size blob)
                                num_contexts)
                     else Ret tt) = Ret tt).
    { intros Heq. replace z with 0 by (symmetry; apply Hiff; congruence).
      reflexivity. }
    split; [exact Hpass |]. split; [intros Heq; apply Hpass; congruence |].
    intros Hne.
    replace (z =? 0) with false
      by (symmetry; apply Z.eqb_neq; intros Hz0; apply Hne; symmetry;
          now apply Hiff).
    cbn [negb].
    rewrite !printed_string_c_str by lia. cbn [bind].
    rewrite (firstn_all2 (n := 64) version_field) by lia.
    change (firstn 64 (skipn (Z.to_nat 12) bytes))
      with (embedded_version bytes).
    destruct (Z.ltb_spec 0 (raw_size blob)) as [Hpos | Hnonpos].
    + assert (Hn : ExtractNumContexts blob
                   = Ret (le_combine (firstn 4 bytes))).
      { unfold ExtractNumContexts, GetHeaderValue, ReadLittleEndianValue.
        change kNumberOfContextsOffset with 0.
        rewrite CHECK_true by (apply Z.ltb_lt; lia). cbn [bind].
        rewrite Hd, slice_prefix by lia. reflexivity. }
      rewrite Hn. cbn [bind]. split; [eexists; reflexivity |].
      intros _. exists (le_combine (firstn 4 bytes)).
      split; reflexivity.
    + assert (Hn : is_fatal (ExtractNumContexts blob)).
      { unfold ExtractNumContexts. change kNumberOfContextsOffset with 0.
        destruct (Z.ltb_spec 0 (raw_size blob)); [lia |].
        cbn [CHECK bind]. eexists; reflexivity. }
      destruct Hn as [f Hf]. rewrite Hf. cbn [bind].
      split; [eexists; reflexivity | lia].
Qed.

(* ------------------------------------------------------------------ *)
(** ** The claims on concrete blobs *)

Ltac by_computation := vm_compute; first [reflexivity | discriminate].
Ltac split_ands := repeat match goal with |- _ /\ _ => split end.

(** The scenario of the specification: the four segments come back, there
    are two contexts, the blob is rehashable, and it passes the version
    and checksum checks of the build that made it. *)
Example scenario_of_the_specification :
  (v <- ExtractStartupData (build := Sample.build64) Sample.scenario_blob ;;
   view_bytes Sample.scenario_blob v) = Ret (Sample.ascii_bytes "S1")
  /\ (v <- ExtractReadOnlyData (build := Sample.build64)
             Sample.scenario_blob ;;
      view_bytes Sample.scenario_blob v) = Ret (Sample.ascii_bytes "RO1")
  /\ (v <- ExtractContextData Sample.scenario_blob 0 ;;
      view_bytes Sample.scenario_blob v) = Ret (Sample.ascii_bytes "C0AAA")
  /\ (v <- ExtractContextData Sample.scenario_blob 1 ;;
      view_bytes Sample.scenario_blob v) = Ret (Sample.ascii_bytes "C1B")
  /\ ExtractNumContexts Sample.scenario_blob = Ret 2
  /\ ExtractRehashability Sample.scenario_blob = Ret true
  /\ CheckVersion (build := Sample.build64) Sample.scenario_blob = Ret tt
  /\ VerifyChecksum (build := Sample.build64) Sample.scenario_blob
     = Ret true.
Proof. split_ands; vm_compute; reflexivity. Qed.

(** C1, as stated, fails.  A blob built without any context does not give
    its read-only segment back: [ExtractReadOnlyData] takes the end of the
    segment from the offset field of context 0, which such a blob does not
    have; here it reads the first bytes of the startup segment and the
    bounds check stops it.  Nor does a blob give back an empty startup
    segment, an empty read-only segment or an empty last context: the
    checks of [ExtractData] and [ExtractContextOffset] are strict. *)
Lemma round_trip_fails_without_contexts :
  (exists blob out,
      Sample.no_contexts Sample.build32 = Ret (blob, out)
      /\ ExtractReadOnlyData (build := Sample.build32) blob
         = Fatal (CheckFailed "end_offset < snapshot->raw_size")
      /\ (v <- ExtractReadOnlyData (build := Sample.build32) blob ;;
          view_bytes blob v)
         <> Ret (RawData (MaybeCompress (build := Sample.build32)
                            (Sample.segment "RO1"))))
  /\ (exists blob out,
         Sample.empty_startup Sample.build32 = Ret (blob, out)
         /\ ExtractStartupData (build := Sample.build32) blob
            = Fatal (CheckFailed "start_offset < end_offset"))
  /\ (exists blob out,
         Sample.empty_read_only Sample.build32 = Ret (blob, out)
         /\ ExtractReadOnlyData (build := Sample.build32) blob
            = Fatal (CheckFailed "start_offset < end_offset"))
  /\ (exists blob out,
         Sample.empty_last_context Sample.build32 = Ret (blob, out)
         /\ ExtractContextData blob 1
            = Fatal (CheckFailed
                 "context_offset < static_cast<uint32_t>(data->raw_size)")).
Proof.
  split; [| split; [| split]].
  - eexists. eexists. split; [vm_compute; reflexivity |].
    split; [vm_compute; reflexivity | vm_compute; discriminate].
  - eexists. eexists. split; [vm_compute; reflexivity |].
    vm_compute. reflexivity.
  - eexists. eexists. split; [vm_compute; reflexivity |].
    vm_compute. reflexivity.
  - eexists. eexists. split; [vm_compute; reflexivity |].
    vm_compute. reflexivity.
Qed.

(** The round trip on a 32-bit build with compression. *)
Lemma CreateSnapshotBlob_round_trip_witness :
  exists blob out,
    CreateSnapshotBlob (build := Sample.build32) true Sample.stale
      (Sample.segment "S1") (Sample.segment "RO1")
      ([Sample.segment "C0AAA"] ++ [Sample.segment "C1B"]) true
    = Ret (blob, out)
    /\ (v <- ExtractStartupData (build := Sample.build32) blob ;;
        view_bytes blob v) = Ret (Sample.ascii_bytes "1S")
    /\ (v <- ExtractReadOnlyData (build := Sample.build32) blob ;;
        view_bytes blob v) = Ret (Sample.ascii_bytes "1OR")
    /\ (v <- ExtractContextData blob 0 ;; view_bytes blob v)
       = Ret (Sample.ascii_bytes "AAA0C")
    /\ (v <- ExtractContextData blob 1 ;; view_bytes blob v)
       = Ret (Sample.ascii_bytes "B1C").
Proof.
  destruct (CreateSnapshotBlob_round_trip (build := Sample.build32) true
              Sample.stale (Sample.segment "S1") (Sample.segment "RO1")
              [Sample.segment "C0AAA"] (Sample.segment "C1B") true)
    as (blob & out & Hmade & Hs & Hr & Hc).
  - vm_compute. discriminate.
  - vm_compute. discriminate.
  - vm_compute. discriminate.
  - vm_compute. reflexivity.
  - exists blob, out. split; [exact Hmade |]. split; [exact Hs |].
    split; [exact Hr |]. split.
    + exact (Hc 0%nat (Sample.segment "C0AAA") eq_refl).
    + exact (Hc 1%nat (Sample.segment "C1B") eq_refl).
Defined.

(** C2, as stated, fails: the version field of this blob differs from the
    64 bytes of the running build's version in the bytes after the
    terminating NUL, and [CheckVersion] accepts it. *)
Lemma CheckVersion_ignores_bytes_after_NUL :
  exists bytes,
    data Sample.dirty_version_blob = Some bytes
    /\ embedded_version bytes <> version_field (build := Sample.build64)
    /\ CheckVersion (build := Sample.build64) Sample.dirty_version_blob
       = Ret tt.
Proof.
  eexists. split; [reflexivity |].
  split; [vm_compute; discriminate | vm_compute; reflexivity].
Qed.

(** A blob of another version is refused, with both versions, the size and
    the context count in the diagnostic. *)
Lemma CheckVersion_compares_c_strings_witness :
  CheckVersion (build := Sample.build64) Sample.other_version_blob
  = Fatal (VersionMismatch (Sample.ascii_bytes "8.1.307")
             (Sample.ascii_bytes "8.1.306") 96 1).
Proof.
  destruct (CheckVersion_compares_c_strings (build := Sample.build64)
              Sample.other_version_blob) as (_ & _ & Hcheck).
  destruct (Hcheck (le_split 4 1 ++ le_split 4 0 ++ le_split 4 0
                      ++ (Sample.ascii_bytes "8.1.306" ++ repeat Byte.x00 57)
                      ++ repeat Byte.x00 20))
    as (_ & _ & Hfatal);
    [reflexivity | vm_compute; discriminate | vm_compute; reflexivity |].
  destruct Hfatal as [_ Hdiag]; [vm_compute; discriminate |].
  destruct Hdiag as (n & Hn & Hc); [reflexivity |].
  rewrite Hc. vm_compute in Hn. injection Hn as <-.
  vm_compute. reflexivity.
Defined.

(** With a negative [raw_size] the size check of [CheckVersion] passes. *)
Example CheckVersion_accepts_negative_raw_size :
  CheckVersion (build := Sample.build64) Sample.negative_size_blob = Ret tt.
Proof. vm_compute. reflexivity. Qed.

(** C3, as stated, fails: on a blob of eight bytes the checksummed region
    begins after the last byte and is longer than the blob, so it cannot be
    read and [VerifyChecksum] has no result. *)
Lemma checksum_region_wraps_for_short_blob :
  exists bytes,
    data Sample.short_blob = Some bytes
    /\ raw_size Sample.short_blob = len bytes
    /\ len bytes = 8
    /\ ChecksummedContent Sample.short_blob
       = {| start := 12; length_ := 4294967292 |}
    /\ view_bytes Sample.short_blob (ChecksummedContent Sample.short_blob)
       <> Ret (skipn 12 bytes)
    /\ VerifyChecksum (build := Sample.build64) Sample.short_blob
       = Undefined.
Proof.
  eexists. split; [reflexivity |].
  split; [vm_compute; reflexivity |]. split; [vm_compute; reflexivity |].
  split; [vm_compute; reflexivity |].
  split; [vm_compute; discriminate | vm_compute; reflexivity].
Qed.

(** The checksum region on the scenario of the specification, and a blob
    whose stored checksum is not that of its region. *)
Lemma checksum_region_witness :
  (exists bytes,
      data Sample.scenario_blob = Some bytes
      /\ view_bytes Sample.scenario_blob
           (ChecksummedContent Sample.scenario_blob)
         = Ret (skipn 12 bytes))
  /\ VerifyChecksum (build := Sample.build64) Sample.other_version_blob
     = Ret false
  /\ (exists blob out,
         Sample.scenario Sample.build64 = Ret (blob, out)
         /\ VerifyChecksum (build := Sample.build64) blob = Ret true)
  /\ VerifyChecksum (build := Sample.build64)
       {| data := Some (le_split 4 7 ++ le_split 4 0
                          ++ le_split 4 0 ++ repeat Byte.x00 80);
          raw_size := 92 |}
     = VerifyChecksum (build := Sample.build64)
         {| data := Some (repeat Byte.x00 92); raw_size := 92 |}.
Proof.
  destruct (checksum_region_starts_at_version_string
              (build := Sample.build64)) as (Hregion & Hmade & Hsame).
  split; [| split; [| split]].
  - let b := eval vm_compute in (data Sample.scenario_blob) in
    match b with Some ?l => exists l end.
    split; [vm_compute; reflexivity |].
    refine (proj1 (proj2 (Hregion Sample.scenario_blob _ _ _ _))).
    + vm_compute. reflexivity.
    + vm_compute. reflexivity.
    + vm_compute. split; [discriminate | reflexivity].
  - etransitivity.
    + refine (proj2 (proj2 (proj2 (proj2
                (Hregion Sample.other_version_blob _ eq_refl _ _))))).
      * vm_compute. reflexivity.
      * vm_compute. split; [discriminate | reflexivity].
    + vm_compute. reflexivity.
  - destruct (Hmade false Sample.stale (Sample.segment "S1")
                (Sample.segment "RO1")
                [Sample.segment "C0AAA"; Sample.segment "C1B"] true)
      as (blob & out & bytes & Hb & _ & _ & Hok).
    + vm_compute. reflexivity.
    + exists blob, out. split; [exact Hb | exact Hok].
  - eapply Hsame; [reflexivity | reflexivity | reflexivity | ..];
      vm_compute; reflexivity.
Defined.



(** C5.  Not upheld by the code: on a blob whose stored
    offset of context 1 (96) is smaller than the stored offset of
    context 0 (100), both below [raw_size] (120), [ExtractContextData]
    checks each offset against [raw_size] but not their order, and returns
    for context 0 a view of length [96 - 100] taken as a [uint32_t],
    which reaches far beyond the blob.  The same two offsets given to
    [ExtractData] fail its check. *)
Theorem ExtractContextData_accepts_decreasing_offsets :
  ExtractNumContexts Sample.swapped_offsets_blob = Ret 2
  /\ GetHeaderValue Sample.swapped_offsets_blob
       (ContextSnapshotOffsetOffset 0) = Ret 100
  /\ GetHeaderValue Sample.swapped_offsets_blob
       (ContextSnapshotOffsetOffset 1) = Ret 96
  /\ raw_size Sample.swapped_offsets_blob = 120
  /\ ExtractContextData Sample.swapped_offsets_blob 0
     = Ret {| start := 100; length_ := 4294967292 |}
  /\ view_bytes Sample.swapped_offsets_blob
       {| start := 100; length_ := 4294967292 |} = Undefined
  /\ ExtractData Sample.swapped_offsets_blob 100 96
     = Fatal (CheckFailed "start_offset < end_offset").
Proof. split_ands; vm_compute; reflexivity. Qed.

(** The two contexts of the scenario of the specification, and an index
    past them. *)
Lemma ExtractContextData_view_witness :
  ExtractContextData Sample.scenario_blob 0
  = Ret {| start := 93; length_ := 98 - 93 |}
  /\ ExtractContextData Sample.scenario_blob 1
     = Ret {| start := 98; length_ := 101 - 98 |}
  /\ is_fatal (ExtractContextData Sample.scenario_blob 2).
Proof.
  assert (Hn : ExtractNumContexts Sample.scenario_blob = Ret 2)
    by (vm_compute; reflexivity).
  assert (Hsize : raw_size Sample.scenario_blob < 2 ^ 31)
    by (vm_compute; reflexivity).
  split; [| split].
  - destruct (ExtractContextData_view Sample.scenario_blob 2 0 Hn
                ltac:(lia) Hsize) as [_ Hview].
    destruct (Hview 93) as [_ Hnext];
      [lia | vm_compute; reflexivity | vm_compute; reflexivity |].
    apply Hnext; [lia | vm_compute; reflexivity |].
    vm_compute. split; [discriminate | reflexivity].
  - destruct (ExtractContextData_view Sample.scenario_blob 2 1 Hn
                ltac:(lia) Hsize) as [_ Hview].
    destruct (Hview 98) as [Hlast _];
      [lia | vm_compute; reflexivity | vm_compute; reflexivity |].
    rewrite Hlast by lia. vm_compute. reflexivity.
  - destruct (ExtractContextData_view Sample.scenario_blob 2 2 Hn
                ltac:(lia) Hsize) as [Hfatal _].
    apply Hfatal. lia.
Defined.

(** C7, as stated, fails: an attached blob with a buffer and a size of
    zero makes [HasContextSnapshot] fail the check of
    [ExtractNumContexts]. *)
Lemma HasContextSnapshot_fatal_for_zero_size :
  HasContextSnapshot Sample.zero_size_isolate 0
  = Fatal (CheckFailed "kNumberOfContextsOffset < data->raw_size").
Proof. vm_compute. reflexivity. Qed.

(** [HasContextSnapshot] on the scenario of the specification, on an
    isolate without a blob and on a blob without data. *)
Lemma HasContextSnapshot_cases_witness :
  HasContextSnapshot {| snapshot_blob := Some Sample.scenario_blob |} 1
  = Ret true
  /\ HasContextSnapshot {| snapshot_blob := Some Sample.scenario_blob |} 2
     = Ret false
  /\ HasContextSnapshot {| snapshot_blob := None |} 0 = Ret false
  /\ HasContextSnapshot
       {| snapshot_blob := Some {| data := None; raw_size := 101 |} |} 0
     = Ret false
  /\ is_fatal (HasContextSnapshot Sample.zero_size_isolate 0).
Proof.
  split; [| split; [| split; [| split]]].
  - destruct (HasContextSnapshot_cases
                {| snapshot_blob := Some Sample.scenario_blob |} 1)
      as (_ & _ & Hcount & _).
    let b := eval vm_compute in (data Sample.scenario_blob) in
    match b with
    | Some ?l => destruct (Hcount Sample.scenario_blob l) as (_ & Hres & _)
    end; [by_computation .. |].
    rewrite Hres. vm_compute. reflexivity.
  - destruct (HasContextSnapshot_cases
                {| snapshot_blob := Some Sample.scenario_blob |} 2)
      as (_ & _ & Hcount & _).
    let b := eval vm_compute in (data Sample.scenario_blob) in
    match b with
    | Some ?l => destruct (Hcount Sample.scenario_blob l) as (_ & _ & Hfalse)
    end; [by_computation .. |].
    apply Hfalse. vm_compute. discriminate.
  - apply (HasContextSnapshot_cases {| snapshot_blob := None |} 0).
    reflexivity.
  - destruct (HasContextSnapshot_cases
                {| snapshot_blob :=
                     Some {| data := None; raw_size := 101 |} |} 0)
      as (_ & Hnull & _).
    apply (Hnull {| data := None; raw_size := 101 |}); reflexivity.
  - destruct (HasContextSnapshot_cases Sample.zero_size_isolate 0)
      as (_ & _ & _ & _ & Hfatal).
    apply (Hfatal {| data := Some (repeat Byte.x00 4); raw_size := 0 |}
                  (repeat Byte.x00 4));
      [reflexivity | reflexivity | by_computation].
Defined.

(** C9, as stated, fails: the array of the scenario of the specification
    (101 bytes, two contexts) is zeroed up to the startup offset 88 only;
    after the allocation byte 88 still holds what the allocator left. *)
Lemma allocation_is_not_zeroed_to_the_end :
  raw_size Sample.scenario_blob = 101
  /\ exists buf,
       allocate_data (build := Sample.build64) Sample.stale 101 2 = Ret buf
       /\ nth_error buf 87 = Some Byte.x00
       /\ nth_error buf 88 = Some Byte.xff
       /\ buf <> repeat Byte.x00 101.
Proof.
  split; [vm_compute; reflexivity |].
  eexists. split; [vm_compute; reflexivity |].
  split; [vm_compute; reflexivity |].
  split; [vm_compute; reflexivity | vm_compute; discriminate].
Qed.

(** On a 64-bit build, one context leaves four bytes of padding; the blob
    does not depend on what the allocator left. *)
Lemma unwritten_bytes_are_zero_witness :
  exists blob bytes,
    produced_blob (CreateSnapshotBlob (build := Sample.build64) false
                     Sample.stale (Sample.segment "S1")
                     (Sample.segment "RO1") [Sample.segment "C0AAA"] true)
    = Ret blob
    /\ produced_blob (CreateSnapshotBlob (build := Sample.build64) false
                        (fun _ => Byte.x2a) (Sample.segment "S1")
                        (Sample.segment "RO1") [Sample.segment "C0AAA"] true)
       = Ret blob
    /\ data blob = Some bytes
    /\ slice bytes 84 4 = Ret (repeat Byte.x00 4).
Proof.
  destruct (unwritten_bytes_are_zero (build := Sample.build64) false
              Sample.stale (fun _ => Byte.x2a) (Sample.segment "S1")
              (Sample.segment "RO1") [Sample.segment "C0AAA"] true)
    as (_ & blob & header & Hmade & Hmade' & Hlen & Hdata).
  - vm_compute. reflexivity.
  - exists blob. eexists. split; [exact Hmade |]. split; [exact Hmade' |].
    split; [exact Hdata |].
    apply slice_mid; [rewrite Hlen |]; vm_compute; reflexivity.
Defined.

(** The blob built with an empty startup segment, and one whose stored
    read-only offset equals the stored offset of context 0. *)
Lemma empty_segment_is_fatal_witness :
  is_fatal (ExtractStartupData (build := Sample.build64)
              Sample.empty_startup_blob)
  /\ is_fatal (ExtractReadOnlyData (build := Sample.build64)
                 {| data := Some (le_split 4 1 ++ le_split 4 0
                                    ++ le_split 4 0 ++ repeat Byte.x00 64
                                    ++ le_split 4 92 ++ le_split 4 92
                                    ++ repeat Byte.x00 16);
                    raw_size := 100 |}).
Proof.
  split.
  - destruct (empty_segment_is_fatal (build := Sample.build64)
                Sample.empty_startup_blob 2 88) as (_ & Hstartup & _);
      [by_computation .. |].
    apply Hstartup. vm_compute. reflexivity.
  - match goal with
    | |- is_fatal (ExtractReadOnlyData ?b) =>
        destruct (empty_segment_is_fatal (build := Sample.build64) b 1 92)
          as (_ & _ & Hro)
    end; [by_computation .. |].
    apply Hro. vm_compute. reflexivity.
Defined.

(* ------------------------------------------------------------------ *)
(** ** Further properties: the layout *)

(** X1.  The startup segment begins at a multiple of the pointer size,
    after the last context offset field and less than one pointer size
    after it; every context offset field lies between the read-only offset
    field and the startup segment. *)
Theorem StartupSnapshotOffset_aligned {build : Build} (num_contexts : Z) :
  0 <= num_contexts ->
  kFirstContextOffsetOffset + 4 * num_contexts + 8 <= 2 ^ 31 ->
  StartupSnapshotOffset num_contexts mod kSystemPointerSize = 0
  /\ kFirstContextOffsetOffset + 4 * num_contexts
     <= StartupSnapshotOffset num_contexts
     < kFirstContextOffsetOffset + 4 * num_contexts + kSystemPointerSize
  /\ forall index : Z,
       0 <= index < num_contexts ->
       kReadOnlyOffsetOffset + kUInt32Size
       <= ContextSnapshotOffsetOffset index
       /\ ContextSnapshotOffsetOffset index + kUInt32Size
          <= StartupSnapshotOffset num_contexts
       /\ ContextSnapshotOffsetOffset (index + 1)
          = ContextSnapshotOffsetOffset index + kUInt32Size.
Proof.
  intros Hn Hfit.
  pose proof (POINTER_SIZE_ALIGN_bounds
                (kFirstContextOffsetOffset + 4 * num_contexts)) as Hb.
  rewrite StartupSnapshotOffset_ideal; [| lia | lia].
  rewrite POINTER_SIZE_ALIGN_div in *.
  change kFirstContextOffsetOffset with 80 in *.
  change kReadOnlyOffsetOffset with 76. change kUInt32Size with 4.
  assert (Hps : 0 < kSystemPointerSize)
    by (destruct kSystemPointerSize_cases as [-> | ->]; lia).
  set (v := 80 + 4 * num_contexts) in *.
  assert (Hne : kSystemPointerSize <> 0) by lia.
  pose proof (Z.div_mod (v + (kSystemPointerSize - 1)) kSystemPointerSize
                Hne) as Hdm.
  pose proof (Z.mod_pos_bound (v + (kSystemPointerSize - 1))
                kSystemPointerSize Hps) as Hmod.
  split; [apply Z.mod_mul; lia |].
  split; [nia |].
  intros index Hi.
  rewrite !ContextSnapshotOffsetOffset_small
    by (change kFirstContextOffsetOffset with 80; lia).
  change kFirstContextOffsetOffset with 80. unfold v in *. nia.
Qed.

Lemma StartupSnapshotOffset_aligned_witness :
  StartupSnapshotOffset (build := Sample.build64) 1 = 88
  /\ StartupSnapshotOffset (build := Sample.build32) 1 = 84.
Proof.
  destruct (StartupSnapshotOffset_aligned (build := Sample.build64) 1)
    as (Hmod & Hrange & _); [lia | vm_compute; discriminate |].
  destruct (StartupSnapshotOffset_aligned (build := Sample.build32) 1)
    as (Hmod' & Hrange' & _); [lia | vm_compute; discriminate |].
  change (kSystemPointerSize (build := Sample.build64)) with 8 in *.
  change (kSystemPointerSize (build := Sample.build32)) with 4 in *.
  change kFirstContextOffsetOffset with 80 in *.
  split.
  - apply Z.mod_divide in Hmod; [| lia]. destruct Hmod as [k Hk]. lia.
  - apply Z.mod_divide in Hmod'; [| lia]. destruct Hmod' as [k Hk]. lia.
Defined.

(* ------------------------------------------------------------------ *)
(** ** Further properties: building *)

Lemma bind_Ret_inv {A B : Type} (m : outcome A) (k : A -> outcome B) (b : B) :
  bind m k = Ret b -> exists a, m = Ret a /\ k a = Ret b.
Proof. destruct m; cbn [bind]; [eauto | discriminate | discriminate]. Qed.

Lemma CHECK_Ret_inv (c : bool) (text : string) (u : unit) :
  CHECK c text = Ret u -> c = true.
Proof. destruct c; [reflexivity | discriminate]. Qed.

(** X2.  When the total length fits in an [int], [CreateSnapshotBlob]
    returns: no write leaves the allocated array and, in a debug build,
    the assertion that the running offset ends at the total length holds.
    The blob it returns has a buffer of exactly [raw_size] bytes, and
    [raw_size] is the startup offset plus the lengths of the stored
    segments. *)
Theorem CreateSnapshotBlob_well_formed {build : Build}
    (flag : bool) (fresh : nat -> byte)
    (startup_in read_only_in : SnapshotData)
    (contexts_in : list SnapshotData) (can_be_rehashed : bool) :
  ideal_total_length (MaybeCompress startup_in) (MaybeCompress read_only_in)
    (map MaybeCompress contexts_in) < 2 ^ 31 ->
  exists blob out bytes,
    CreateSnapshotBlob flag fresh startup_in read_only_in contexts_in
                       can_be_rehashed = Ret (blob, out)
    /\ data blob = Some bytes
    /\ len bytes = raw_size blob
    /\ raw_size blob
       = StartupSnapshotOffset (len contexts_in)
         + len (RawData (MaybeCompress startup_in))
         + len (RawData (MaybeCompress read_only_in))
         + payload_size (map MaybeCompress contexts_in)
    /\ kFirstContextOffsetOffset + 4 * len contexts_in <= raw_size blob.
Proof.
  intros Hfit.
  destruct (CreateSnapshotBlob_layout flag fresh startup_in read_only_in
              contexts_in can_be_rehashed Hfit) as [out Hmade].
  set (s := MaybeCompress startup_in) in *.
  set (r := MaybeCompress read_only_in) in *.
  set (cs := map MaybeCompress contexts_in) in *.
  assert (Hn : len contexts_in = len cs)
    by (unfold cs, len; now rewrite length_map).
  destruct (layout_facts s r cs Hfit) as (H0 & Hs & Hr & Hc & Hal & Htot & HS0).
  eexists. exists out. eexists. split; [exact Hmade |].
  cbn [data raw_size]. split; [reflexivity |].
  split; [apply (image_length can_be_rehashed s r cs Hfit) |].
  rewrite Hn, HS0. change kFirstContextOffsetOffset with 80.
  split; [exact Htot | lia].
Qed.

Lemma CreateSnapshotBlob_well_formed_witness :
  exists blob out bytes,
    CreateSnapshotBlob (build := Sample.build32) true Sample.stale
      (Sample.segment "S1") (Sample.segment "RO1") [] false = Ret (blob, out)
    /\ data blob = Some bytes /\ len bytes = 85 /\ raw_size blob = 85.
Proof.
  destruct (CreateSnapshotBlob_well_formed (build := Sample.build32) true
              Sample.stale (Sample.segment "S1") (Sample.segment "RO1") []
              false)
    as (blob & out & bytes & Hmade & Hd & Hlen & Hsize & _);
    [vm_compute; reflexivity |].
  exists blob, out, bytes. split; [exact Hmade |]. split; [exact Hd |].
  rewrite Hlen, Hsize. split; vm_compute; reflexivity.
Defined.

(* ------------------------------------------------------------------ *)
(** ** Further properties: the header fields *)

Lemma read_rehashability {build : Build} (can_be_rehashed : bool)
    (startup read_only : SnapshotData) (contexts : list SnapshotData) :
  ideal_total_length startup read_only contexts < 2 ^ 31 ->
  GetHeaderValue
    {| data := Some (blob_image can_be_rehashed startup read_only contexts);
       raw_size := ideal_total_length startup read_only contexts |}
    kRehashabilityOffset
  = Ret (if can_be_rehashed then 1 else 0).
Proof.
  intros Hfit.
  destruct (image_fields can_be_rehashed startup read_only contexts Hfit)
    as (hn & hr & hc & V & ro & offs & zp & Himg & _ & Ehr & _ & _ & _ & _
        & _ & _ & Hhn & _).
  unfold GetHeaderValue. cbn [data].
  apply (read_le_eq _ hn (hc ++ V ++ ro ++ offs ++ zp ++ RawData startup
                            ++ RawData read_only
                            ++ flat_map RawData contexts)).
  - rewrite Himg, Ehr. reflexivity.
  - unfold len. rewrite Hhn. reflexivity.
  - destruct can_be_rehashed; lia.
Qed.

Lemma ExtractRehashability_built {build : Build} (can_be_rehashed : bool)
    (startup read_only : SnapshotData) (contexts : list SnapshotData) :
  ideal_total_length startup read_only contexts < 2 ^ 31 ->
  ExtractRehashability
    {| data := Some (blob_image can_be_rehashed startup read_only contexts);
       raw_size := ideal_total_length startup read_only contexts |}
  = Ret can_be_rehashed.
Proof.
  intros Hfit.
  destruct (layout_facts startup read_only contexts Hfit)
    as (H0 & Hs & Hr & Hc & Hal & Htot & HS0).
  unfold ExtractRehashability. cbn [raw_size].
  rewrite to_uint32_small by lia.
  rewrite CHECK_true
    by (apply Z.ltb_lt; change kRehashabilityOffset with 4; lia).
  cbn [bind]. rewrite (read_rehashability _ _ _ _ Hfit). cbn [bind].
  destruct can_be_rehashed; reflexivity.
Qed.

(** X3.  The two scalar header fields come back from a built blob: when
    the total length fits in an [int], [ExtractNumContexts] returns the
    number of contexts given to [CreateSnapshotBlob] and
    [ExtractRehashability] returns its [can_be_rehashed] argument. *)
Theorem header_fields_round_trip {build : Build}
    (flag : bool) (fresh : nat -> byte)
    (startup_in read_only_in : SnapshotData)
    (contexts_in : list SnapshotData) (can_be_rehashed : bool) :
  ideal_total_length (MaybeCompress startup_in) (MaybeCompress read_only_in)
    (map MaybeCompress contexts_in) < 2 ^ 31 ->
  exists blob out,
    CreateSnapshotBlob flag fresh startup_in read_only_in contexts_in
                       can_be_rehashed = Ret (blob, out)
    /\ ExtractNumContexts blob = Ret (len contexts_in)
    /\ ExtractRehashability blob = Ret can_be_rehashed.
Proof.
  intros Hfit.
  destruct (CreateSnapshotBlob_layout flag fresh startup_in read_only_in
              contexts_in can_be_rehashed Hfit) as [out Hmade].
  eexists. exists out. split; [exact Hmade |]. split.
  - rewrite (read_num_contexts can_be_rehashed _ _ _ Hfit).
    unfold len. now rewrite length_map.
  - apply (ExtractRehashability_built can_be_rehashed _ _ _ Hfit).
Qed.

Lemma header_fields_round_trip_witness :
  exists blob out,
    CreateSnapshotBlob (build := Sample.build32) false Sample.stale
      (Sample.segment "S1") (Sample.segment "RO1")
      [Sample.segment "C0AAA"; Sample.segment "C1B"; Sample.segment "C2"]
      false = Ret (blob, out)
    /\ ExtractNumContexts blob = Ret 3
    /\ ExtractRehashability blob = Ret false.
Proof.
  apply (header_fields_round_trip (build := Sample.build32)).
  vm_compute. reflexivity.
Defined.



(* ------------------------------------------------------------------ *)
(** ** Further properties: views *)

Lemma ExtractData_Ret_inv (blob : StartupData) (start_offset end_offset : Z)
    (v : Vector) :
  ExtractData blob start_offset end_offset = Ret v ->
  start_offset < end_offset < raw_size blob
  /\ v = {| start := start_offset;
            length_ := to_uint32 (end_offset - start_offset) |}.
Proof.
  unfold ExtractData. intros H.
  apply bind_Ret_inv in H as ([] & Hc1 & H).
  apply bind_Ret_inv in H as ([] & Hc2 & H).
  apply CHECK_Ret_inv, Z.ltb_lt in Hc1, Hc2. injection H as <-. auto.
Qed.

Lemma view_inside (blob : StartupData) (bytes : list byte)
    (start_offset end_offset : Z) (v : Vector) :
  data blob = Some bytes -> raw_size blob = len bytes ->
  0 <= start_offset -> end_offset < 2 ^ 32 ->
  ExtractData blob start_offset end_offset = Ret v ->
  exists segment,
    view_bytes blob v = Ret segment
    /\ len segment = length_ v /\ 0 < length_ v
    /\ start v = start_offset
    /\ start v + length_ v = end_offset
    /\ end_offset < raw_size blob.
Proof.
  intros Hd Hsize Hs He H.
  apply ExtractData_Ret_inv in H as [Hord ->].
  cbn [start length_]. rewrite to_uint32_small by lia.
  unfold view_bytes. rewrite Hd. cbn [start length_].
  destruct (slice bytes start_offset (end_offset - start_offset))
    as [segment | f |] eqn:E.
  - exists segment. pose proof (slice_length _ _ _ _ E) as Hl.
    split; [reflexivity |]. lia.
  - unfold slice in E.
    destruct ((0 <=? start_offset) && (0 <=? end_offset - start_offset)
              && (start_offset + (end_offset - start_offset)
                   <=? Z.of_nat (length bytes))); discriminate.
  - exfalso. unfold slice, len in *.
    replace ((0 <=? start_offset) && (0 <=? end_offset - start_offset)
             && (start_offset + (end_offset - start_offset)
                  <=? Z.of_nat (length bytes)))
      with true in E by (symmetry; rewrite !andb_true_iff, !Z.leb_le; lia).
    discriminate.
Qed.

(** X5.  On a blob whose buffer holds [raw_size] bytes, corrupted or not, a
    view returned by [ExtractStartupData] or by [ExtractReadOnlyData] lies
    inside the blob, is not empty and ends before the last byte; the
    startup view begins at the startup offset and ends at the stored
    read-only offset, where the read-only view begins. *)
Theorem startup_and_read_only_views_inside {build : Build}
    (blob : StartupData) (bytes : list byte) :
  data blob = Some bytes -> raw_size blob = len bytes ->
  (forall v : Vector,
      ExtractStartupData blob = Ret v ->
      exists segment num_contexts,
        view_bytes blob v = Ret segment
        /\ len segment = length_ v /\ 0 < length_ v
        /\ ExtractNumContexts blob = Ret num_contexts
        /\ start v = StartupSnapshotOffset num_contexts
        /\ GetHeaderValue blob kReadOnlyOffsetOffset
           = Ret (start v + length_ v)
        /\ start v + length_ v < raw_size blob)
  /\ (forall v : Vector,
         ExtractReadOnlyData blob = Ret v ->
         exists segment,
           view_bytes blob v = Ret segment
           /\ len segment = length_ v /\ 0 < length_ v
           /\ GetHeaderValue blob kReadOnlyOffsetOffset = Ret (start v)
           /\ GetHeaderValue blob (ContextSnapshotOffsetOffset 0)
              = Ret (start v + length_ v)
           /\ start v + length_ v < raw_size blob).
Proof.
  intros Hd Hsize. split.
  - intros v H. unfold ExtractStartupData in H.
    apply bind_Ret_inv in H as ([] & _ & H).
    apply bind_Ret_inv in H as (n & Hn & H).
    apply bind_Ret_inv in H as (e & He & H).
    pose proof (GetHeaderValue_range _ _ _ He) as Her.
    assert (H0 : 0 <= StartupSnapshotOffset n)
      by (unfold StartupSnapshotOffset; apply to_uint32_range).
    assert (H1 : e < 2 ^ 32) by lia.
    destruct (view_inside blob bytes _ _ v Hd Hsize H0 H1 H)
      as (segment & Hv & Hl & Hpos & Hstart & Hend & Hlt).
    exists segment, n. rewrite Hend, Hstart. repeat split; auto.
  - intros v H. unfold ExtractReadOnlyData in H.
    apply bind_Ret_inv in H as ([] & _ & H).
    apply bind_Ret_inv in H as (s & Hs & H).
    apply bind_Ret_inv in H as (e & He & H).
    pose proof (GetHeaderValue_range _ _ _ Hs) as Hsr.
    pose proof (GetHeaderValue_range _ _ _ He) as Her.
    assert (H0 : 0 <= s) by lia.
    assert (H1 : e < 2 ^ 32) by lia.
    destruct (view_inside blob bytes _ _ v Hd Hsize H0 H1 H)
      as (segment & Hv & Hl & Hpos & Hstart & Hend & Hlt).
    exists segment. rewrite Hend, Hstart. repeat split; auto.
Qed.

Lemma startup_and_read_only_views_inside_witness :
  exists segment,
    view_bytes Sample.swapped_offsets_blob {| start := 92; length_ := 8 |}
    = Ret segment
    /\ len segment = 8.
Proof.
  destruct (startup_and_read_only_views_inside (build := Sample.build64)
              Sample.swapped_offsets_blob
              (le_split 4 2 ++ le_split 4 0 ++ le_split 4 0
                 ++ repeat Byte.x00 64
                 ++ le_split 4 92 ++ le_split 4 100 ++ le_split 4 96
                 ++ repeat Byte.x00 32))
    as [_ Hro]; [reflexivity | vm_compute; reflexivity |].
  destruct (Hro {| start := 92; length_ := 8 |})
    as (segment & Hv & Hl & _); [vm_compute; reflexivity |].
  exists segment. split; [exact Hv | exact Hl].
Defined.

(** X6.  On a blob whose buffer holds [raw_size] bytes, a view returned by
    [ExtractContextData] was taken for an index below the stored context
    count and begins inside the blob, at the stored offset of that
    context; for the last context the view is the rest of the blob from
    that offset. *)
Theorem context_view_begins_inside (blob : StartupData) (bytes : list byte)
    (index : Z) (v : Vector) :
  data blob = Some bytes -> raw_size blob = len bytes ->
  raw_size blob < 2 ^ 32 -> 0 <= index < 2 ^ 32 ->
  ExtractContextData blob index = Ret v ->
  exists num_contexts,
    ExtractNumContexts blob = Ret num_contexts
    /\ index < num_contexts
    /\ GetHeaderValue blob (ContextSnapshotOffsetOffset index)
       = Ret (start v)
    /\ 0 <= start v < raw_size blob
    /\ (index = num_contexts - 1 ->
        view_bytes blob v = Ret (skipn (Z.to_nat (start v)) bytes)).
Proof.
  intros Hd Hsize Hlt Hi H. unfold ExtractContextData in H.
  apply bind_Ret_inv in H as (n & Hn & H).
  apply bind_Ret_inv in H as ([] & Hc & H).
  apply CHECK_Ret_inv, Z.ltb_lt in Hc.
  apply bind_Ret_inv in H as (off & Hoff & H).
  unfold ExtractContextOffset in Hoff.
  apply bind_Ret_inv in Hoff as (off' & Hread & Hoff).
  apply bind_Ret_inv in Hoff as ([] & Hc2 & Hoff).
  apply CHECK_Ret_inv, Z.ltb_lt in Hc2. injection Hoff as ->.
  pose proof (GetHeaderValue_range _ _ _ Hread) as Hor.
  destruct (ExtractNumContexts_range blob n Hn) as [Hnr Hpos].
  assert (Hu : to_uint32 (raw_size blob) = raw_size blob).
  { apply to_uint32_small. lia. }
  rewrite Hu in *.
  exists n. split; [exact Hn |]. split; [exact Hc |].
  apply bind_Ret_inv in H as (next & Hnext & H). injection H as <-.
  cbn [start length_]. split; [exact Hread |]. split; [lia |].
  intros ->.
  rewrite (to_uint32_small (n - 1)) in Hnext by lia.
  rewrite Z.eqb_refl in Hnext. injection Hnext as <-.
  rewrite to_uint32_small by lia.
  unfold view_bytes. rewrite Hd. cbn [start length_]. rewrite Hsize.
  apply slice_from. lia.
Qed.

Lemma context_view_begins_inside_witness :
  view_bytes Sample.swapped_offsets_blob {| start := 96; length_ := 24 |}
  = Ret (repeat Byte.x00 24).
Proof.
  destruct (context_view_begins_inside Sample.swapped_offsets_blob
              (le_split 4 2 ++ le_split 4 0 ++ le_split 4 0
                 ++ repeat Byte.x00 64
                 ++ le_split 4 92 ++ le_split 4 100 ++ le_split 4 96
                 ++ repeat Byte.x00 32)
              1 {| start := 96; length_ := 24 |})
    as (n & Hn & _ & _ & _ & Hlast);
    [reflexivity | vm_compute; reflexivity | vm_compute; reflexivity
    | lia | vm_compute; reflexivity |].
  vm_compute in Hn. injection Hn as <-.
  rewrite Hlast by reflexivity. vm_compute. reflexivity.
Defined.

(* ------------------------------------------------------------------ *)
(** ** Further properties: contexts of a built blob *)

Lemma built_context_view {build : Build} (can_be_rehashed : bool)
    (startup read_only : SnapshotData) (front : list SnapshotData)
    (last_context : SnapshotData) (i : nat) (c : SnapshotData) :
  ideal_total_length startup read_only (front ++ [last_context]) < 2 ^ 31 ->
  RawData last_context <> [] ->
  nth_error (front ++ [last_context]) i = Some c ->
  exists v,
    ExtractContextData
      {| data := Some (blob_image can_be_rehashed startup read_only
                                  (front ++ [last_context]));
         raw_size := ideal_total_length startup read_only
                       (front ++ [last_context]) |}
      (Z.of_nat i) = Ret v
    /\ length_ v = len (RawData c)
    /\ slice (blob_image can_be_rehashed startup read_only
                         (front ++ [last_context]))
             (start v) (length_ v) = Ret (RawData c).
Proof.
  intros Hfit Hl Hnth.
  apply len_pos_of_nonempty in Hl.
  destruct (nth_error_split _ _ Hnth) as (l1 & l2 & Hsplit & Hi).
  assert (Hidx : Z.of_nat i = len l1) by (unfold len; lia).
  pose proof (payload_size_nonneg l2) as Hp2.
  pose proof (len_nonneg (RawData c)) as Hlc.
  assert (Htail : l2 <> [] -> 0 < payload_size l2).
  { intros Hl2.
    assert (Hx : front ++ [last_context] = (l1 ++ [c]) ++ l2)
      by (rewrite <- app_assoc; exact Hsplit).
    destruct (tail_ends_with_last _ _ _ _ Hx Hl2) as (l2' & ->).
    rewrite payload_size_app. simpl.
    pose proof (payload_size_nonneg l2'). lia. }
  assert (Hpos : 0 < len (RawData c) + payload_size l2).
  { destruct l2 as [| x l2'].
    - pose proof Hsplit as Hs'.
      apply app_inj_tail in Hs' as [_ <-]. simpl. lia.
    - specialize (Htail ltac:(discriminate)). lia. }
  rewrite Hidx.
  rewrite (extract_context can_be_rehashed startup read_only _ Hfit _ _ _
             Hsplit Hpos Htail).
  eexists. split; [reflexivity |]. cbn [start length_].
  split; [reflexivity |].
  apply (context_bytes can_be_rehashed startup read_only _ Hfit _ _ _ Hsplit).
Qed.



(* ------------------------------------------------------------------ *)
(** ** Further properties: the version gate *)




Lemma embedded_version_built {build : Build} (can_be_rehashed : bool)
    (startup read_only : SnapshotData) (contexts : list SnapshotData) :
  ideal_total_length startup read_only contexts < 2 ^ 31 ->
  embedded_version (blob_image can_be_rehashed startup read_only contexts)
  = version_field.
Proof.
  intros Hfit.
  destruct (image_fields can_be_rehashed startup read_only contexts Hfit)
    as (hn & hr & hc & V & ro & offs & zp & Himg & _ & _ & _ & EV & _ & _
        & _ & _ & Hhn & Hhr & Hhc & HV & _).
  unfold embedded_version. rewrite Himg, <- EV.
  change (Z.to_nat kVersionStringOffset) with 12%nat.
  change (Z.to_nat kVersionStringLength) with 64%nat.
  replace (hn ++ hr ++ hc ++ V ++ ro ++ offs ++ zp ++ RawData startup
              ++ RawData read_only ++ flat_map RawData contexts)
    with ((hn ++ hr ++ hc) ++ V ++ ro ++ offs ++ zp ++ RawData startup
              ++ RawData read_only ++ flat_map RawData contexts)
    by reassoc.
  rewrite skipn_app, skipn_all2 by (rewrite !length_app; lia).
  rewrite !length_app, Hhn, Hhr, Hhc. cbn [app Nat.sub Nat.add skipn].
  rewrite firstn_app, firstn_all2 by lia.
  rewrite HV, Nat.sub_diag. cbn [firstn]. now rewrite app_nil_r.
Qed.

(** What [CheckVersion] returns on a blob that holds [raw_size] bytes,
    more than 76. *)
Lemma CheckVersion_outcome {build : Build} (blob : StartupData)
    (bytes : list byte) :
  data blob = Some bytes -> raw_size blob = len bytes ->
  kVersionStringOffset + kVersionStringLength < raw_size blob < 2 ^ 31 ->
  (c_str (embedded_version bytes) = c_str version_field ->
   CheckVersion blob = Ret tt)
  /\ (c_str (embedded_version bytes) <> c_str version_field ->
      CheckVersion blob
      = Fatal (VersionMismatch (c_str version_field)
                 (c_str (embedded_version bytes)) (raw_size blob)
                 (le_combine (firstn 4 bytes)))).
Proof.
  intros Hd Hsize Hrange.
  pose proof (len_nonneg bytes) as Hb.
  unfold CheckVersion.
  change kVersionStringOffset with 12 in *.
  change kVersionStringLength with 64 in *.
  change (12 + 64) with 76 in *.
  rewrite (to_uint32_small (raw_size blob)) by lia.
  rewrite CHECK_true by (apply Z.ltb_lt; lia). cbn [bind].
  rewrite Hd.
  change (GetString (repeat Byte.x00 (Z.to_nat 64))) with version_field.
  pose proof version_field_length as HV.
  assert (Hemb : (64 <= length (skipn (Z.to_nat 12) bytes))%nat)
    by (rewrite length_skipn; unfold len in *; lia).
  destruct (strncmp_c_str 64 version_field (skipn (Z.to_nat 12) bytes)
              ltac:(lia) Hemb) as (z & Hz & Hiff).
  change (Z.to_nat 64) with 64%nat.
  rewrite Hz. cbn [bind].
  rewrite (firstn_all2 (n := 64) version_field) in Hiff by lia.
  change (firstn 64 (skipn (Z.to_nat 12) bytes))
    with (embedded_version bytes) in Hiff.
  split.
  - intros Heq. replace z with 0 by (symmetry; apply Hiff; congruence).
    reflexivity.
  - intros Hne.
    replace (z =? 0) with false
      by (symmetry; apply Z.eqb_neq; intros Hz0; apply Hne; symmetry;
          now apply Hiff).
    cbn [negb].
    rewrite !printed_string_c_str by lia. cbn [bind].
    rewrite (firstn_all2 (n := 64) version_field) by lia.
    change (firstn 64 (skipn (Z.to_nat 12) bytes))
      with (embedded_version bytes).
    unfold ExtractNumContexts, GetHeaderValue, ReadLittleEndianValue.
    rewrite CHECK_true
      by (apply Z.ltb_lt; change kNumberOfContextsOffset with 0; lia).
    cbn [bind]. rewrite Hd. change kNumberOfContextsOffset with 0.
    rewrite slice_prefix by lia. reflexivity.
Qed.

Lemma CheckVersion_built {maker loader : Build} (can_be_rehashed : bool)
    (startup read_only : SnapshotData) (contexts : list SnapshotData) :
  ideal_total_length (build := maker) startup read_only contexts < 2 ^ 31 ->
  let blob :=
    {| data := Some (blob_image (build := maker) can_be_rehashed startup
                                read_only contexts);
       raw_size := ideal_total_length (build := maker) startup read_only
                     contexts |} in
  (c_str (version_field (build := maker))
   = c_str (version_field (build := loader)) ->
   CheckVersion (build := loader) blob = Ret tt)
  /\ (c_str (version_field (build := maker))
      <> c_str (version_field (build := loader)) ->
      CheckVersion (build := loader) blob
      = Fatal (VersionMismatch (c_str (version_field (build := loader)))
                 (c_str (version_field (build := maker)))
                 (ideal_total_length (build := maker) startup read_only
                    contexts)
                 (len contexts))).
Proof.
  intros Hfit blob.
  destruct (layout_facts (build := maker) startup read_only contexts Hfit)
    as (H0 & Hs & Hr & Hc & Hal & Htot & HS0).
  pose proof (image_length (build := maker) can_be_rehashed startup read_only
                contexts Hfit) as Hlen.
  pose proof (embedded_version_built (build := maker) can_be_rehashed startup
                read_only contexts Hfit) as Hemb.
  pose proof (read_num_contexts (build := maker) can_be_rehashed startup
                read_only contexts Hfit) as Hnum.
  destruct (CheckVersion_outcome (build := loader) blob
              (blob_image (build := maker) can_be_rehashed startup read_only
                 contexts))
    as [Hpass Hfail].
  - reflexivity.
  - cbn [raw_size blob]. now rewrite Hlen.
  - cbn [raw_size blob]. change kVersionStringOffset with 12.
    change kVersionStringLength with 64. lia.
  - rewrite Hemb in *. split; [exact Hpass |].
    intros Hne. rewrite (Hfail Hne). cbn [raw_size blob].
    do 2 f_equal.
    unfold ExtractNumContexts, GetHeaderValue, ReadLittleEndianValue in Hnum.
    cbn [raw_size data] in Hnum.
    rewrite CHECK_true in Hnum
      by (apply Z.ltb_lt; change kNumberOfContextsOffset with 0; lia).
    cbn [bind] in Hnum. change kNumberOfContextsOffset with 0 in Hnum.
    rewrite slice_prefix in Hnum by (rewrite Hlen; lia).
    cbn [bind] in Hnum. now injection Hnum.
Qed.



(* ------------------------------------------------------------------ *)
(** ** Further properties: what the blob depends on *)

Lemma raw_data_determines {build : Build} (cs : list SnapshotData) :
  forall cs' : list SnapshotData,
    map RawData cs = map RawData cs' ->
    length cs = length cs'
    /\ payload_size cs = payload_size cs'
    /\ flat_map RawData cs = flat_map RawData cs'
    /\ forall first : Z, context_offsets first cs = context_offsets first cs'.
Proof.
  induction cs as [| c cs IH]; intros [| c' cs'] Heq; try discriminate.
  - repeat split.
  - cbn [map] in Heq. injection Heq as Hc Hcs.
    destruct (IH cs' Hcs) as (Hl & Hp & Hf & Ho).
    cbn [length payload_size fold_right flat_map context_offsets].
    unfold payload_size in Hp. rewrite Hc, Hl, Hp, Hf.
    repeat split. intros first. now rewrite Ho.
Qed.

Lemma blob_image_of_raw_data {build : Build} (can_be_rehashed : bool)
    (s s' r r' : SnapshotData) (cs cs' : list SnapshotData) :
  RawData s = RawData s' -> RawData r = RawData r' ->
  map RawData cs = map RawData cs' ->
  blob_image can_be_rehashed s r cs = blob_image can_be_rehashed s' r' cs'
  /\ ideal_total_length s r cs = ideal_total_length s' r' cs'.
Proof.
  intros Hs Hr Hcs.
  destruct (raw_data_determines cs cs' Hcs) as (Hl & Hp & Hf & Ho).
  assert (Hlen : len cs = len cs') by (unfold len; now rewrite Hl).
  unfold blob_image, blob_body, ideal_total_length.
  rewrite Hs, Hr, Hlen, Hp, Hf, Ho. split; reflexivity.
Qed.

(** X9.  The blob is a function of the stored segment bytes and of the
    rehashability flag alone: two calls of [CreateSnapshotBlob] whose
    stored (possibly compressed) segments hold the same bytes return the
    same blob, whatever the reservations of the segments, the profiling
    flag and the previous content of the allocated array. *)
Theorem blob_determined_by_stored_bytes {build : Build}
    (flag flag' : bool) (fresh fresh' : nat -> byte)
    (startup_in startup_in' read_only_in read_only_in' : SnapshotData)
    (contexts_in contexts_in' : list SnapshotData)
    (can_be_rehashed : bool) :
  ideal_total_length (MaybeCompress startup_in) (MaybeCompress read_only_in)
    (map MaybeCompress contexts_in) < 2 ^ 31 ->
  RawData (MaybeCompress startup_in) = RawData (MaybeCompress startup_in') ->
  RawData (MaybeCompress read_only_in)
  = RawData (MaybeCompress read_only_in') ->
  map RawData (map MaybeCompress contexts_in)
  = map RawData (map MaybeCompress contexts_in') ->
  exists blob,
    produced_blob (CreateSnapshotBlob flag fresh startup_in read_only_in
                     contexts_in can_be_rehashed) = Ret blob
    /\ produced_blob (CreateSnapshotBlob flag' fresh' startup_in'
                        read_only_in' contexts_in' can_be_rehashed)
       = Ret blob.
Proof.
  intros Hfit Hs Hr Hcs.
  destruct (blob_image_of_raw_data can_be_rehashed _ _ _ _ _ _ Hs Hr Hcs)
    as [Himg Htot].
  assert (Hfit' : ideal_total_length (MaybeCompress startup_in')
                    (MaybeCompress read_only_in')
                    (map MaybeCompress contexts_in') < 2 ^ 31)
    by (now rewrite <- Htot).
  destruct (CreateSnapshotBlob_layout flag fresh startup_in read_only_in
              contexts_in can_be_rehashed Hfit) as [out Hmade].
  destruct (CreateSnapshotBlob_layout flag' fresh' startup_in' read_only_in'
              contexts_in' can_be_rehashed Hfit') as [out' Hmade'].
  eexists. rewrite Hmade, Hmade'. cbn [produced_blob bind].
  split; [reflexivity |]. now rewrite Himg, Htot.
Qed.

Lemma blob_determined_by_stored_bytes_witness :
  exists blob,
    produced_blob
      (CreateSnapshotBlob (build := Sample.build64) false Sample.stale
         (Sample.segment "S1") (Sample.segment "RO1")
         [Sample.segment "C0AAA"] true) = Ret blob
    /\ produced_blob
         (CreateSnapshotBlob (build := Sample.build64) true
            (fun _ => Byte.x2a)
            {| RawData := Sample.ascii_bytes "S1"; Reservations := [] |}
            (Sample.segment "RO1") [Sample.segment "C0AAA"] true)
       = Ret blob.
Proof.
  apply (blob_determined_by_stored_bytes (build := Sample.build64));
    vm_compute; reflexivity.
Defined.

(* ------------------------------------------------------------------ *)
(** ** Further properties: loading a blob *)

Section LoadingBuilt.

Context {build : Build} {engine : Engine}.

Lemma MaybeDecompress_read (blob : StartupData) (v : Vector)
    (bytes : list byte) :
  view_bytes blob v = Ret bytes ->
  (pending <- MaybeDecompress blob v ;; pending)
  = Ret (loaded_segment bytes).
Proof.
  intros Hv. unfold MaybeDecompress, loaded_segment.
  destruct V8_SNAPSHOT_COMPRESSION; rewrite Hv; reflexivity.
Qed.

Lemma MaybeDecompress_defined (blob : StartupData) (v : Vector)
    (bytes : list byte) :
  view_bytes blob v = Ret bytes ->
  exists pending,
    MaybeDecompress blob v = Ret pending
    /\ pending = Ret (loaded_segment bytes).
Proof.
  intros Hv. unfold MaybeDecompress, loaded_segment.
  destruct V8_SNAPSHOT_COMPRESSION; rewrite Hv; cbn [bind]; eauto.
Qed.

Lemma MaybeDecompress_Ret_inv (blob : StartupData) (v : Vector)
    (pending : outcome SnapshotData) (loaded : SnapshotData) :
  MaybeDecompress blob v = Ret pending -> pending = Ret loaded ->
  exists bytes,
    view_bytes blob v = Ret bytes /\ loaded = loaded_segment bytes.
Proof.
  unfold MaybeDecompress, loaded_segment.
  destruct V8_SNAPSHOT_COMPRESSION; intros H Hp.
  - apply bind_Ret_inv in H as (bytes & Hv & H). injection H as <-.
    injection Hp as <-. eauto.
  - injection H as <-.
    apply bind_Ret_inv in Hp as (bytes & Hv & Hp). injection Hp as <-. eauto.
Qed.

(** X10.  [Initialize] on an isolate that has a snapshot available and
    carries a blob built by [CreateSnapshotBlob] of the same build (startup
    and read-only segments and the last context not empty, total length in
    an [int]) passes the version and checksum checks and returns what
    [InitWithSnapshot] returns for the stored read-only and startup bytes,
    each loaded once, both with the rehashability the blob was built
    with; under the profiling flag it reports the stored startup size. *)
Theorem Initialize_built
    (flag profile : bool) (fresh : nat -> byte)
    (startup_in read_only_in : SnapshotData)
    (front : list SnapshotData) (last_context : SnapshotData)
    (can_be_rehashed : bool) (blob : StartupData) (out : list line)
    (isolate : Isolate) :
  RawData (MaybeCompress startup_in) <> [] ->
  RawData (MaybeCompress read_only_in) <> [] ->
  RawData (MaybeCompress last_context) <> [] ->
  ideal_total_length (MaybeCompress startup_in) (MaybeCompress read_only_in)
    (map MaybeCompress (front ++ [last_context])) < 2 ^ 31 ->
  CreateSnapshotBlob flag fresh startup_in read_only_in
    (front ++ [last_context]) can_be_rehashed = Ret (blob, out) ->
  snapshot_blob isolate = Some blob ->
  snapshot_available isolate = true ->
  Initialize profile isolate
  = Ret (InitWithSnapshot isolate
           (loaded_segment (RawData (MaybeCompress read_only_in)),
            can_be_rehashed)
           (loaded_segment (RawData (MaybeCompress startup_in)),
            can_be_rehashed),
         if profile
         then [DeserializingIsolate
                 (len (RawData (MaybeCompress startup_in)))]
         else []).
Proof.
  intros Hs Hr Hl Hfit Hmade Hblob Hav.
  destruct (CreateSnapshotBlob_layout flag fresh startup_in read_only_in
              (front ++ [last_context]) can_be_rehashed Hfit) as [out' Hlay].
  rewrite Hlay in Hmade. injection Hmade as <- _. clear Hlay out'.
  set (s := MaybeCompress startup_in) in *.
  set (r := MaybeCompress read_only_in) in *.
  set (cs := map MaybeCompress (front ++ [last_context])) in *.
  apply len_pos_of_nonempty in Hs, Hr, Hl.
  assert (Hcs : cs = map MaybeCompress front ++ [MaybeCompress last_context])
    by (unfold cs; now rewrite map_app).
  assert (Hne : cs <> []).
  { rewrite Hcs. intros E. now apply app_eq_nil in E as [_ E]. }
  assert (Hpay : 0 < payload_size cs).
  { rewrite Hcs, payload_size_app. simpl.
    pose proof (payload_size_nonneg (map MaybeCompress front)). lia. }
  destruct (layout_facts s r cs Hfit) as (H0 & Hs0 & Hr0 & Hc & Hal & Htot & _).
  unfold Initialize. rewrite Hav, Hblob. cbn [negb].
  pose proof (proj1 (CheckVersion_built (maker := build) (loader := build)
                       can_be_rehashed s r cs Hfit) eq_refl) as Hcv.
  rewrite Hcv. cbn [bind].
  destruct (VerifyChecksum_built can_be_rehashed s r cs _ _ Hfit eq_refl
              eq_refl) as [_ ->].
  cbn [bind CHECK].
  rewrite (extract_startup can_be_rehashed s r cs Hfit) by (auto; lia).
  cbn [bind].
  rewrite (extract_read_only can_be_rehashed s r cs Hfit) by auto.
  cbn [bind].
  match goal with
  | |- context [MaybeDecompress ?b ?v] =>
      destruct (MaybeDecompress_defined b v (RawData s)) as (ps & -> & ->);
        [exact (startup_bytes can_be_rehashed s r cs Hfit) |]
  end.
  cbn [bind].
  match goal with
  | |- context [MaybeDecompress ?b ?v] =>
      destruct (MaybeDecompress_defined b v (RawData r)) as (pr & -> & ->);
        [exact (read_only_bytes can_be_rehashed s r cs Hfit) |]
  end.
  cbn [bind].
  rewrite (ExtractRehashability_built can_be_rehashed s r cs Hfit).
  cbn [bind length_].
  rewrite to_int32_small by lia. reflexivity.
Qed.

(** X11.  [Initialize] never initializes from a blob it has not checked:
    when it returns, either no snapshot was available and the result is
    false with nothing printed, or the attached blob passed [CheckVersion]
    and [VerifyChecksum], and the result is that of [InitWithSnapshot] on
    the bytes of the views [ExtractStartupData] and [ExtractReadOnlyData]
    returned, both with the flag [ExtractRehashability] returned. *)
Theorem Initialize_only_after_checks (profile : bool) (isolate : Isolate)
    (success : bool) (printed : list timing_line) :
  Initialize profile isolate = Ret (success, printed) ->
  (snapshot_available isolate = false /\ success = false /\ printed = [])
  \/ exists blob startup_view read_only_view startup_bytes read_only_bytes
            rehashability,
       snapshot_available isolate = true
       /\ snapshot_blob isolate = Some blob
       /\ CheckVersion blob = Ret tt
       /\ VerifyChecksum blob = Ret true
       /\ ExtractStartupData blob = Ret startup_view
       /\ view_bytes blob startup_view = Ret startup_bytes
       /\ ExtractReadOnlyData blob = Ret read_only_view
       /\ view_bytes blob read_only_view = Ret read_only_bytes
       /\ ExtractRehashability blob = Ret rehashability
       /\ success
          = InitWithSnapshot isolate
              (loaded_segment read_only_bytes, rehashability)
              (loaded_segment startup_bytes, rehashability).
Proof.
  unfold Initialize. intros H.
  destruct (snapshot_available isolate) eqn:Hav; cbn [negb] in H.
  2:{ injection H as <- <-. left. auto. }
  right. destruct (snapshot_blob isolate) as [blob |]; [| discriminate].
  apply bind_Ret_inv in H as ([] & Hcv & H).
  apply bind_Ret_inv in H as (verified & Hvc & H).
  apply bind_Ret_inv in H as ([] & Hc & H).
  apply CHECK_Ret_inv in Hc. subst verified.
  apply bind_Ret_inv in H as (sv & Hsv & H).
  apply bind_Ret_inv in H as (rv & Hrv & H).
  apply bind_Ret_inv in H as (ps & Hps & H).
  apply bind_Ret_inv in H as (pr & Hpr & H).
  apply bind_Ret_inv in H as (b1 & Hb1 & H).
  apply bind_Ret_inv in H as (b2 & Hb2 & H).
  apply bind_Ret_inv in H as (ro & Hro & H).
  apply bind_Ret_inv in H as (st & Hst & H).
  injection H as <- _.
  destruct (MaybeDecompress_Ret_inv _ _ _ _ Hps Hst) as (sb & Hsb & ->).
  destruct (MaybeDecompress_Ret_inv _ _ _ _ Hpr Hro) as (rb & Hrb & ->).
  assert (b2 = b1) by congruence. subst b2.
  exists blob, sv, rv, sb, rb, b1. repeat split; auto.
Qed.

(** What [NewContextFromSnapshot] does on a built blob for a
    [context_index] whose low 32 bits are [i]. *)
Lemma NewContextFromSnapshot_at
    (flag profile : bool) (fresh : nat -> byte)
    (startup_in read_only_in : SnapshotData)
    (front : list SnapshotData) (last_context : SnapshotData)
    (can_be_rehashed : bool) (blob : StartupData) (out : list line)
    (isolate : Isolate) (global_proxy : GlobalProxyHandle)
    (callback : EmbedderFieldsCallback) (i : nat) (c : SnapshotData)
    (context_index : Z) :
  RawData (MaybeCompress last_context) <> [] ->
  ideal_total_length (MaybeCompress startup_in) (MaybeCompress read_only_in)
    (map MaybeCompress (front ++ [last_context])) < 2 ^ 31 ->
  CreateSnapshotBlob flag fresh startup_in read_only_in
    (front ++ [last_context]) can_be_rehashed = Ret (blob, out) ->
  snapshot_blob isolate = Some blob ->
  snapshot_available isolate = true ->
  nth_error (front ++ [last_context]) i = Some c ->
  to_uint32 context_index = Z.of_nat i ->
  ExtractNumContexts blob = Ret (len (front ++ [last_context]))
  /\ Z.of_nat i < len (front ++ [last_context]) < 2 ^ 31
  /\ NewContextFromSnapshot profile isolate global_proxy context_index
       callback
     = Ret (match DeserializeContext isolate
                    (loaded_segment (RawData (MaybeCompress c)))
                    can_be_rehashed global_proxy callback with
            | None => (None, [])
            | Some result =>
                (Some result,
                 if profile
                 then [DeserializingContext context_index
                         (len (RawData (MaybeCompress c)))]
                 else [])
            end).
Proof.
  intros Hl Hfit Hmade Hblob Hav Hnth Hidx.
  destruct (CreateSnapshotBlob_layout flag fresh startup_in read_only_in
              (front ++ [last_context]) can_be_rehashed Hfit) as [out' Hlay].
  rewrite Hlay in Hmade. injection Hmade as <- _. clear Hlay out'.
  set (s := MaybeCompress startup_in) in *.
  set (r := MaybeCompress read_only_in) in *.
  assert (Hcs : map MaybeCompress (front ++ [last_context])
                = map MaybeCompress front ++ [MaybeCompress last_context])
    by (now rewrite map_app).
  assert (Hn : len (map MaybeCompress (front ++ [last_context]))
               = len (front ++ [last_context]))
    by (unfold len; now rewrite length_map).
  pose proof (read_num_contexts can_be_rehashed s r _ Hfit) as Hnum.
  rewrite Hn in Hnum.
  assert (Hc : nth_error
                 (map MaybeCompress front ++ [MaybeCompress last_context]) i
               = Some (MaybeCompress c)).
  { rewrite <- Hcs. now apply map_nth_error. }
  destruct (layout_facts s r _ Hfit) as (H0 & Hs0 & Hr0 & Hp & Hal & Htot & _).
  assert (Hi : Z.of_nat i < len (front ++ [last_context])).
  { unfold len. apply Nat2Z.inj_lt. apply nth_error_Some. congruence. }
  split; [exact Hnum |]. split; [rewrite <- Hn; lia |].
  rewrite Hcs in *.
  destruct (built_context_view can_be_rehashed s r _ _ _ _ Hfit Hl Hc)
    as (v & Hv & Hlen & Hbytes).
  pose proof (len_nonneg (RawData (MaybeCompress c))) as Hlc.
  assert (Hsmall : len (RawData (MaybeCompress c)) < 2 ^ 31).
  { destruct (nth_error_split _ _ Hc) as (l1 & l2 & Hsplit & _).
    assert (Hpc : payload_size (map MaybeCompress front
                                  ++ [MaybeCompress last_context])
                  = payload_size l1
                    + (len (RawData (MaybeCompress c)) + payload_size l2))
      by (rewrite Hsplit, payload_size_app; reflexivity).
    pose proof (payload_size_nonneg l1). pose proof (payload_size_nonneg l2).
    lia. }
  unfold NewContextFromSnapshot. rewrite Hav, Hblob. cbn [negb].
  rewrite (ExtractRehashability_built can_be_rehashed s r _ Hfit).
  cbn [bind]. rewrite Hidx, Hv. cbn [bind].
  match goal with
  | |- context [MaybeDecompress ?b v] =>
      destruct (MaybeDecompress_defined b v (RawData (MaybeCompress c)))
        as (p & -> & ->); [exact Hbytes |]
  end.
  cbn [bind]. rewrite Hlen.
  rewrite to_int32_small by lia.
  destruct (DeserializeContext _ _ _ _ _); reflexivity.
Qed.

(** X12.  [NewContextFromSnapshot] at an index below the number of
    contexts, on an isolate that has a snapshot available and carries a
    blob built by [CreateSnapshotBlob] (last context not empty, total
    length in an [int]), gives [DeserializeContext] the stored bytes of
    exactly that context and the rehashability the blob was built with,
    and returns its result; under the profiling flag a successful call
    reports the index and the stored size. *)
Theorem NewContextFromSnapshot_built
    (flag profile : bool) (fresh : nat -> byte)
    (startup_in read_only_in : SnapshotData)
    (front : list SnapshotData) (last_context : SnapshotData)
    (can_be_rehashed : bool) (blob : StartupData) (out : list line)
    (isolate : Isolate) (global_proxy : GlobalProxyHandle)
    (callback : EmbedderFieldsCallback) (i : nat) (c : SnapshotData) :
  RawData (MaybeCompress last_context) <> [] ->
  ideal_total_length (MaybeCompress startup_in) (MaybeCompress read_only_in)
    (map MaybeCompress (front ++ [last_context])) < 2 ^ 31 ->
  CreateSnapshotBlob flag fresh startup_in read_only_in
    (front ++ [last_context]) can_be_rehashed = Ret (blob, out) ->
  snapshot_blob isolate = Some blob ->
  snapshot_available isolate = true ->
  nth_error (front ++ [last_context]) i = Some c ->
  NewContextFromSnapshot profile isolate global_proxy (Z.of_nat i) callback
  = Ret (match DeserializeContext isolate
                 (loaded_segment (RawData (MaybeCompress c)))
                 can_be_rehashed global_proxy callback with
         | None => (None, [])
         | Some result =>
             (Some result,
              if profile
              then [DeserializingContext (Z.of_nat i)
                      (len (RawData (MaybeCompress c)))]
              else [])
         end).
Proof.
  intros Hl Hfit Hmade Hblob Hav Hnth.
  assert (Hlt : (i < length (front ++ [last_context]))%nat)
    by (apply nth_error_Some; congruence).
  assert (Hn : len (front ++ [last_context]) < 2 ^ 31).
  { destruct (layout_facts _ _ _ Hfit) as (H0 & _ & _ & Hp & Hal & Htot & _).
    pose proof (len_nonneg (RawData (MaybeCompress startup_in))).
    pose proof (len_nonneg (RawData (MaybeCompress read_only_in))).
    unfold len in *. rewrite length_map in *. lia. }
  assert (Hidx : to_uint32 (Z.of_nat i) = Z.of_nat i)
    by (apply to_uint32_small; unfold len in Hn; lia).
  apply (NewContextFromSnapshot_at flag profile fresh startup_in read_only_in
           front last_context can_be_rehashed blob out isolate global_proxy
           callback i c (Z.of_nat i) Hl Hfit Hmade Hblob Hav Hnth Hidx).
Qed.


End LoadingBuilt.

Lemma Initialize_built_witness :
  Initialize (build := Sample.build32) (engine := SampleEngine.echo) true
    SampleEngine.scenario_isolate32
  = Ret (true, [DeserializingIsolate 2]).
Proof.
  rewrite (Initialize_built (build := Sample.build32)
             (engine := SampleEngine.echo) false true Sample.stale
             (Sample.segment "S1") (Sample.segment "RO1")
             [Sample.segment "C0AAA"] (Sample.segment "C1B") true
             SampleEngine.scenario_blob32 []);
    [vm_compute; reflexivity
    | vm_compute; discriminate | vm_compute; discriminate
    | vm_compute; discriminate | vm_compute; reflexivity
    | vm_compute; reflexivity | reflexivity | vm_compute; reflexivity].
Defined.

Lemma Initialize_only_after_checks_witness :
  CheckVersion (build := Sample.build64) Sample.scenario_blob = Ret tt
  /\ VerifyChecksum (build := Sample.build64) Sample.scenario_blob = Ret true.
Proof.
  destruct (Initialize_only_after_checks (build := Sample.build64)
              (engine := SampleEngine.echo) false
              SampleEngine.scenario_isolate true [])
    as [(Hav & _) | (blob & sv & rv & sb & rb & b & _ & Hblob & Hcv & Hvc
                     & _)].
  - vm_compute. reflexivity.
  - vm_compute in Hav. discriminate Hav.
  - assert (E : Sample.scenario_blob = blob)
      by exact (f_equal (fun o => match o with Some x => x | None => blob end)
                  Hblob).
    rewrite E. split; assumption.
Defined.

Lemma NewContextFromSnapshot_built_witness :
  NewContextFromSnapshot (build := Sample.build32)
    (engine := SampleEngine.echo) true SampleEngine.scenario_isolate32 tt 1
    tt
  = Ret (Some (Sample.ascii_bytes "C1B", true), [DeserializingContext 1 3]).
Proof.
  etransitivity.
  - apply (NewContextFromSnapshot_built (build := Sample.build32)
             (engine := SampleEngine.echo) false true Sample.stale
             (Sample.segment "S1") (Sample.segment "RO1")
             [Sample.segment "C0AAA"] (Sample.segment "C1B") true
             SampleEngine.scenario_blob32 [] SampleEngine.scenario_isolate32
             tt tt 1 (Sample.segment "C1B"));
      [vm_compute; discriminate | vm_compute; reflexivity
      | vm_compute; reflexivity | reflexivity | vm_compute; reflexivity
      | reflexivity].
  - vm_compute. reflexivity.
Defined.


(* ------------------------------------------------------------------ *)
(** ** Further properties: debug builds and diagnostics *)

(** X14.  A blob built without any context: a release build still gives
    its startup segment back (startup and read-only segments not empty,
    total length in an [int]), while a debug build refuses both
    [ExtractStartupData] and [ExtractReadOnlyData] on any blob whose
    stored context count is zero. *)
Theorem blob_without_contexts {build : Build}
    (flag : bool) (fresh : nat -> byte)
    (startup_in read_only_in : SnapshotData) (can_be_rehashed : bool) :
  RawData (MaybeCompress startup_in) <> [] ->
  RawData (MaybeCompress read_only_in) <> [] ->
  ideal_total_length (MaybeCompress startup_in) (MaybeCompress read_only_in)
    [] < 2 ^ 31 ->
  exists blob out,
    CreateSnapshotBlob flag fresh startup_in read_only_in [] can_be_rehashed
    = Ret (blob, out)
    /\ ExtractNumContexts blob = Ret 0
    /\ (DEBUG = false ->
        (v <- ExtractStartupData blob ;; view_bytes blob v)
        = Ret (RawData (MaybeCompress startup_in)))
    /\ (DEBUG = true ->
        ExtractStartupData blob
        = Fatal (CheckFailed "Snapshot::SnapshotIsValid(data)")
        /\ ExtractReadOnlyData blob
           = Fatal (CheckFailed "Snapshot::SnapshotIsValid(data)")).
Proof.
  intros Hs Hr Hfit.
  destruct (CreateSnapshotBlob_layout flag fresh startup_in read_only_in []
              can_be_rehashed Hfit) as [out Hmade].
  cbn [map] in *.
  set (s := MaybeCompress startup_in) in *.
  set (r := MaybeCompress read_only_in) in *.
  apply len_pos_of_nonempty in Hs, Hr.
  eexists. exists out. split; [exact Hmade |].
  pose proof (read_num_contexts can_be_rehashed s r [] Hfit) as Hnum.
  change (len (@nil SnapshotData)) with 0 in Hnum.
  pose proof (read_read_only_offset can_be_rehashed s r [] Hfit) as Hro.
  destruct (layout_facts s r [] Hfit) as (_ & _ & _ & _ & Hal & Htot & HS0).
  change (len (@nil SnapshotData)) with 0 in *. simpl payload_size in *.
  split; [exact Hnum |]. split.
  - intros Hdebug. unfold ExtractStartupData, DCHECK. rewrite Hdebug.
    cbn [bind]. rewrite Hnum. cbn [bind]. rewrite Hro. cbn [bind].
    rewrite HS0. unfold ExtractData. cbn [raw_size].
    rewrite !CHECK_true by (apply Z.ltb_lt; lia). cbn [bind].
    rewrite to_uint32_small by lia.
    replace (POINTER_SIZE_ALIGN (kFirstContextOffsetOffset + 4 * 0)
             + len (RawData s)
             - POINTER_SIZE_ALIGN (kFirstContextOffsetOffset + 4 * 0))
      with (len (RawData s)) by lia.
    exact (startup_bytes can_be_rehashed s r [] Hfit).
  - intros Hdebug.
    unfold ExtractStartupData, ExtractReadOnlyData, DCHECK, SnapshotIsValid.
    rewrite Hdebug, Hnum. cbn [bind CHECK Z.ltb Z.compare]. auto.
Qed.

Lemma blob_without_contexts_witness :
  exists blob out,
    Sample.no_contexts Sample.build32 = Ret (blob, out)
    /\ (v <- ExtractStartupData (build := Sample.build32) blob ;;
        view_bytes blob v) = Ret (Sample.ascii_bytes "1S").
Proof.
  destruct (blob_without_contexts (build := Sample.build32) false
              Sample.stale (Sample.segment "S1") (Sample.segment "RO1") true)
    as (blob & out & Hmade & _ & Hrelease & _);
    [vm_compute; discriminate | vm_compute; discriminate
    | vm_compute; reflexivity |].
  exists blob, out. split; [exact Hmade |]. apply Hrelease. reflexivity.
Defined.

Lemma chunk_total_nonneg (s : SnapshotData) :
  Forall (fun r => 0 <= chunk_size r) (Reservations s) -> 0 <= chunk_total s.
Proof.
  unfold chunk_total. intros H. induction H; simpl; lia.
Qed.

Lemma reserved_total_sum (s : SnapshotData) (start : Z) :
  Forall (fun r => 0 <= chunk_size r) (Reservations s) ->
  0 <= start -> start + chunk_total s < 2 ^ 31 ->
  reserved_total start s = start + chunk_total s.
Proof.
  unfold reserved_total, chunk_total.
  generalize (Reservations s) as rs. intros rs Hall. revert start.
  induction Hall as [| r rs Hr Hrs IH]; intros start Hs Hfit; simpl in *.
  - lia.
  - assert (0 <= fold_right (fun r total => chunk_size r + total) 0 rs).
    { clear - Hrs. induction Hrs; simpl; lia. }
    rewrite (to_int32_small (start + chunk_size r)) by lia.
    rewrite IH by lia. lia.
Qed.

(** X15.  The sizes [ProfileDeserialization] reports are the true sums
    when they fit in an [int]: with the flag on it prints a heading, the
    sum of the chunk sizes of the read-only and startup reservations, and
    for context [i] the sum of the chunk sizes of its reservations; with
    the flag off it prints nothing. *)
Theorem ProfileDeserialization_reports_sums
    (read_only startup : SnapshotData) (contexts : list SnapshotData) :
  Forall (fun s => Forall (fun r => 0 <= chunk_size r) (Reservations s)
                   /\ chunk_total s < 2 ^ 31)
         (read_only :: startup :: contexts) ->
  chunk_total read_only + chunk_total startup < 2 ^ 31 ->
  ProfileDeserialization false read_only startup contexts = []
  /\ length (ProfileDeserialization true read_only startup contexts)
     = (2 + length contexts)%nat
  /\ firstn 2 (ProfileDeserialization true read_only startup contexts)
     = [ReserveHeading;
        BytesPerIsolate (chunk_total read_only + chunk_total startup)]
  /\ forall (i : nat) (c : SnapshotData),
       nth_error contexts i = Some c ->
       nth_error (ProfileDeserialization true read_only startup contexts)
                 (2 + i)
       = Some (BytesPerContext (chunk_total c) (Z.of_nat i)).
Proof.
  intros Hall Hfit.
  inversion Hall as [| ? ? [Hro Hrof] Hall1]; subst.
  inversion Hall1 as [| ? ? [Hst Hstf] Hcs]; subst.
  pose proof (chunk_total_nonneg _ Hro). pose proof (chunk_total_nonneg _ Hst).
  assert (Hctx : forall (cs : list SnapshotData) (k : Z),
             Forall (fun s => Forall (fun r => 0 <= chunk_size r)
                                (Reservations s)
                              /\ chunk_total s < 2 ^ 31) cs ->
             length (profile_contexts cs k) = length cs
             /\ forall (i : nat) (c : SnapshotData),
                  nth_error cs i = Some c ->
                  nth_error (profile_contexts cs k) i
                  = Some (BytesPerContext (chunk_total c) (k + Z.of_nat i))).
  { induction cs as [| c0 cs IH]; intros k Hf.
    - split; [reflexivity |]. intros [| i] c; discriminate.
    - inversion Hf as [| ? ? [Hc0 Hc0f] Hf']; subst.
      destruct (IH (k + 1) Hf') as [IHl IHn].
      cbn [profile_contexts length]. split; [now rewrite IHl |].
      intros [| i] c Hnth; cbn [nth_error] in *.
      + injection Hnth as <-.
        rewrite reserved_total_sum; [| assumption | lia | lia].
        rewrite Z.add_0_l, Z.add_0_r. reflexivity.
      + rewrite (IHn i c Hnth).
        replace (k + 1 + Z.of_nat i) with (k + Z.of_nat (S i)) by lia.
        reflexivity. }
  destruct (Hctx contexts 0 Hcs) as [Hlen Hnth].
  unfold ProfileDeserialization.
  rewrite (reserved_total_sum read_only 0); [| assumption | lia | lia].
  rewrite reserved_total_sum; [| assumption | lia | lia].
  rewrite Z.add_0_l.
  split; [reflexivity |]. cbn [app length firstn].
  split; [now rewrite Hlen |]. split; [reflexivity |].
  intros i c Hc. cbn [Nat.add nth_error]. now rewrite (Hnth i c Hc).
Qed.

Lemma ProfileDeserialization_reports_sums_witness :
  ProfileDeserialization true (Sample.segment "RO1") (Sample.segment "S1")
    [Sample.segment "C0AAA"; Sample.segment "C1B"]
  = [ReserveHeading; BytesPerIsolate 32; BytesPerContext 16 0;
     BytesPerContext 16 1].
Proof.
  destruct (ProfileDeserialization_reports_sums (Sample.segment "RO1")
              (Sample.segment "S1")
              [Sample.segment "C0AAA"; Sample.segment "C1B"])
    as (_ & Hlen & Hhead & Hnth).
  - repeat constructor; vm_compute; discriminate.
  - vm_compute. reflexivity.
  - pose proof (Hnth 0%nat (Sample.segment "C0AAA") eq_refl) as H0.
    pose proof (Hnth 1%nat (Sample.segment "C1B") eq_refl) as H1.
    destruct (ProfileDeserialization true _ _ _)
      as [| a [| b [| c [| d [| e l]]]]]; try discriminate Hlen.
    cbn in Hhead, H0, H1. injection Hhead as -> ->.
    injection H0 as ->. injection H1 as ->. reflexivity.
Defined.
